(** * Verification of the money value types of [_original_money.py]

    The development embeds the three value types of the module ([Money],
    [MoneyWithVAT], [MoneyWithVATRatio]) together with the part of Python's
    [decimal] arithmetic they are built on.

    Scope of the arithmetic model.  [decimal.Decimal] values are modelled as
    finite triples (sign, coefficient, exponent), as the Python implementation
    stores them.  Every arithmetic operation rounds its exact result to the
    precision of the default context (28 significant digits, ROUND_HALF_EVEN).
    NaN and infinities are not part of the model (a text that spells one is
    treated as invalid), and a text is read in the plain numeric syntax
    only, without surrounding whitespace or underscores.  The operations of
    [Dec] do not apply the exponent limits of the context (Emin = -999999,
    Emax = 999999): they never signal [Overflow] and never underflow.  The
    limits are defined on their own ([in_context]); the theorems that state
    that a product or a quotient succeeds take operands far inside them
    ([within_limits]) and show that every result on the way stays inside.
    Binary floats are not modelled.

    Scope of the rest.  Besides the value types the development covers the
    module-level [sum_], [MoneyWithVAT.from_json] on decoded JSON documents
    without floats, the decoders of the three types, and the descriptors
    [_MoneyFieldProxy.__get__], [MoneyWithVATField] and
    [MoneyWithVATFieldNullable] on an instance whose attributes are plain
    attributes.  Formatting for display, currencies and the database side of
    the fields belong to other libraries and are left out. *)

From Stdlib Require Import ZArith NArith List String Ascii Bool Lia.
Import ListNotations.
Open Scope Z_scope.

(** ** Exceptions and results *)

Inductive exn : Type :=
| TypeError
| AttributeError
| ValueError
| DivisionByZero
| InvalidOperation
| ValidationError
| AssertionError.

Inductive result (A : Type) : Type :=
| Ok (a : A)
| Raise (e : exn).
Arguments Ok {A} a.
Arguments Raise {A} e.

Definition bind {A B : Type} (r : result A) (k : A -> result B) : result B :=
  match r with
  | Ok a => k a
  | Raise e => Raise e
  end.

Notation "x <- c ;; k" := (bind c (fun x => k))
  (at level 61, c at next level, right associativity).

(** ** decimal.Decimal *)

Module Dec.

(** [_sign], [_int], [_exp] of a finite [decimal.Decimal]. *)
Record Decimal : Type := mk { d_sign : bool; d_int : N; d_exp : Z }.

(** Precision of the default context. *)
Definition prec : Z := 28.

(** The signed coefficient. *)
Definition sval (d : Decimal) : Z :=
  if d_sign d then - Z.of_N (d_int d) else Z.of_N (d_int d).

Definition of_Z (z e : Z) : Decimal := mk (z <? 0) (Z.abs_N z) e.

(** [Decimal(n)] for an int [n]. *)
Definition of_int (z : Z) : Decimal := of_Z z 0.

Definition is_zero (d : Decimal) : bool := (d_int d =? 0)%N.

(** [len(str(n))] for a natural number [n]. *)
Fixpoint ndigits_aux (fuel : nat) (n : Z) : Z :=
  match fuel with
  | O => 1
  | S f => if n <? 10 then 1 else 1 + ndigits_aux f (n / 10)
  end.

Definition ndigits (n : Z) : Z := ndigits_aux (Z.to_nat (Z.log2 n)) n.

(** [n / p] rounded to the nearest integer, ties to the even one
    (ROUND_HALF_EVEN), for [0 <= n] and [0 < p]. *)
Definition round_half_even (n p : Z) : Z :=
  let q := n / p in
  let r := n mod p in
  if 2 * r <? p then q
  else if 2 * r =? p then (if Z.even q then q else q + 1)
  else q + 1.

(** [Decimal._fix] in a context of precision [p]: round to [p] digits. *)
Definition fix_in (p : Z) (d : Decimal) : Decimal :=
  let n := Z.of_N (d_int d) in
  if n =? 0 then d
  else
    let exp_min := ndigits n + d_exp d - p in
    if d_exp d <? exp_min then
      let coeff := round_half_even n (10 ^ (exp_min - d_exp d)) in
      if ndigits coeff >? p
      then mk (d_sign d) (Z.to_N (coeff / 10)) (exp_min + 1)
      else mk (d_sign d) (Z.to_N coeff) exp_min
    else d.

(** [_fix] in the default context. *)
Definition fix_ (d : Decimal) : Decimal := fix_in prec d.

(** The exact sum of two decimals, as a signed coefficient at the smaller of
    the two exponents. *)
Definition aligned_sum (a b : Decimal) : Z :=
  let exp := Z.min (d_exp a) (d_exp b) in
  sval a * 10 ^ (d_exp a - exp) + sval b * 10 ^ (d_exp b - exp).

(** The exact sum as a decimal; a zero sum is negative only when both
    operands are. *)
Definition exact_add (a b : Decimal) : Decimal :=
  let exp := Z.min (d_exp a) (d_exp b) in
  let z := aligned_sum a b in
  if z =? 0 then mk (d_sign a && d_sign b) 0 exp else of_Z z exp.

(** [Decimal.__add__]: the exact sum at the smaller exponent, rounded. *)
Definition add (a b : Decimal) : Decimal := fix_ (exact_add a b).

(** [Decimal.__neg__]: the negation of a zero is the positive zero. *)
Definition neg (d : Decimal) : Decimal :=
  fix_ (if is_zero d then mk false 0 (d_exp d)
        else mk (negb (d_sign d)) (d_int d) (d_exp d)).

(** [Decimal.__sub__]: the sign of [b] is flipped without rounding. *)
Definition sub (a b : Decimal) : Decimal :=
  add a (mk (negb (d_sign b)) (d_int b) (d_exp b)).

(** [Decimal.__abs__]. *)
Definition abs (d : Decimal) : Decimal :=
  fix_ (mk false (d_int d) (d_exp d)).

(** [Decimal.__mul__]. *)
Definition mul (a b : Decimal) : Decimal :=
  fix_ (mk (xorb (d_sign a) (d_sign b)) (d_int a * d_int b) (d_exp a + d_exp b)).

(** The loop of [__truediv__] that brings an exact quotient as close to the
    ideal exponent as possible: at most [fuel] trailing zeros are removed. *)
Fixpoint strip_zeros (fuel : nat) (coeff exp : Z) : Z * Z :=
  match fuel with
  | O => (coeff, exp)
  | S f => if coeff mod 10 =? 0 then strip_zeros f (coeff / 10) (exp + 1)
           else (coeff, exp)
  end.

(** [Decimal.__truediv__]. *)
Definition div (a b : Decimal) : result Decimal :=
  let sign := xorb (d_sign a) (d_sign b) in
  if is_zero b then
    if is_zero a then Raise InvalidOperation else Raise DivisionByZero
  else if is_zero a then
    Ok (fix_ (mk sign 0 (d_exp a - d_exp b)))
  else
    let n1 := Z.of_N (d_int a) in
    let n2 := Z.of_N (d_int b) in
    let shift := ndigits n2 - ndigits n1 + prec + 1 in
    let exp := d_exp a - d_exp b - shift in
    let '(coeff, remainder) :=
      if 0 <=? shift then (n1 * 10 ^ shift / n2, (n1 * 10 ^ shift) mod n2)
      else (n1 / (n2 * 10 ^ (- shift)), n1 mod (n2 * 10 ^ (- shift))) in
    let '(coeff, exp) :=
      if remainder =? 0 then
        strip_zeros (Z.to_nat (d_exp a - d_exp b - exp)) coeff exp
      else ((if coeff mod 5 =? 0 then coeff + 1 else coeff), exp) in
    Ok (fix_ (mk sign (Z.to_N coeff) exp)).

(** Numerical comparison ([Decimal._cmp]). *)
Definition cmp (a b : Decimal) : comparison :=
  let exp := Z.min (d_exp a) (d_exp b) in
  (sval a * 10 ^ (d_exp a - exp)) ?= (sval b * 10 ^ (d_exp b - exp)).

Definition eqb (a b : Decimal) : bool :=
  match cmp a b with Eq => true | _ => false end.

Definition ltb (a b : Decimal) : bool :=
  match cmp a b with Lt => true | _ => false end.

Definition gtb (a b : Decimal) : bool :=
  match cmp a b with Gt => true | _ => false end.

(** [Decimal._rescale] with ROUND_HALF_EVEN. *)
Definition rescale (d : Decimal) (exp : Z) : Decimal :=
  let n := Z.of_N (d_int d) in
  if is_zero d then mk (d_sign d) 0 exp
  else if exp <=? d_exp d then
    mk (d_sign d) (Z.to_N (n * 10 ^ (d_exp d - exp))) exp
  else mk (d_sign d) (Z.to_N (round_half_even n (10 ^ (exp - d_exp d)))) exp.

(** [Decimal.quantize(Decimal((0, (1,), exp)), context)] in a context of
    precision [p]: fails when the result would need more than [p] digits. *)
Definition quantize_in (p : Z) (d : Decimal) (exp : Z) : result Decimal :=
  if is_zero d then Ok (fix_in p (mk (d_sign d) 0 exp))
  else if d_exp d + ndigits (Z.of_N (d_int d)) - 1 - exp + 1 >? p
  then Raise InvalidOperation
  else
    let ans := rescale d exp in
    if ndigits (Z.of_N (d_int ans)) >? p then Raise InvalidOperation
    else Ok (fix_in p ans).

(** [round(d, n)] for an int [n]: [Decimal.__round__] quantizes to the
    exponent [-n] in the default context. *)
Definition round (d : Decimal) (n : Z) : result Decimal :=
  quantize_in prec d (- n).

(** *** Text: [format(d, "f")] and [Decimal(str)] *)

Definition digit_char (d : Z) : ascii := ascii_of_nat (48 + Z.to_nat d).

Fixpoint str_aux (fuel : nat) (n : Z) (acc : string) : string :=
  match fuel with
  | O => acc
  | S f =>
      let acc' := String (digit_char (n mod 10)) acc in
      if n <? 10 then acc' else str_aux f (n / 10) acc'
  end.

(** [str(n)] for a natural number [n]. *)
Definition str (n : Z) : string :=
  str_aux (S (Z.to_nat (Z.log2 n))) n EmptyString.

Fixpoint zeros (k : nat) : string :=
  match k with
  | O => EmptyString
  | S k' => String "0" (zeros k')
  end.

Definition len (s : string) : Z := Z.of_nat (String.length s).

Definition nonempty (s : string) : bool :=
  match s with EmptyString => false | String _ _ => true end.

(** The slices [s[:k]] and [s[k:]]. *)
Fixpoint take (k : nat) (s : string) : string :=
  match k, s with
  | S k', String c r => String c (take k' r)
  | _, _ => EmptyString
  end.

Fixpoint drop (k : nat) (s : string) : string :=
  match k, s with
  | S k', String _ r => drop k' r
  | _, _ => s
  end.

(** [f"{d:f}"]: fixed-point notation, no exponent, every digit of the
    coefficient kept; a zero with a positive exponent is first rescaled to
    the exponent 0. *)
Definition format_f (d : Decimal) : string :=
  let d := if (is_zero d && (0 <? d_exp d))%bool then rescale d 0 else d in
  let s := str (Z.of_N (d_int d)) in
  let dotplace := d_exp d + len s in
  let '(intpart, fracpart) :=
    if dotplace <? 0 then
      ("0"%string, (zeros (Z.to_nat (- dotplace)) ++ s)%string)
    else if dotplace >? len s then
      ((s ++ zeros (Z.to_nat (dotplace - len s)))%string, EmptyString)
    else
      let i := take (Z.to_nat dotplace) s in
      ((if nonempty i then i else "0"%string), drop (Z.to_nat dotplace) s) in
  ((if d_sign d then "-" else "") ++ intpart ++
   (if nonempty fracpart then String "." fracpart else EmptyString))%string.

Definition is_digit (c : ascii) : bool :=
  (48 <=? nat_of_ascii c)%nat && (nat_of_ascii c <=? 57)%nat.

Definition digit_val (c : ascii) : Z := Z.of_nat (nat_of_ascii c) - 48.

(** The longest prefix of digits, and what follows it. *)
Fixpoint span_digits (s : string) : string * string :=
  match s with
  | EmptyString => (EmptyString, EmptyString)
  | String c r =>
      if is_digit c then
        let '(ds, rest) := span_digits r in (String c ds, rest)
      else (EmptyString, s)
  end.

Fixpoint int_of_digits_acc (s : string) (acc : Z) : Z :=
  match s with
  | EmptyString => acc
  | String c r => int_of_digits_acc r (10 * acc + digit_val c)
  end.

(** [int(s)] for a string of digits. *)
Definition int_of_digits (s : string) : Z := int_of_digits_acc s 0.

(** An optional sign in front of a string. *)
Definition split_sign (s : string) : bool * string :=
  match s with
  | EmptyString => (false, s)
  | String c r =>
      if Ascii.eqb c "-" then (true, r)
      else if Ascii.eqb c "+" then (false, r)
      else (false, s)
  end.

(** The exponent part of a numeric string: absent, or [E] followed by an
    optionally signed, non-empty digit string. *)
Definition parse_exponent (s : string) : option Z :=
  match s with
  | EmptyString => Some 0
  | String c r =>
      if (Ascii.eqb c "E" || Ascii.eqb c "e")%bool then
        let '(neg, r') := split_sign r in
        let '(ds, rest) := span_digits r' in
        if (nonempty ds && negb (nonempty rest))%bool
        then Some (if neg then - int_of_digits ds else int_of_digits ds)
        else None
      else None
  end.

(** [Decimal(s)] for a string [s], restricted to finite numbers written in
    ASCII: an optional sign, digits with an optional fraction, an optional
    exponent.  Anything else is a conversion syntax error. *)
Definition of_string (s : string) : result Decimal :=
  let '(sign, s1) := split_sign s in
  let '(intpart, s2) := span_digits s1 in
  let '(fracpart, s3) :=
    match s2 with
    | EmptyString => (EmptyString, s2)
    | String c r => if Ascii.eqb c "." then span_digits r else (EmptyString, s2)
    end in
  if (nonempty intpart || nonempty fracpart)%bool then
    match parse_exponent s3 with
    | Some e =>
        Ok (mk sign (Z.to_N (int_of_digits (intpart ++ fracpart)))
              (e - len fracpart))
    | None => Raise InvalidOperation
    end
  else Raise InvalidOperation.

Fixpoint all_digits (s : string) : bool :=
  match s with
  | EmptyString => true
  | String c r => is_digit c && all_digits r
  end.

(** The shape of a fixed-point numeral with [places] fractional digits: an
    optional minus sign, at least one digit, a point, [places] digits, and
    nothing else (no exponent in particular). *)
Definition is_fixed_point (places : nat) (s : string) : bool :=
  let body :=
    match s with
    | EmptyString => s
    | String c r => if Ascii.eqb c "-" then r else s
    end in
  let '(intpart, rest) := span_digits body in
  nonempty intpart &&
  match rest with
  | EmptyString => false
  | String c frac =>
      Ascii.eqb c "." && all_digits frac
      && (String.length frac =? places)%nat
  end.

End Dec.

Abbreviation Decimal := Dec.Decimal.

(** ** Module constants *)

Record DecimalArgs : Type := { max_digits : Z; decimal_places : Z }.

Definition DECIMAL_MONEY_ARGS : DecimalArgs :=
  {| max_digits := 28; decimal_places := 12 |}.

(** ** The value types *)

(** [Money]: the only slot is [_amount]. *)
Record Money : Type := mkMoney { amount : Decimal }.

(** [MoneyWithVATRatio]: slots [_net_ratio] and [_gross_ratio]. *)
Record MoneyWithVATRatio : Type :=
  mkRatio { net_ratio : Decimal; gross_ratio : Decimal }.

(** [MoneyWithVAT]: slots [_net] and [_tax]; there is no slot for the gross
    amount. *)
Record MoneyWithVAT : Type := mkMoneyWithVAT { net : Money; tax : Money }.

(** Python objects that can reach the operators and class methods of the
    module.  Floats are left out. *)
#[local] Unset Elimination Schemes.
Inductive value : Type :=
| VNone
| VNotImplemented
| VInt (z : Z)
| VStr (s : string)
| VDecimal (d : Decimal)
| VMoney (m : Money)
| VMoneyWithVATRatio (r : MoneyWithVATRatio)
| VMoneyWithVAT (m : MoneyWithVAT)
| VList (l : list value)
| VDict (items : list (string * value)).
#[local] Set Elimination Schemes.

(** ** Money *)

(** [Money.__add__], when [other] is a [Money]. *)
Definition Money_add (a b : Money) : Money :=
  mkMoney (Dec.add (amount a) (amount b)).

(** [Money.__neg__]. *)
Definition Money_neg (a : Money) : Money := mkMoney (Dec.neg (amount a)).

(** [Money.__sub__], when [other] is a [Money]: [self.__add__(-other)]. *)
Definition Money_sub (a b : Money) : Money := Money_add a (Money_neg b).

(** [Money.__abs__]. *)
Definition Money_abs (a : Money) : Money := mkMoney (Dec.abs (amount a)).

(** [Money.__mul__] by a [Decimal]. *)
Definition Money_mul (a : Money) (d : Decimal) : Money :=
  mkMoney (Dec.mul (amount a) d).

(** [Money.__truediv__] by a [Money]: a plain [Decimal]. *)
Definition Money_div (a b : Money) : result Decimal :=
  Dec.div (amount a) (amount b).

(** [Money.__truediv__] by a [Decimal]. *)
Definition Money_div_scalar (a : Money) (d : Decimal) : result Money :=
  q <- Dec.div (amount a) d ;; Ok (mkMoney q).

(** [Money.__bool__]. *)
Definition Money_bool (a : Money) : bool := negb (Dec.is_zero (amount a)).

(** [Money.__eq__], [__lt__], [__gt__] between two [Money]. *)
Definition Money_eq (a b : Money) : bool := Dec.eqb (amount a) (amount b).
Definition Money_lt (a b : Money) : bool := Dec.ltb (amount a) (amount b).
Definition Money_gt (a b : Money) : bool := Dec.gtb (amount a) (amount b).

(** [Money.round]. *)
Definition Money_round (a : Money) (n : Z) : result Money :=
  r <- Dec.round (amount a) n ;; Ok (mkMoney r).

(** [Money.for_json]: the amount quantized to [decimal_places] fractional
    digits in a context of [max_digits] digits, printed in fixed-point
    notation. *)
Definition Money_for_json (a : Money) : result string :=
  rounded_amount <-
    Dec.quantize_in (max_digits DECIMAL_MONEY_ARGS) (amount a)
      (- decimal_places DECIMAL_MONEY_ARGS) ;;
  Ok (Dec.format_f rounded_amount).

(** ** MoneyWithVAT: properties and typed arithmetic *)

(** [MoneyWithVAT.gross]: a property computed from the two slots. *)
Definition gross (m : MoneyWithVAT) : Money := Money_add (net m) (tax m).

(** [MoneyWithVAT.__eq__] between two [MoneyWithVAT]. *)
Definition MoneyWithVAT_eq (a b : MoneyWithVAT) : bool :=
  Money_eq (net a) (net b) && Money_eq (tax a) (tax b).

(** [MoneyWithVAT.__bool__]. *)
Definition MoneyWithVAT_bool (m : MoneyWithVAT) : bool :=
  Money_bool (net m) || Money_bool (tax m).

(** [MoneyWithVAT.__lt__] and [__gt__] compare the gross amounts. *)
Definition MoneyWithVAT_lt (a b : MoneyWithVAT) : bool :=
  Money_lt (gross a) (gross b).
Definition MoneyWithVAT_gt (a b : MoneyWithVAT) : bool :=
  Money_gt (gross a) (gross b).

(** [MoneyWithVAT.__neg__]: both slots multiplied by the int [-1]. *)
Definition MoneyWithVAT_neg (m : MoneyWithVAT) : MoneyWithVAT :=
  mkMoneyWithVAT (Money_mul (net m) (Dec.of_int (-1)))
                 (Money_mul (tax m) (Dec.of_int (-1))).

(** [MoneyWithVAT.__add__], when [other] is a [MoneyWithVAT]. *)
Definition MoneyWithVAT_add (a b : MoneyWithVAT) : MoneyWithVAT :=
  mkMoneyWithVAT (Money_add (net a) (net b)) (Money_add (tax a) (tax b)).

(** [MoneyWithVAT.__sub__], when [other] is a [MoneyWithVAT]. *)
Definition MoneyWithVAT_sub (a b : MoneyWithVAT) : MoneyWithVAT :=
  MoneyWithVAT_add a (MoneyWithVAT_neg b).

(** [MoneyWithVAT.__mul__] by a [Decimal]. *)
Definition MoneyWithVAT_mul (m : MoneyWithVAT) (d : Decimal) : MoneyWithVAT :=
  mkMoneyWithVAT (Money_mul (net m) d) (Money_mul (tax m) d).

(** [MoneyWithVAT.rounded_to_cents]. *)
Definition rounded_to_cents (m : MoneyWithVAT) : result MoneyWithVAT :=
  rounded_net <- Money_round (net m) 2 ;;
  rounded_gross <- Money_round (gross m) 2 ;;
  Ok (mkMoneyWithVAT rounded_net (Money_sub rounded_gross rounded_net)).

(** [MoneyWithVAT.rounded_to_money_field_precision]. *)
Definition rounded_to_money_field_precision (m : MoneyWithVAT)
  : result MoneyWithVAT :=
  let money_field_precision := decimal_places DECIMAL_MONEY_ARGS in
  n <- Money_round (net m) money_field_precision ;;
  t <- Money_round (tax m) money_field_precision ;;
  Ok (mkMoneyWithVAT n t).

(** [MoneyWithVAT.tax_rate]. *)
Definition tax_rate (m : MoneyWithVAT) : result Decimal :=
  if Dec.eqb (amount (net m)) (Dec.of_int 0) then Ok (Dec.of_int 0)
  else Money_div (tax m) (net m).

(** ** MoneyWithVATRatio *)

(** [MoneyWithVATRatio.from_money_with_vat]. *)
Definition from_money_with_vat (dividend divisor : MoneyWithVAT)
  : result MoneyWithVATRatio :=
  n <- Money_div (net dividend) (net divisor) ;;
  g <- Money_div (gross dividend) (gross divisor) ;;
  Ok (mkRatio n g).

(** [MoneyWithVATRatio.zero]. *)
Definition Ratio_zero : MoneyWithVATRatio :=
  mkRatio (Dec.of_int 0) (Dec.of_int 0).

(** [MoneyWithVATRatio.__mul__] by a [Decimal]. *)
Definition Ratio_mul_scalar (r : MoneyWithVATRatio) (d : Decimal)
  : MoneyWithVATRatio :=
  mkRatio (Dec.mul (net_ratio r) d) (Dec.mul (gross_ratio r) d).

(** [MoneyWithVATRatio.__mul__] by a [MoneyWithVAT]: [net_ratio * other.net]
    goes through [Money.__rmul__]. *)
Definition Ratio_mul_money (r : MoneyWithVATRatio) (other : MoneyWithVAT)
  : MoneyWithVAT :=
  let amount_ := Money_mul (net other) (net_ratio r) in
  mkMoneyWithVAT amount_
    (Money_sub (Money_mul (gross other) (gross_ratio r)) amount_).

(** [MoneyWithVATRatio.__add__], [__neg__], [__sub__] between ratios. *)
Definition Ratio_add (a b : MoneyWithVATRatio) : MoneyWithVATRatio :=
  mkRatio (Dec.add (net_ratio a) (net_ratio b))
          (Dec.add (gross_ratio a) (gross_ratio b)).
Definition Ratio_neg (a : MoneyWithVATRatio) : MoneyWithVATRatio :=
  mkRatio (Dec.neg (net_ratio a)) (Dec.neg (gross_ratio a)).
Definition Ratio_sub (a b : MoneyWithVATRatio) : MoneyWithVATRatio :=
  Ratio_add a (Ratio_neg b).

(** [MoneyWithVATRatio.__eq__] between ratios. *)
Definition Ratio_eq (a b : MoneyWithVATRatio) : bool :=
  Dec.eqb (net_ratio a) (net_ratio b)
  && Dec.eqb (gross_ratio a) (gross_ratio b).

(** ** Python's dynamic side: truth values, constructors, operators *)

(** The values the constructors are declared for: [None], an int, a
    string, a [Decimal] or a [Money]. *)
Inductive amount_arg : Type :=
| ArgNone
| ArgInt (z : Z)
| ArgStr (s : string)
| ArgDecimal (d : Decimal)
| ArgMoney (m : Money).

(** [Money.__init__]: a [Money] is copied, anything else goes through
    [Decimal(amount)]. *)
Definition Money_init (amount_ : amount_arg) : result Money :=
  match amount_ with
  | ArgMoney m => Ok (mkMoney (amount m))
  | ArgInt z => Ok (mkMoney (Dec.of_int z))
  | ArgDecimal d => Ok (mkMoney d)
  | ArgStr s => d <- Dec.of_string s ;; Ok (mkMoney d)
  | ArgNone => Raise TypeError
  end.

(** [bool(a)] for a constructor argument. *)
Definition arg_truthy (a : amount_arg) : bool :=
  match a with
  | ArgNone => false
  | ArgInt z => negb (z =? 0)
  | ArgStr s => Dec.nonempty s
  | ArgDecimal d => negb (Dec.is_zero d)
  | ArgMoney m => Money_bool m
  end.

(** [MoneyWithVAT.__init__]: an argument that is not a [Money] goes through
    [Money(arg or 0)]. *)
Definition MoneyWithVAT_init (net_ tax_ : amount_arg) : result MoneyWithVAT :=
  let to_money a :=
    match a with
    | ArgMoney m => Ok m
    | _ => Money_init (if arg_truthy a then a else ArgInt 0)
    end in
  n <- to_money net_ ;;
  t <- to_money tax_ ;;
  Ok (mkMoneyWithVAT n t).

(** [-v]. *)
Definition py_neg (v : value) : result value :=
  match v with
  | VInt z => Ok (VInt (- z))
  | VDecimal d => Ok (VDecimal (Dec.neg d))
  | VMoney m => Ok (VMoney (Money_neg m))
  | VMoneyWithVATRatio r => Ok (VMoneyWithVATRatio (Ratio_neg r))
  | VMoneyWithVAT m => Ok (VMoneyWithVAT (MoneyWithVAT_neg m))
  | _ => Raise TypeError
  end.

Inductive binop : Type := Add | Sub | Mul.

(** The arithmetic methods of [int] and of [Decimal]: anything they cannot
    convert is answered with [NotImplemented]. *)
Definition int_op (op : binop) (a b : Z) : Z :=
  match op with Add => a + b | Sub => a - b | Mul => a * b end.

Definition Decimal_op (op : binop) (a b : Decimal) : Decimal :=
  match op with Add => Dec.add a b | Sub => Dec.sub a b | Mul => Dec.mul a b end.

Definition int_method (op : binop) (self : Z) (other : value) (swap : bool)
  : result value :=
  match other with
  | VInt o => Ok (VInt (if swap then int_op op o self else int_op op self o))
  | _ => Ok VNotImplemented
  end.

Definition Decimal_method (op : binop) (self : Decimal) (other : value)
    (swap : bool) : result value :=
  let apply o :=
    Ok (VDecimal (if swap then Decimal_op op o self else Decimal_op op self o)) in
  match other with
  | VInt z => apply (Dec.of_int z)
  | VDecimal d => apply d
  | _ => Ok VNotImplemented
  end.

(** [Money.__add__]. *)
Definition Money___add__ (self : Money) (other : value) : result value :=
  match other with
  | VMoney o => Ok (VMoney (Money_add self o))
  | _ => Ok VNotImplemented
  end.

(** [Money.__sub__]. *)
Definition Money___sub__ (self : Money) (other : value) : result value :=
  o <- py_neg other ;; Money___add__ self o.

(** [Money.__mul__] (and [__rmul__], which is the same function).  For an
    [other] that is neither a [Money] nor a number, the product
    [self.amount * other], or the [Money(...)] around it, ends in a
    [TypeError]. *)
Definition Money___mul__ (self : Money) (other : value) : result value :=
  match other with
  | VMoney _ => Ok VNotImplemented
  | VInt z => Ok (VMoney (Money_mul self (Dec.of_int z)))
  | VDecimal d => Ok (VMoney (Money_mul self d))
  | _ => Raise TypeError
  end.

(** The expression [m * other] for a [Money] [m]: [Money.__mul__], and a
    [TypeError] when it answers [NotImplemented] (only for another [Money],
    whose reflected method is not tried). *)
Definition Money_times (m : Money) (other : value) : result Money :=
  match Money___mul__ m other with
  | Ok (VMoney r) => Ok r
  | Ok _ => Raise TypeError
  | Raise e => Raise e
  end.

(** [MoneyWithVATRatio.__mul__]. *)
Definition Ratio___mul__ (self : MoneyWithVATRatio) (other : value)
  : result value :=
  match other with
  | VInt z => Ok (VMoneyWithVATRatio (Ratio_mul_scalar self (Dec.of_int z)))
  | VDecimal d => Ok (VMoneyWithVATRatio (Ratio_mul_scalar self d))
  | VMoneyWithVAT m => Ok (VMoneyWithVAT (Ratio_mul_money self m))
  | _ => Ok VNotImplemented
  end.

(** [MoneyWithVATRatio.__add__] and [__sub__]. *)
Definition Ratio___add__ (self : MoneyWithVATRatio) (other : value)
  : result value :=
  match other with
  | VMoneyWithVATRatio o => Ok (VMoneyWithVATRatio (Ratio_add self o))
  | _ => Raise TypeError
  end.

Definition Ratio___sub__ (self : MoneyWithVATRatio) (other : value)
  : result value :=
  o <- py_neg other ;; Ratio___add__ self o.

(** [MoneyWithVAT.__add__]: [other.net] is read without any check of the
    type of [other]. *)
Definition MoneyWithVAT___add__ (self : MoneyWithVAT) (other : value)
  : result value :=
  match other with
  | VMoneyWithVAT o => Ok (VMoneyWithVAT (MoneyWithVAT_add self o))
  | _ => Raise AttributeError
  end.

(** [MoneyWithVAT.__sub__], which is also bound to [__rsub__]. *)
Definition MoneyWithVAT___sub__ (self : MoneyWithVAT) (other : value)
  : result value :=
  o <- py_neg other ;; MoneyWithVAT___add__ self o.

(** [MoneyWithVAT.__mul__], which is also bound to [__rmul__]. *)
Definition MoneyWithVAT___mul__ (self : MoneyWithVAT) (other : value)
  : result value :=
  match other with
  | VMoneyWithVATRatio r => Ratio___mul__ r (VMoneyWithVAT self)
  | _ =>
      n <- Money_times (net self) other ;;
      t <- Money_times (tax self) other ;;
      Ok (VMoneyWithVAT (mkMoneyWithVAT n t))
  end.

(** [o.__add__(arg)], looked up on the object: [None] and dicts have no
    such attribute, strings and lists only concatenate with their kind. *)
Definition call___add__ (o arg : value) : result value :=
  match o with
  | VNone | VNotImplemented | VDict _ => Raise AttributeError
  | VStr s =>
      match arg with
      | VStr t => Ok (VStr (s ++ t))
      | _ => Raise TypeError
      end
  | VList l =>
      match arg with
      | VList l' => Ok (VList (l ++ l'))
      | _ => Raise TypeError
      end
  | VInt z => int_method Add z arg false
  | VDecimal d => Decimal_method Add d arg false
  | VMoney m => Money___add__ m arg
  | VMoneyWithVATRatio r => Ratio___add__ r arg
  | VMoneyWithVAT m => MoneyWithVAT___add__ m arg
  end.

(** [Money.__radd__]. *)
Definition Money___radd__ (self : Money) (other : value) : result value :=
  match other with
  | VInt z => if z =? 0 then Ok (VMoney self) else Ok VNotImplemented
  | _ => call___add__ other (VMoney self)
  end.

(** [Money.__rsub__]. *)
Definition Money___rsub__ (self : Money) (other : value) : result value :=
  Money___radd__ (Money_neg self) other.

(** [MoneyWithVAT.__radd__]. *)
Definition MoneyWithVAT___radd__ (self : MoneyWithVAT) (other : value)
  : result value :=
  match other with
  | VInt z => if z =? 0 then Ok (VMoneyWithVAT self) else Ok VNotImplemented
  | _ => call___add__ other (VMoneyWithVAT self)
  end.

(** The method a left operand offers for [op], if its type has one. *)
Definition forward (op : binop) (self other : value)
  : option (result value) :=
  match self with
  | VInt z => Some (int_method op z other false)
  | VDecimal d => Some (Decimal_method op d other false)
  | VMoney m =>
      Some match op with
           | Add => Money___add__ m other
           | Sub => Money___sub__ m other
           | Mul => Money___mul__ m other
           end
  | VMoneyWithVATRatio r =>
      Some match op with
           | Add => Ratio___add__ r other
           | Sub => Ratio___sub__ r other
           | Mul => Ratio___mul__ r other
           end
  | VMoneyWithVAT m =>
      Some match op with
           | Add => MoneyWithVAT___add__ m other
           | Sub => MoneyWithVAT___sub__ m other
           | Mul => MoneyWithVAT___mul__ m other
           end
  | _ => None
  end.

(** The reflected method a right operand offers for [op], if its type has
    one; [MoneyWithVATRatio] has none. *)
Definition reflected (op : binop) (self other : value)
  : option (result value) :=
  match self with
  | VInt z => Some (int_method op z other true)
  | VDecimal d => Some (Decimal_method op d other true)
  | VMoney m =>
      Some match op with
           | Add => Money___radd__ m other
           | Sub => Money___rsub__ m other
           | Mul => Money___mul__ m other
           end
  | VMoneyWithVAT m =>
      Some match op with
           | Add => MoneyWithVAT___radd__ m other
           | Sub => MoneyWithVAT___sub__ m other
           | Mul => MoneyWithVAT___mul__ m other
           end
  | _ => None
  end.

Definition same_type (a b : value) : bool :=
  match a, b with
  | VNone, VNone | VNotImplemented, VNotImplemented | VInt _, VInt _
  | VStr _, VStr _ | VDecimal _, VDecimal _ | VMoney _, VMoney _
  | VMoneyWithVATRatio _, VMoneyWithVATRatio _
  | VMoneyWithVAT _, VMoneyWithVAT _ | VList _, VList _
  | VDict _, VDict _ => true
  | _, _ => false
  end.

Fixpoint repeat_list {A : Type} (l : list A) (k : nat) : list A :=
  match k with
  | O => []
  | S k' => l ++ repeat_list l k'
  end.

Fixpoint repeat_string (s : string) (k : nat) : string :=
  match k with
  | O => EmptyString
  | S k' => (s ++ repeat_string s k')%string
  end.

(** What is left when no arithmetic method answered: concatenation and
    repetition of strings and lists, else a [TypeError]. *)
Definition sequence_fallback (op : binop) (a b : value) : result value :=
  match op, a, b with
  | Add, VStr s, VStr t => Ok (VStr (s ++ t))
  | Add, VList l, VList l' => Ok (VList (l ++ l'))
  | Mul, VStr s, VInt k | Mul, VInt k, VStr s =>
      Ok (VStr (repeat_string s (Z.to_nat k)))
  | Mul, VList l, VInt k | Mul, VInt k, VList l =>
      Ok (VList (repeat_list l (Z.to_nat k)))
  | _, _, _ => Raise TypeError
  end.

(** The expressions [a + b], [a - b] and [a * b]: the method of the left
    operand first; when it is missing or answers [NotImplemented] and the
    operands differ in type, the reflected method of the right operand. *)
Definition py_binop (op : binop) (a b : value) : result value :=
  let try_reflected :=
    if same_type a b then sequence_fallback op a b
    else
      match reflected op b a with
      | Some (Ok VNotImplemented) | None => sequence_fallback op a b
      | Some r => r
      end in
  match forward op a b with
  | Some (Ok VNotImplemented) | None => try_reflected
  | Some r => r
  end.

(** ** MoneyWithVAT: class methods *)

(** [MoneyWithVAT.__truediv__] by a [Decimal]: [self * (Decimal(1) / other)]. *)
Definition MoneyWithVAT_div (m : MoneyWithVAT) (d : Decimal)
  : result MoneyWithVAT :=
  q <- Dec.div (Dec.of_int 1) d ;; Ok (MoneyWithVAT_mul m q).

(** [MoneyWithVAT.ratio]. *)
Definition ratio (dividend divisor : value) : result MoneyWithVATRatio :=
  match dividend, divisor with
  | VMoneyWithVAT a, VMoneyWithVAT b => from_money_with_vat a b
  | _, _ => Raise TypeError
  end.

(** [v.rounded_to_cents()]: only a [MoneyWithVAT] has the attribute. *)
Definition call_rounded_to_cents (v : value) : result MoneyWithVAT :=
  match v with
  | VMoneyWithVAT m => rounded_to_cents m
  | _ => Raise AttributeError
  end.


(** [MoneyWithVAT.safe_ratio_decimal]. *)
Definition safe_ratio_decimal (dividend : option MoneyWithVAT)
    (divisor : option Decimal) : result (option MoneyWithVAT) :=
  match dividend, divisor with
  | Some m, Some d =>
      if Dec.is_zero d then Ok None
      else r <- MoneyWithVAT_div m d ;; Ok (Some r)
  | _, _ => Ok None
  end.

(** [cls(net=net, tax=tax)] for two [Decimal]s: a zero goes through
    [Money(net or 0)] and becomes [Decimal(0)]. *)
Definition MoneyWithVAT_of_decimals (net_ tax_ : Decimal) : MoneyWithVAT :=
  let to_money d := mkMoney (if Dec.is_zero d then Dec.of_int 0 else d) in
  mkMoneyWithVAT (to_money net_) (to_money tax_).

(** An iterable is either a sequence, which can be iterated again and
    again, or an iterator (a generator, say), whose items are gone once they
    have been produced. *)
Inductive iterable (A : Type) : Type :=
| Sequence (items : list A)
| Iterator (remaining : list A).
Arguments Sequence {A} items.
Arguments Iterator {A} remaining.

(** One full [for] loop over an iterable: the items it produces and the
    iterable afterwards. *)
Definition iterate {A : Type} (it : iterable A) : list A * iterable A :=
  match it with
  | Sequence l => (l, Sequence l)
  | Iterator l => (l, Iterator [])
  end.

(** The loop body of [fast_sum]. *)
Definition fast_sum_step (acc : Decimal * Decimal)
    (operand : option MoneyWithVAT) : Decimal * Decimal :=
  match operand with
  | None => acc
  | Some o =>
      if MoneyWithVAT_bool o
      then (Dec.add (fst acc) (amount (net o)),
            Dec.add (snd acc) (amount (tax o)))
      else acc
  end.

(** [MoneyWithVAT.fast_sum], with the state of [operands] after the call. *)
Definition fast_sum (operands : iterable (option MoneyWithVAT))
  : MoneyWithVAT * iterable (option MoneyWithVAT) :=
  let '(items, operands') := iterate operands in
  let '(net_, tax_) :=
    fold_left fast_sum_step items (Dec.of_int 0, Dec.of_int 0) in
  (MoneyWithVAT_of_decimals net_ tax_, operands').

Definition is_None {A : Type} (o : option A) : bool :=
  match o with None => true | Some _ => false end.

(** [MoneyWithVAT.fast_sum_with_none]: [operands] is iterated a second time
    by [all(...)] when the sum is falsy. *)
Definition fast_sum_with_none (operands : iterable (option MoneyWithVAT))
  : option MoneyWithVAT :=
  let '(result_, operands') := fast_sum operands in
  if negb (MoneyWithVAT_bool result_)
     && forallb is_None (fst (iterate operands'))
  then None
  else Some result_.

(** [iter(v)] run to the end. *)
Definition py_iter (v : value) : result (list value) :=
  match v with
  | VList l => Ok l
  | VStr s => Ok (map (fun c => VStr (String c EmptyString)) (list_ascii_of_string s))
  | VDict items => Ok (map (fun kv => VStr (fst kv)) items)
  | _ => Raise TypeError
  end.

Fixpoint mapM {A B : Type} (f : A -> result B) (l : list A)
  : result (list B) :=
  match l with
  | [] => Ok []
  | x :: r => y <- f x ;; ys <- mapM f r ;; Ok (y :: ys)
  end.

(** The builtin [max] over [Money] values: the first of the largest items,
    found with [>]; a [ValueError] for an empty argument. *)
Definition py_max (l : list Money) : result Money :=
  match l with
  | [] => Raise ValueError
  | x :: r =>
      Ok (fold_left (fun maxitem item =>
                       if Money_gt item maxitem then item else maxitem) r x)
  end.

(** [money.net] and [money.gross], looked up on an arbitrary object. *)
Definition getattr_net (v : value) : result Money :=
  match v with
  | VMoneyWithVAT m => Ok (net m)
  | _ => Raise AttributeError
  end.

Definition getattr_gross (v : value) : result Money :=
  match v with
  | VMoneyWithVAT m => Ok (gross m)
  | _ => Raise AttributeError
  end.

(** [MoneyWithVAT.max], called with the tuple [args] of its positional
    arguments. *)
Definition MoneyWithVAT_max (args : list value) : result MoneyWithVAT :=
  moneys <- match args with
            | [a] => py_iter a
            | _ => Ok args
            end ;;
  nets <- mapM getattr_net moneys ;;
  max_amount <- py_max nets ;;
  grosses <- mapM getattr_gross moneys ;;
  max_gross <- py_max grosses ;;
  Ok (mkMoneyWithVAT max_amount (Money_sub max_gross max_amount)).

(** *** Known VAT rates *)

Definition GERMAN_VAT_RATES : list Decimal :=
  [Dec.mk false 19 (-2); Dec.mk false 16 (-2); Dec.mk false 7 (-2);
   Dec.mk false 5 (-2); Dec.mk false 0 0].

Definition _AUSTRIAN_VAT_RATES : list Decimal :=
  [Dec.mk false 20 (-2); Dec.mk false 13 (-2); Dec.mk false 10 (-2);
   Dec.mk false 0 0].

Definition _DENMARK_VAT_RATES : list Decimal := [Dec.mk false 25 (-2)].

(** The elements of [set(l)]: equal decimals are kept once. *)
Fixpoint set_elements (l : list Decimal) (seen : list Decimal)
  : list Decimal :=
  match l with
  | [] => []
  | d :: r =>
      if existsb (Dec.eqb d) seen then set_elements r seen
      else d :: set_elements r (d :: seen)
  end.

(** The members of [_KNOWN_VAT_RATES]; the order of the tuple is the
    iteration order of a [set] and is kept as a parameter below. *)
Definition known_vat_rate_set : list Decimal :=
  set_elements (GERMAN_VAT_RATES ++ _AUSTRIAN_VAT_RATES ++ _DENMARK_VAT_RATES) [].

(** The tuple as CPython 3.11 builds it. *)
Definition cpython_known_vat_rates : list Decimal :=
  [Dec.mk false 0 0; Dec.mk false 25 (-2); Dec.mk false 19 (-2);
   Dec.mk false 5 (-2); Dec.mk false 16 (-2); Dec.mk false 13 (-2);
   Dec.mk false 10 (-2); Dec.mk false 7 (-2); Dec.mk false 20 (-2)].

(** The test of the loop in [tax_rate_for_display]. *)
Definition vat_matches (m : MoneyWithVAT) (rate : Decimal) : bool :=
  let vat := Money_mul (net m) rate in
  let vat_diff := Money_abs (Money_sub vat (tax m)) in
  Dec.ltb (amount vat_diff) (Dec.mk false 5 (-2)).

(** [MoneyWithVAT.tax_rate_for_display], for a given order of
    [_KNOWN_VAT_RATES]. *)
Definition tax_rate_for_display (_KNOWN_VAT_RATES : list Decimal)
    (m : MoneyWithVAT) : result Decimal :=
  tax_rate_ <- tax_rate m ;;
  if existsb (Dec.eqb tax_rate_) _KNOWN_VAT_RATES then Ok tax_rate_
  else
    match find (vat_matches m) _KNOWN_VAT_RATES with
    | Some rate => Ok rate
    | None => Ok tax_rate_
    end.

(** ** Encoding and decoding *)

(** [MoneyWithVAT.for_json]. *)
Definition MoneyWithVAT_for_json (m : MoneyWithVAT) : result value :=
  n <- Money_for_json (net m) ;;
  t <- Money_for_json (tax m) ;;
  Ok (VDict [("net"%string, VStr n); ("tax"%string, VStr t)]).

(** [pydantic.TypeAdapter(Decimal).validate_python]: a [Decimal], an int or
    a numeric string is accepted, anything else is a validation error. *)
Definition validate_decimal (v : value) : result Decimal :=
  match v with
  | VDecimal d => Ok d
  | VInt z => Ok (Dec.of_int z)
  | VStr s =>
      match Dec.of_string s with
      | Ok d => Ok d
      | Raise _ => Raise ValidationError
      end
  | _ => Raise ValidationError
  end.

(** [_pydantic_validate_money]. *)
Definition _pydantic_validate_money (values : value) : result Money :=
  match values with
  | VMoney m => Ok m
  | _ => d <- validate_decimal values ;; Ok (mkMoney d)
  end.

Definition mem_string (k : string) (ks : list string) : bool :=
  existsb (String.eqb k) ks.

(** [set(d) == set(ks)] for the keys of a dict. *)
Definition keys_are (items : list (string * value)) (ks : list string)
  : bool :=
  forallb (fun kv => mem_string (fst kv) ks) items
  && forallb (fun k => mem_string k (map fst items)) ks.

Fixpoint dict_get {A : Type} (items : list (string * A)) (k : string)
  : option A :=
  match items with
  | [] => None
  | (k', v) :: r => if String.eqb k k' then Some v else dict_get r k
  end.

(** [_pydantic_validate_money_vat]. *)
Definition _pydantic_validate_money_vat (values : value)
  : result MoneyWithVAT :=
  match values with
  | VMoneyWithVAT m => Ok m
  | VDict items =>
      if keys_are items ["net"; "tax"]%string then
        validated <- mapM (fun kv => m <- _pydantic_validate_money (snd kv) ;;
                                      Ok (fst kv, m)) items ;;
        match dict_get validated "net", dict_get validated "tax" with
        | Some n, Some t => Ok (mkMoneyWithVAT n t)
        | _, _ => Raise TypeError
        end
      else Raise AssertionError
  | _ => Raise AssertionError
  end.

(** ** Auxiliary notions used in the statements *)

(** [isinstance(v, MoneyWithVAT)]. *)
Definition isinstance_MoneyWithVAT (v : value) : bool :=
  match v with VMoneyWithVAT _ => true | _ => false end.

(** The sum [a + b] of two [Money] needs no rounding: its exact coefficient
    fits the precision of the context. *)
Definition Money_add_is_exact (a b : Money) : Prop :=
  Z.abs (Dec.aligned_sum (amount a) (amount b)) < 10 ^ Dec.prec.

(** The difference [a - b] of two [Money], computed as [a + (-b)], needs no
    rounding. *)
Definition Money_sub_is_exact (a b : Money) : Prop :=
  Money_add_is_exact a (Money_neg b).

(** [MoneyWithVAT(n, t)] for two ints. *)
Definition MoneyWithVAT_of_ints (n t : Z) : MoneyWithVAT :=
  mkMoneyWithVAT (mkMoney (Dec.of_int n)) (mkMoney (Dec.of_int t)).

(** ** Fixtures *)

(** [MoneyWithVAT(Money("4.444"), Money("2.222"))]. *)
Definition money_4444_2222 : MoneyWithVAT :=
  mkMoneyWithVAT (mkMoney (Dec.mk false 4444 (-3)))
                 (mkMoney (Dec.mk false 2222 (-3))).

(** [MoneyWithVAT(Decimal("1E+26"), 0)]. *)
Definition money_1e26 : MoneyWithVAT :=
  mkMoneyWithVAT (mkMoney (Dec.mk false 1 26)) (mkMoney (Dec.of_int 0)).

(** [MoneyWithVAT(Decimal("99999999999999999999999999.99"),
                  Decimal("-199999999999999999999999999.98"))]. *)
Definition money_28_digits : MoneyWithVAT :=
  mkMoneyWithVAT
    (mkMoney (Dec.mk false 9999999999999999999999999999 (-2)))
    (mkMoney (Dec.mk true 19999999999999999999999999998 (-2))).

(** [MoneyWithVATRatio(Decimal(1), Decimal("0.3333333333333333333333333333"))],
    the ratio of [MoneyWithVAT(1, 0)] to [MoneyWithVAT(1, 2)]. *)
Definition ratio_1_third : MoneyWithVATRatio :=
  mkRatio (Dec.mk false 1 0)
          (Dec.mk false 3333333333333333333333333333 (-28)).

(** [r] is the composite maximum of the operands [l]: its net is the net of
    an operand that no operand exceeds, and its tax is the difference
    between such a gross and that net. *)
Definition is_max_of (l : list MoneyWithVAT) (r : MoneyWithVAT) : Prop :=
  (exists m, In m l /\ net r = net m) /\
  (forall m, In m l -> Money_gt (net m) (net r) = false) /\
  exists max_gross,
    (exists m, In m l /\ max_gross = gross m) /\
    (forall m, In m l -> Money_gt (gross m) max_gross = false) /\
    tax r = Money_sub max_gross (net r).

(** The operands [(100,19), (112,999), (1,2), (99999,0)]. *)
Definition max_fixture : list MoneyWithVAT :=
  [MoneyWithVAT_of_ints 100 19; MoneyWithVAT_of_ints 112 999;
   MoneyWithVAT_of_ints 1 2; MoneyWithVAT_of_ints 99999 0].

(** [MoneyWithVAT(100, "19.00912")]. *)
Definition money_100_1900912 : MoneyWithVAT :=
  mkMoneyWithVAT (mkMoney (Dec.of_int 100))
                 (mkMoney (Dec.mk false 1900912 (-5))).

(** [Money("1E-13")] and [Money("1E+17")]. *)
Definition money_1e_minus_13 : Money := mkMoney (Dec.mk false 1 (-13)).
Definition money_1e17 : Money := mkMoney (Dec.mk false 1 17).

(** The operands of a batch that are not [None]. *)
Definition present (l : list (option MoneyWithVAT)) : list MoneyWithVAT :=
  flat_map (fun o => match o with Some m => [m] | None => [] end) l.

(** Decimals added one after the other, starting from [Decimal(0)]. *)
Definition sum_decimals (l : list Decimal) : Decimal :=
  fold_left Dec.add l (Dec.of_int 0).

(** ** Further methods of Money *)

(** [Money.__pos__]. *)
Definition Money_pos (a : Money) : Money := mkMoney (amount a).

(** [Money.__ne__], [__le__], [__ge__] between two [Money]. *)
Definition Money_ne (a b : Money) : bool := negb (Money_eq a b).
Definition Money_le (a b : Money) : bool := Money_lt a b || Money_eq a b.
Definition Money_ge (a b : Money) : bool := Money_gt a b || Money_eq a b.

(** [Money.__eq__] against any object: only a [Money] can be equal. *)
Definition Money___eq__ (self : Money) (other : value) : bool :=
  match other with
  | VMoney o => Money_eq self o
  | _ => false
  end.

(** [MoneyWithVAT.__eq__] against any object. *)
Definition MoneyWithVAT___eq__ (self : MoneyWithVAT) (other : value) : bool :=
  match other with
  | VMoneyWithVAT o => MoneyWithVAT_eq self o
  | _ => false
  end.

(** [Money()], the amount [Decimal(0)]. *)
Definition Money_zero : Money := mkMoney (Dec.of_int 0).

(** The amount of a [Money] has at most as many digits as the context
    keeps, so that no operation has to round it first. *)
Definition Money_fits (a : Money) : Prop :=
  Z.of_N (Dec.d_int (amount a)) < 10 ^ Dec.prec.

(** ** The module-level [sum_] *)

Definition is_VNone (v : value) : bool :=
  match v with VNone => true | _ => false end.

(** [sum_]: the builtin [sum] over the elements that are not [None], from
    the start value [Money()]; each step is the expression
    [result + elem]. *)
Definition sum_ (elems : iterable value) : result value :=
  fold_left (fun result_ elem => r <- result_ ;; py_binop Add r elem)
    (filter (fun elem => negb (is_VNone elem)) (fst (iterate elems)))
    (Ok (VMoney Money_zero)).

(** An optional [Money] as an element of a list. *)
Definition value_of_option_Money (o : option Money) : value :=
  match o with Some m => VMoney m | None => VNone end.

(** The [Money]s of a batch that are not [None]. *)
Definition present_Money (l : list (option Money)) : list Money :=
  flat_map (fun o => match o with Some m => [m] | None => [] end) l.

(** ** Further methods of MoneyWithVAT *)

(** [MoneyWithVAT.is_negative] and [is_positive]: the sign of the gross
    amount. *)
Definition is_negative (m : MoneyWithVAT) : bool :=
  Dec.ltb (amount (gross m)) (Dec.of_int 0).
Definition is_positive (m : MoneyWithVAT) : bool :=
  Dec.gtb (amount (gross m)) (Dec.of_int 0).

(** [MoneyWithVAT.is_equal_up_to_cents], [is_lower_up_to_cents] and
    [is_lower_or_equal_up_to_cents]: the gross amounts rounded to two
    places are compared. *)
Definition is_equal_up_to_cents (self other : MoneyWithVAT) : result bool :=
  a <- Money_round (gross self) 2 ;;
  b <- Money_round (gross other) 2 ;;
  Ok (Money_eq a b).

Definition is_lower_up_to_cents (self other : MoneyWithVAT) : result bool :=
  a <- Money_round (gross self) 2 ;;
  b <- Money_round (gross other) 2 ;;
  Ok (Money_lt a b).

Definition is_lower_or_equal_up_to_cents (self other : MoneyWithVAT)
  : result bool :=
  e <- is_equal_up_to_cents self other ;;
  if e then Ok true else is_lower_up_to_cents self other.

(** ** Division *)

(** [MoneyWithVAT.__truediv__] by a number, as a method: the quotient
    [Decimal(1) / other] first, then [self * quotient]. *)
Definition MoneyWithVAT_truediv_number (self : MoneyWithVAT) (d : Decimal)
  : result value :=
  q <- Dec.div (Dec.of_int 1) d ;; MoneyWithVAT___mul__ self (VDecimal q).

(** The expression [Decimal(1) / other]: an int is converted; for a
    [MoneyWithVAT] the method of [Decimal] answers [NotImplemented] and the
    reflected method of [other], which is [__truediv__] itself, divides
    [other] by [Decimal(1)]; [Money.__rtruediv__] answers [NotImplemented],
    and nothing else has a reflected division. *)
Definition Decimal_one_over (other : value) : result value :=
  match other with
  | VInt z => q <- Dec.div (Dec.of_int 1) (Dec.of_int z) ;; Ok (VDecimal q)
  | VDecimal d => q <- Dec.div (Dec.of_int 1) d ;; Ok (VDecimal q)
  | VMoneyWithVAT o => MoneyWithVAT_truediv_number o (Dec.of_int 1)
  | _ => Raise TypeError
  end.

(** [MoneyWithVAT.__truediv__]: [self * (Decimal(1) / other)]. *)
Definition MoneyWithVAT___truediv__ (self : MoneyWithVAT) (other : value)
  : result value :=
  q <- Decimal_one_over other ;; MoneyWithVAT___mul__ self q.

(** [Money.__truediv__]: a [Money] divisor gives a plain [Decimal], a number
    gives a [Money].  For any other divisor the quotient
    [self.amount / other] is left to the reflected method of [other]: a
    [MoneyWithVAT] divides itself by the amount, and [Money(...)] then
    rejects the result. *)
Definition Money___truediv__ (self : Money) (other : value) : result value :=
  match other with
  | VMoney o => q <- Money_div self o ;; Ok (VDecimal q)
  | VInt z => q <- Money_div_scalar self (Dec.of_int z) ;; Ok (VMoney q)
  | VDecimal d => q <- Money_div_scalar self d ;; Ok (VMoney q)
  | VMoneyWithVAT o =>
      _ <- MoneyWithVAT___truediv__ o (VDecimal (amount self)) ;;
      Raise TypeError
  | _ => Raise TypeError
  end.

(** [Money.__rtruediv__]. *)
Definition Money___rtruediv__ (self : Money) (other : value) : result value :=
  Ok VNotImplemented.

(** ** Text forms: [str(Decimal)], [repr], the codec of the ratio *)

(** [str(z)] for an int. *)
Definition int_str (z : Z) : string :=
  let sign := if z <? 0 then "-"%string else ""%string in
  (sign ++ Dec.str (Z.abs z))%string.

(** [str(d)] for a [Decimal] ([Decimal.__str__]): scientific notation with
    one digit before the point unless the exponent is at most zero and the
    number has more than -6 digits to the left of the point. *)
Definition Decimal_str (d : Decimal) : string :=
  let sign := if Dec.d_sign d then "-"%string else ""%string in
  let int_ := Dec.str (Z.of_N (Dec.d_int d)) in
  let leftdigits := Dec.d_exp d + Dec.len int_ in
  let dotplace :=
    if ((Dec.d_exp d <=? 0) && (-6 <? leftdigits))%bool then leftdigits
    else 1 in
  let '(intpart, fracpart) :=
    if dotplace <=? 0 then
      ("0"%string,
       String "." (Dec.zeros (Z.to_nat (- dotplace)) ++ int_)%string)
    else if dotplace >=? Dec.len int_ then
      ((int_ ++ Dec.zeros (Z.to_nat (dotplace - Dec.len int_)))%string,
       EmptyString)
    else
      (Dec.take (Z.to_nat dotplace) int_,
       String "." (Dec.drop (Z.to_nat dotplace) int_)) in
  let exp :=
    if leftdigits =? dotplace then EmptyString
    else
      let exp_sign :=
        if leftdigits - dotplace <? 0 then "-"%string else "+"%string in
      String "E"
        (exp_sign ++ Dec.str (Z.abs (leftdigits - dotplace)))%string in
  (sign ++ intpart ++ fracpart ++ exp)%string.

(** [Money.__repr__]. *)
Definition Money___repr__ (self : Money) : string :=
  ("Money('" ++ Decimal_str (amount self) ++ "')")%string.

(** [MoneyWithVATRatio.for_json]. *)
Definition Ratio_for_json (r : MoneyWithVATRatio) : value :=
  VDict [("net_ratio"%string, VStr (Decimal_str (net_ratio r)));
         ("gross_ratio"%string, VStr (Decimal_str (gross_ratio r)))].

(** ** MoneyWithVATRatio: the remaining methods *)

(** [MoneyWithVATRatio.__truediv__]: [self * (Decimal(1) / other)] for an
    int or a [Decimal], a [TypeError] for anything else. *)
Definition Ratio___truediv__ (self : MoneyWithVATRatio) (other : value)
  : result value :=
  match other with
  | VInt z =>
      q <- Dec.div (Dec.of_int 1) (Dec.of_int z) ;;
      Ratio___mul__ self (VDecimal q)
  | VDecimal d =>
      q <- Dec.div (Dec.of_int 1) d ;; Ratio___mul__ self (VDecimal q)
  | _ => Raise TypeError
  end.

(** [MoneyWithVATRatio.__eq__] against any object. *)
Definition Ratio___eq__ (self : MoneyWithVATRatio) (other : value) : bool :=
  match other with
  | VMoneyWithVATRatio o => Ratio_eq self o
  | _ => false
  end.

(** [_pydantic_validate_money_vat_ratio]. *)
Definition _pydantic_validate_money_vat_ratio (values : value)
  : result MoneyWithVATRatio :=
  match values with
  | VMoneyWithVATRatio r => Ok r
  | VDict items =>
      if keys_are items ["net_ratio"; "gross_ratio"]%string then
        validated <- mapM (fun kv => d <- validate_decimal (snd kv) ;;
                                      Ok (fst kv, d)) items ;;
        match dict_get validated "net_ratio",
              dict_get validated "gross_ratio" with
        | Some n, Some g => Ok (mkRatio n g)
        | _, _ => Raise TypeError
        end
      else Raise AssertionError
  | _ => Raise AssertionError
  end.

(** ** [MoneyWithVAT.from_json] *)

(** A decoded JSON document: [None], a bool, an int, a string, a list or a
    dict with string keys. *)
#[local] Unset Elimination Schemes.
Inductive json : Type :=
| JNull
| JBool (b : bool)
| JInt (z : Z)
| JStr (s : string)
| JList (items : list json)
| JDict (items : list (string * json)).
#[local] Set Elimination Schemes.

(** What [from_json] catches and hands to [InvalidJsonStructure] as the
    cause. *)
Inductive json_cause : Type :=
| CauseTypeError
| CauseKeyError
| CauseInvalidOperation.

(** [obj[key]] for a string [key]: a dict is looked up, nothing else can be
    subscripted with a string. *)
Definition subscript (obj : json) (key : string) : json_cause + json :=
  match obj with
  | JDict items =>
      match dict_get items key with
      | Some v => inr v
      | None => inl CauseKeyError
      end
  | _ => inl CauseTypeError
  end.

(** [Decimal(str(x))]: the text of a list or of a dict starts with a
    bracket and is never a number. *)
Definition Decimal_of_str (x : json) : result Decimal :=
  match x with
  | JStr s => Dec.of_string s
  | JInt z => Dec.of_string (int_str z)
  | JNull => Dec.of_string "None"
  | JBool b => Dec.of_string (if b then "True" else "False")
  | JList _ | JDict _ => Raise InvalidOperation
  end.

(** The outcome of [from_json]: the instance built, or
    [InvalidJsonStructure] with its cause. *)
Inductive from_json_result : Type :=
| Built (m : MoneyWithVAT)
| InvalidJsonStructure (cause : json_cause).

Definition with_subscript (obj : json) (key : string)
    (k : json -> from_json_result) : from_json_result :=
  match subscript obj key with
  | inr v => k v
  | inl cause => InvalidJsonStructure cause
  end.

Definition with_decimal (x : json) (k : Decimal -> from_json_result)
  : from_json_result :=
  match Decimal_of_str x with
  | Ok d => k d
  | Raise _ => InvalidJsonStructure CauseInvalidOperation
  end.

(** [MoneyWithVAT.from_json]. *)
Definition from_json (money_dict : json) : from_json_result :=
  with_subscript money_dict "amount_with_vat" (fun amount_with_vat =>
  with_subscript amount_with_vat "net" (fun net_ =>
  with_subscript net_ "amount" (fun net_amount =>
  with_subscript amount_with_vat "gross" (fun gross_ =>
  with_subscript gross_ "amount" (fun gross_amount =>
  with_decimal net_amount (fun net_ =>
  with_decimal gross_amount (fun gross_decimal =>
  Built (MoneyWithVAT_of_decimals net_ (Dec.sub gross_decimal net_))))))))).

(** ** The model fields *)

(** The attributes of an instance, by name; what is stored there is what
    the constructors accept. *)
Definition attributes : Type := list (string * amount_arg).

(** [getattr(instance, name)] and [setattr(instance, name, v)] for plain
    attributes. *)
Definition getattr (instance : attributes) (name : string)
  : result amount_arg :=
  match dict_get instance name with
  | Some v => Ok v
  | None => Raise AttributeError
  end.

Fixpoint setattr (instance : attributes) (name : string) (v : amount_arg)
  : attributes :=
  match instance with
  | [] => [(name, v)]
  | (k, w) :: r =>
      if String.eqb name k then (k, v) :: r else (k, w) :: setattr r name v
  end.

(** A [MoneyWithVATField] or [MoneyWithVATFieldNullable]: the names of the
    two attributes it combines. *)
Record MoneyWithVATField : Type := mkField {
  net_field : string;
  tax_field : string
}.

(** [MoneyWithVATField.__get__] on an instance. *)
Definition MoneyWithVATField___get__ (self : MoneyWithVATField)
    (instance : attributes) : result MoneyWithVAT :=
  net_amount <- getattr instance (net_field self) ;;
  tax_amount <- getattr instance (tax_field self) ;;
  MoneyWithVAT_init net_amount tax_amount.

(** [MoneyWithVATField.__set__]: [None] is stored as two zeros. *)
Definition MoneyWithVATField___set__ (self : MoneyWithVATField)
    (instance : attributes) (value_ : option MoneyWithVAT) : attributes :=
  let '(net_amount, tax_amount) :=
    match value_ with
    | Some v => (amount (net v), amount (tax v))
    | None => (Dec.of_int 0, Dec.of_int 0)
    end in
  setattr (setattr instance (net_field self) (ArgDecimal net_amount))
          (tax_field self) (ArgDecimal tax_amount).

Definition is_ArgNone (a : amount_arg) : bool :=
  match a with ArgNone => true | _ => false end.

(** [MoneyWithVATFieldNullable.__get__]: [None] when both attributes are. *)
Definition MoneyWithVATFieldNullable___get__ (self : MoneyWithVATField)
    (instance : attributes) : result (option MoneyWithVAT) :=
  net_amount <- getattr instance (net_field self) ;;
  tax_amount <- getattr instance (tax_field self) ;;
  if is_ArgNone net_amount && is_ArgNone tax_amount then Ok None
  else m <- MoneyWithVAT_init net_amount tax_amount ;; Ok (Some m).

(** [MoneyWithVATFieldNullable.__set__]: [None] is stored as two [None]s. *)
Definition MoneyWithVATFieldNullable___set__ (self : MoneyWithVATField)
    (instance : attributes) (value_ : option MoneyWithVAT) : attributes :=
  let '(net_amount, tax_amount) :=
    match value_ with
    | Some v => (ArgDecimal (amount (net v)), ArgDecimal (amount (tax v)))
    | None => (ArgNone, ArgNone)
    end in
  setattr (setattr instance (net_field self) net_amount)
          (tax_field self) tax_amount.

(** What [_MoneyFieldProxy.__get__] does to [obj.__dict__]: a [KeyError]
    when the name is missing, else the value read and the dict after the
    access, or the exception of [Money(...)]. *)
Inductive proxy_access : Type :=
| KeyError
| Accessed (r : result (option Money * attributes)).

(** [_MoneyFieldProxy.__get__] on an object: a stored value that is not a
    [Money] is replaced by the [Money] made from it. *)
Definition _MoneyFieldProxy___get__ (name : string) (dict_ : attributes)
  : proxy_access :=
  match dict_get dict_ name with
  | None => KeyError
  | Some ArgNone => Accessed (Ok (None, dict_))
  | Some (ArgMoney m) => Accessed (Ok (Some m, dict_))
  | Some v =>
      Accessed (m <- Money_init v ;;
                Ok (Some m, setattr dict_ name (ArgMoney m)))
  end.

(** ** The exponent limits of the context *)

(** [Emax], [Emin] and [Etiny()] of the default context. *)
Definition Emax : Z := 999999.
Definition Emin : Z := -999999.
Definition Etiny : Z := Emin - Dec.prec + 1.

(** [Decimal.adjusted()]: the exponent of the first digit. *)
Definition adjusted (d : Decimal) : Z :=
  Dec.d_exp d + Dec.ndigits (Z.of_N (Dec.d_int d)) - 1.

(** The finite results the context hands out without a signal: a non-zero
    decimal whose first digit lies above [Emax] is an [Overflow] there, one
    whose first digit lies below [Emin] is subnormal and rounded again, and
    the exponent of a zero is clamped into [Etiny, Emax].  The arithmetic
    of [Dec] has no such limits.  The context decides on the exact result,
    before it is rounded, and rounding moves the first digit by one place
    at most; away from the two ends, a result of [Dec] that is [in_context]
    is the result of the context. *)
Definition in_context (d : Decimal) : bool :=
  if Dec.is_zero d
  then (Etiny <=? Dec.d_exp d) && (Dec.d_exp d <=? Emax)
  else (Emin <=? adjusted d) && (adjusted d <=? Emax).

(** Operands that stay far inside the limits: the exponent and the first
    digit lie between 1E-300000 and 1E+300000, so that a product or a
    quotient of two such operands, and a product of such a result with a
    third operand, are still [in_context]. *)
Definition within_limits (d : Decimal) : bool :=
  (-300000 <=? Dec.d_exp d) && (adjusted d <=? 300000).

Definition MoneyWithVAT_within_limits (m : MoneyWithVAT) : bool :=
  within_limits (amount (net m)) && within_limits (amount (tax m)).

(** * Properties of the arithmetic *)

Module DecFacts.
Import Dec.

Lemma pow10_pos (k : Z) : 0 <= k -> 0 < 10 ^ k.
Proof. intros; apply Z.pow_pos_nonneg; lia. Qed.

Lemma pow10_split (a b : Z) : 0 <= a -> 0 <= b -> 10 ^ (a + b) = 10 ^ a * 10 ^ b.
Proof. intros; apply Z.pow_add_r; assumption. Qed.

Lemma pow10_le (a b : Z) : 0 <= a <= b -> 10 ^ a <= 10 ^ b.
Proof. intros; apply Z.pow_le_mono_r; lia. Qed.

Lemma pow10_lt (a b : Z) : 0 <= a < b -> 10 ^ a < 10 ^ b.
Proof. intros; apply Z.pow_lt_mono_r; lia. Qed.

(** The number of digits brackets the number between two powers of ten. *)
Lemma ndigits_aux_spec (fuel : nat) :
  forall n, 0 < n -> n < 10 * 2 ^ Z.of_nat fuel ->
  1 <= ndigits_aux fuel n /\
  10 ^ (ndigits_aux fuel n - 1) <= n < 10 ^ ndigits_aux fuel n.
Proof.
  induction fuel as [|f IH]; intros n Hpos Hlt.
  - simpl in *. change (10 ^ (1 - 1)) with 1. change (10 ^ 1) with 10. lia.
  - cbn [ndigits_aux]. destruct (Z.ltb_spec n 10) as [Hs|Hb].
    + change (10 ^ (1 - 1)) with 1. change (10 ^ 1) with 10. lia.
    + assert (Hq : 0 < n / 10) by (apply Z.div_str_pos; lia).
      assert (Hq' : n / 10 < 10 * 2 ^ Z.of_nat f).
      { rewrite Nat2Z.inj_succ, Z.pow_succ_r in Hlt by lia.
        assert (0 < 2 ^ Z.of_nat f) by (apply Z.pow_pos_nonneg; lia).
        apply Z.div_lt_upper_bound; lia. }
      destruct (IH _ Hq Hq') as (H1 & H2 & H3).
      set (r := ndigits_aux f (n / 10)) in *.
      replace (1 + r - 1) with (Z.succ (r - 1)) by lia.
      replace (1 + r) with (Z.succ r) by lia.
      rewrite !Z.pow_succ_r by lia.
      pose proof (Z.div_mod n 10 ltac:(lia)) as Hdm.
      pose proof (Z.mod_pos_bound n 10 ltac:(lia)) as Hm.
      lia.
Qed.

Lemma ndigits_spec (n : Z) : 0 < n ->
  1 <= ndigits n /\ 10 ^ (ndigits n - 1) <= n < 10 ^ ndigits n.
Proof.
  intros Hpos. unfold ndigits. apply ndigits_aux_spec; [assumption|].
  rewrite Z2Nat.id by apply Z.log2_nonneg.
  destruct (Z.log2_spec n Hpos) as [_ Hup].
  rewrite Z.pow_succ_r in Hup by apply Z.log2_nonneg.
  assert (0 < 2 ^ Z.log2 n) by (apply Z.pow_pos_nonneg; [lia|apply Z.log2_nonneg]).
  lia.
Qed.

Lemma ndigits_unique (n k : Z) :
  0 < n -> 10 ^ (k - 1) <= n < 10 ^ k -> 1 <= k -> ndigits n = k.
Proof.
  intros Hpos [Hlo Hhi] Hk.
  destruct (ndigits_spec n Hpos) as (H1 & H2 & H3).
  destruct (Z.lt_trichotomy (ndigits n) k) as [Hlt|[Heq|Hgt]]; [|assumption|].
  - assert (10 ^ ndigits n <= 10 ^ (k - 1)) by (apply pow10_le; lia). lia.
  - assert (10 ^ k <= 10 ^ (ndigits n - 1)) by (apply pow10_le; lia). lia.
Qed.

Lemma ndigits_le (n p : Z) : 0 < n -> n < 10 ^ p -> ndigits n <= p.
Proof.
  intros Hpos Hlt.
  destruct (ndigits_spec n Hpos) as (H1 & H2 & H3).
  destruct (Z.le_gt_cases (ndigits n) p) as [|Hgt]; [assumption|].
  destruct (Z.le_gt_cases 0 p) as [Hp|Hp].
  - assert (10 ^ p <= 10 ^ (ndigits n - 1)) by (apply pow10_le; lia). lia.
  - rewrite Z.pow_neg_r in Hlt by lia. lia.
Qed.

Lemma ndigits_gt (n p : Z) : 0 <= p -> 10 ^ p <= n -> p < ndigits n.
Proof.
  intros Hp Hle.
  assert (Hpos : 0 < n) by (pose proof (pow10_pos p Hp); lia).
  destruct (ndigits_spec n Hpos) as (H1 & H2 & H3).
  destruct (Z.le_gt_cases (ndigits n) p) as [Hc|]; [|assumption].
  assert (10 ^ ndigits n <= 10 ^ p) by (apply pow10_le; lia). lia.
Qed.

Lemma ndigits_scale (n k : Z) :
  0 < n -> 0 <= k -> ndigits (n * 10 ^ k) = ndigits n + k.
Proof.
  intros Hpos Hk.
  destruct (ndigits_spec n Hpos) as (H1 & H2 & H3).
  pose proof (pow10_pos k Hk) as Hpk.
  apply ndigits_unique; try nia.
  replace (ndigits n + k - 1) with ((ndigits n - 1) + k) by lia.
  rewrite !pow10_split by lia. nia.
Qed.

(** A number with at most [p] digits is left alone by [_fix]. *)
Lemma fix_in_small (p : Z) (d : Decimal) :
  Z.of_N (d_int d) < 10 ^ p -> fix_in p d = d.
Proof.
  intros Hlt. unfold fix_in.
  destruct (Z.eqb_spec (Z.of_N (d_int d)) 0) as [|Hnz]; [reflexivity|].
  assert (Hpos : 0 < Z.of_N (d_int d)) by lia.
  pose proof (ndigits_le _ p Hpos Hlt).
  destruct (Z.ltb_spec (d_exp d) (ndigits (Z.of_N (d_int d)) + d_exp d - p));
    [lia|reflexivity].
Qed.

Lemma fix_in_zero (p : Z) (s : bool) (e : Z) : fix_in p (mk s 0 e) = mk s 0 e.
Proof. reflexivity. Qed.

(** ROUND_HALF_EVEN picks a nearest integer. *)
Lemma round_half_even_nearest (n p : Z) :
  0 <= n -> 0 < p ->
  let q := round_half_even n p in
  0 <= q /\ 2 * Z.abs (n - q * p) <= p /\
  (2 * Z.abs (n - q * p) = p -> Z.even q = true).
Proof.
  intros Hn Hp q. subst q. unfold round_half_even.
  pose proof (Z.div_mod n p ltac:(lia)) as Hdm.
  pose proof (Z.mod_pos_bound n p Hp) as Hm.
  assert (Hq : 0 <= n / p) by (apply Z.div_pos; lia).
  destruct (Z.ltb_spec (2 * (n mod p)) p).
  - split; [lia|]. split; [nia|]. intros; nia.
  - destruct (Z.eqb_spec (2 * (n mod p)) p).
    + destruct (Z.even (n / p)) eqn:Hev.
      * split; [lia|]. split; [nia|]. intros; exact Hev.
      * split; [lia|]. split; [nia|]. intros _.
        rewrite Z.even_add, Hev. reflexivity.
    + split; [lia|]. split; [nia|]. intros; nia.
Qed.

(** Rounding an exact multiple is the exact quotient. *)
Lemma round_half_even_exact (c p : Z) :
  0 < p -> round_half_even (c * p) p = c.
Proof.
  intros Hp. unfold round_half_even.
  rewrite Z.div_mul, Z.mod_mul by lia.
  destruct (Z.ltb_spec (2 * 0) p); [reflexivity|lia].
Qed.

(** Rounding is insensitive to a common factor. *)
Lemma round_half_even_scale (n p c : Z) :
  0 <= n -> 0 < p -> 0 < c ->
  round_half_even (n * c) (p * c) = round_half_even n p.
Proof.
  intros Hn Hp Hc. unfold round_half_even.
  rewrite Z.div_mul_cancel_r by lia.
  rewrite Z.mul_mod_distr_r by lia.
  destruct (Z.ltb_spec (2 * (n mod p * c)) (p * c)),
           (Z.ltb_spec (2 * (n mod p)) p); try nia; try reflexivity.
  destruct (Z.eqb_spec (2 * (n mod p * c)) (p * c)),
           (Z.eqb_spec (2 * (n mod p)) p); try nia; reflexivity.
Qed.

(** *** Comparison *)

(** Two decimals can be compared at any exponent below both of theirs. *)
Lemma cmp_at (a b : Decimal) (m : Z) :
  m <= d_exp a -> m <= d_exp b ->
  cmp a b = (sval a * 10 ^ (d_exp a - m) ?= sval b * 10 ^ (d_exp b - m)).
Proof.
  intros Ha Hb. unfold cmp.
  set (e0 := Z.min (d_exp a) (d_exp b)).
  assert (He0 : m <= e0) by (unfold e0; lia).
  replace (d_exp a - m) with ((d_exp a - e0) + (e0 - m)) by lia.
  replace (d_exp b - m) with ((d_exp b - e0) + (e0 - m)) by lia.
  rewrite !pow10_split by (unfold e0; lia).
  rewrite !Z.mul_assoc.
  apply Zmult_compare_compat_r. apply Z.lt_gt, pow10_pos. lia.
Qed.

Lemma eqb_at (a b : Decimal) (m : Z) :
  m <= d_exp a -> m <= d_exp b ->
  eqb a b = true <->
  sval a * 10 ^ (d_exp a - m) = sval b * 10 ^ (d_exp b - m).
Proof.
  intros Ha Hb. unfold eqb. rewrite (cmp_at a b m Ha Hb).
  rewrite <- Z.compare_eq_iff.
  destruct (_ ?= _); split; intros; congruence.
Qed.

Lemma gtb_at (a b : Decimal) (m : Z) :
  m <= d_exp a -> m <= d_exp b ->
  gtb a b = true <->
  sval a * 10 ^ (d_exp a - m) > sval b * 10 ^ (d_exp b - m).
Proof.
  intros Ha Hb. unfold gtb. rewrite (cmp_at a b m Ha Hb).
  unfold Z.gt. destruct (_ ?= _); split; intros; congruence.
Qed.

Lemma ltb_at (a b : Decimal) (m : Z) :
  m <= d_exp a -> m <= d_exp b ->
  ltb a b = true <->
  sval a * 10 ^ (d_exp a - m) < sval b * 10 ^ (d_exp b - m).
Proof.
  intros Ha Hb. unfold ltb. rewrite (cmp_at a b m Ha Hb).
  unfold Z.lt. destruct (_ ?= _); split; intros; congruence.
Qed.

Lemma eqb_refl (a : Decimal) : eqb a a = true.
Proof. unfold eqb, cmp. rewrite Z.compare_refl. reflexivity. Qed.

Lemma eqb_sym (a b : Decimal) : eqb a b = eqb b a.
Proof.
  unfold eqb, cmp. rewrite (Z.min_comm (d_exp b)).
  rewrite (Z.compare_antisym (sval a * _)). destruct (_ ?= _); reflexivity.
Qed.

Lemma eqb_trans (a b c : Decimal) :
  eqb a b = true -> eqb b c = true -> eqb a c = true.
Proof.
  set (m := Z.min (d_exp a) (Z.min (d_exp b) (d_exp c))).
  assert (Ha : m <= d_exp a) by (unfold m; lia).
  assert (Hb : m <= d_exp b) by (unfold m; lia).
  assert (Hc : m <= d_exp c) by (unfold m; lia).
  clearbody m.
  rewrite (eqb_at a b m), (eqb_at b c m), (eqb_at a c m) by assumption.
  congruence.
Qed.

(** If [x] does not exceed [b] and [c] exceeds [b], [x] does not exceed [c]. *)
Lemma not_gtb_trans (x b c : Decimal) :
  gtb x b = false -> gtb c b = true -> gtb x c = false.
Proof.
  set (m := Z.min (d_exp x) (Z.min (d_exp b) (d_exp c))).
  assert (Hx : m <= d_exp x) by (unfold m; lia).
  assert (Hb : m <= d_exp b) by (unfold m; lia).
  assert (Hc : m <= d_exp c) by (unfold m; lia).
  clearbody m. intros H1 H2.
  apply (gtb_at c b m) in H2; try assumption.
  destruct (gtb x c) eqn:H3; [|reflexivity].
  apply (gtb_at x c m) in H3; try assumption.
  assert (H4 : gtb x b = true) by (apply (gtb_at x b m); try assumption; lia).
  congruence.
Qed.

Lemma gtb_irrefl (a : Decimal) : gtb a a = false.
Proof. unfold gtb, cmp. rewrite Z.compare_refl. reflexivity. Qed.

Lemma sval_mk (s : bool) (n : N) (e : Z) :
  sval (mk s n e) = if s then - Z.of_N n else Z.of_N n.
Proof. reflexivity. Qed.

Lemma sval_of_Z (z e : Z) : sval (of_Z z e) = z.
Proof.
  unfold sval, of_Z; simpl. rewrite N2Z.inj_abs_N.
  destruct (Z.ltb_spec z 0); lia.
Qed.

Lemma is_zero_spec (d : Decimal) : is_zero d = true <-> sval d = 0.
Proof.
  unfold is_zero, sval. rewrite N.eqb_eq.
  destruct (d_sign d); lia.
Qed.

Lemma is_zero_false (d : Decimal) : is_zero d = false <-> sval d <> 0.
Proof.
  rewrite <- is_zero_spec. destruct (is_zero d); split; congruence.
Qed.

Lemma eqb_zero (d : Decimal) : eqb d (of_int 0) = is_zero d.
Proof.
  destruct (is_zero d) eqn:Hz.
  - apply is_zero_spec in Hz.
    apply (eqb_at d (of_int 0) (Z.min (d_exp d) 0)); [lia|cbn; lia|].
    rewrite Hz. change (sval (of_int 0)) with 0. lia.
  - apply is_zero_false in Hz.
    destruct (eqb d (of_int 0)) eqn:He; [|reflexivity].
    apply (eqb_at d (of_int 0) (Z.min (d_exp d) 0)) in He; [|lia|cbn; lia].
    change (sval (of_int 0)) with 0 in He.
    assert (0 < 10 ^ (d_exp d - Z.min (d_exp d) 0)) by (apply pow10_pos; lia).
    nia.
Qed.

(** *** Rounding to the context precision keeps representable values *)

(** When the coefficient is a number of at most [p] digits followed by
    zeros, [_fix] only drops zeros. *)
Lemma fix_in_exact (p : Z) (s : bool) (n : N) (e c k : Z) :
  0 < p -> 0 <= k -> 0 <= c < 10 ^ p -> Z.of_N n = c * 10 ^ k ->
  exists drop, 0 <= drop <= k /\
    fix_in p (mk s n e) = mk s (Z.to_N (c * 10 ^ (k - drop))) (e + drop).
Proof.
  intros Hp Hk Hc Hn. unfold fix_in. cbn [d_int d_exp d_sign].
  pose proof (pow10_pos k Hk) as Hpk.
  destruct (Z.eqb_spec (Z.of_N n) 0) as [Hz|Hnz].
  - exists 0. split; [lia|]. f_equal; [|lia].
    rewrite Z.sub_0_r, <- Hn, N2Z.id. reflexivity.
  - assert (Hcpos : 0 < c) by nia.
    assert (Hnpos : 0 < Z.of_N n) by lia.
    assert (HD : ndigits (Z.of_N n) = ndigits c + k)
      by (rewrite Hn; apply ndigits_scale; lia).
    pose proof (ndigits_le c p Hcpos ltac:(lia)) as Hdc.
    destruct (ndigits_spec c Hcpos) as (Hc1 & Hc2 & Hc3).
    destruct (Z.ltb_spec e (ndigits (Z.of_N n) + e - p)) as [Hround|Hkeep].
    + set (drop := ndigits (Z.of_N n) - p).
      assert (Hdrop : 0 < drop <= k) by (unfold drop; lia).
      replace (ndigits (Z.of_N n) + e - p - e) with drop by (unfold drop; lia).
      assert (Hexp : ndigits (Z.of_N n) + e - p = e + drop) by (unfold drop; lia).
      assert (Hdig : ndigits c + (k - drop) = p) by (unfold drop; lia).
      clearbody drop. rewrite Hexp. clear Hexp.
      assert (Hr : round_half_even (Z.of_N n) (10 ^ drop) = c * 10 ^ (k - drop)).
      { replace (Z.of_N n) with ((c * 10 ^ (k - drop)) * 10 ^ drop).
        - apply round_half_even_exact, pow10_pos; lia.
        - rewrite Hn, <- Z.mul_assoc, <- pow10_split by lia.
          f_equal. f_equal. lia. }
      rewrite Hr, ndigits_scale, Hdig by lia.
      destruct (Z.gtb_spec p p) as [Hbad|_]; [lia|].
      exists drop. split; [lia|]. reflexivity.
    + exists 0. split; [lia|]. f_equal; [|lia].
      rewrite Z.sub_0_r, <- Hn, N2Z.id. reflexivity.
Qed.

(** The result of [_fix] always fits the precision. *)
Lemma fix_in_bound (p : Z) (d : Decimal) :
  0 < p -> Z.of_N (d_int (fix_in p d)) < 10 ^ p.
Proof.
  intros Hp. unfold fix_in.
  pose proof (pow10_pos p ltac:(lia)) as Hpp.
  destruct (Z.eqb_spec (Z.of_N (d_int d)) 0) as [Hz|Hnz]; [lia|].
  assert (Hpos : 0 < Z.of_N (d_int d)) by lia.
  destruct (ndigits_spec _ Hpos) as (HD1 & HD2 & HD3).
  set (n := Z.of_N (d_int d)) in *. set (D := ndigits n) in *.
  destruct (Z.ltb_spec (d_exp d) (D + d_exp d - p)) as [Hround|Hkeep].
  - replace (D + d_exp d - p - d_exp d) with (D - p) by lia.
    set (drop := D - p).
    assert (Hdrop : 0 < drop) by (unfold drop; lia).
    pose proof (pow10_pos drop ltac:(lia)) as Hpd.
    destruct (round_half_even_nearest n (10 ^ drop) ltac:(lia) Hpd)
      as (Hq0 & Hq1 & _).
    set (q := round_half_even n (10 ^ drop)) in *.
    assert (Hsplit : 10 ^ D = 10 ^ p * 10 ^ drop).
    { rewrite <- pow10_split by lia. f_equal. unfold drop. lia. }
    assert (Hqle : q <= 10 ^ p) by nia.
    destruct (Z.gtb_spec (ndigits q) p) as [Hbig|Hsmall]; cbn [d_int].
    + assert (Hq : q = 10 ^ p).
      { destruct (Z.eq_dec q (10 ^ p)) as [|Hne]; [assumption|].
        assert (Hq' : q < 10 ^ p) by lia.
        destruct (Z.eq_dec q 0) as [Hq0'|Hqn].
        - rewrite Hq0' in Hbig. cbn in Hbig. lia.
        - pose proof (ndigits_le q p ltac:(lia) Hq'). lia. }
      rewrite Hq. replace p with (Z.succ (p - 1)) at 1 by lia.
      rewrite Z.pow_succ_r, Z.mul_comm, Z.div_mul by lia.
      rewrite Z2N.id by (apply Z.lt_le_incl, pow10_pos; lia).
      apply pow10_lt. lia.
    + rewrite Z2N.id by lia.
      destruct (Z.eq_dec q (10 ^ p)) as [Hq|Hne]; [|lia].
      pose proof (ndigits_gt q p ltac:(lia) ltac:(lia)). lia.
  - assert (10 ^ D <= 10 ^ p) by (apply pow10_le; lia). lia.
Qed.

(** ... and therefore keeps the value. *)
Lemma fix_in_exact_eqb (p : Z) (s : bool) (n : N) (e c k : Z) :
  0 < p -> 0 <= k -> 0 <= c < 10 ^ p -> Z.of_N n = c * 10 ^ k ->
  eqb (fix_in p (mk s n e)) (mk s n e) = true.
Proof.
  intros Hp Hk Hc Hn.
  destruct (fix_in_exact p s n e c k Hp Hk Hc Hn) as (drop & Hd & ->).
  apply (eqb_at _ _ e); cbn [d_exp]; try lia.
  rewrite !sval_mk, Z.sub_diag, Z.mul_1_r.
  replace (e + drop - e) with drop by lia.
  assert (0 < 10 ^ (k - drop)) by (apply pow10_pos; lia).
  rewrite Z2N.id by nia.
  assert (c * 10 ^ (k - drop) * 10 ^ drop = Z.of_N n).
  { rewrite Hn, <- Z.mul_assoc, <- pow10_split by lia. f_equal. f_equal. lia. }
  destruct s; lia.
Qed.

End DecFacts.

Module DecOps.
Import Dec DecFacts.

(** An addition whose exact result fits the precision is not rounded. *)
Lemma add_exact (a b : Decimal) :
  Z.abs (aligned_sum a b) < 10 ^ prec ->
  d_exp (add a b) = Z.min (d_exp a) (d_exp b) /\
  sval (add a b) = aligned_sum a b.
Proof.
  intros Hfit. unfold add, exact_add, fix_. cbv zeta.
  destruct (Z.eqb_spec (aligned_sum a b) 0) as [Hz|Hnz].
  - rewrite fix_in_zero, Hz. split; [reflexivity|].
    rewrite sval_mk. destruct (d_sign a && d_sign b); reflexivity.
  - rewrite fix_in_small.
    + split; [reflexivity|apply sval_of_Z].
    + cbn [of_Z d_int]. rewrite N2Z.inj_abs_N. assumption.
Qed.

(** The negation of a number that fits the precision is exact. *)
Lemma neg_exact (d : Decimal) :
  Z.of_N (d_int d) < 10 ^ prec ->
  d_exp (neg d) = d_exp d /\ sval (neg d) = - sval d /\
  d_int (neg d) = d_int d.
Proof.
  intros Hfit. unfold neg, fix_, is_zero.
  destruct (N.eqb_spec (d_int d) 0) as [Hz|Hnz].
  - rewrite fix_in_zero. unfold sval. cbn. rewrite Hz.
    destruct (d_sign d); repeat split; reflexivity.
  - rewrite fix_in_small by assumption. unfold sval. cbn.
    destruct (d_sign d); cbn; repeat split; lia.
Qed.

Lemma rescale_exp (d : Decimal) (e : Z) : d_exp (rescale d e) = e.
Proof.
  unfold rescale. destruct (is_zero d); [reflexivity|].
  destruct (e <=? d_exp d); reflexivity.
Qed.

Lemma rescale_sign (d : Decimal) (e : Z) : d_sign (rescale d e) = d_sign d.
Proof.
  unfold rescale. destruct (is_zero d); [reflexivity|].
  destruct (e <=? d_exp d); reflexivity.
Qed.

(** A successful [quantize] has the requested exponent and a coefficient
    of at most [p] digits: it is [_rescale] of its argument. *)
Lemma quantize_in_ok (p : Z) (d r : Decimal) (e : Z) :
  0 < p -> quantize_in p d e = Ok r ->
  r = rescale d e /\ d_exp r = e /\ Z.of_N (d_int r) < 10 ^ p.
Proof.
  intros Hp. unfold quantize_in.
  pose proof (pow10_pos p ltac:(lia)) as Hpp.
  destruct (is_zero d) eqn:Hz.
  - rewrite fix_in_zero. intros [= <-]. unfold rescale. rewrite Hz.
    cbn. repeat split; lia.
  - destruct (_ >? p); [discriminate|].
    destruct (Z.gtb_spec (ndigits (Z.of_N (d_int (rescale d e)))) p) as [|Hle];
      [discriminate|].
    assert (Hsmall : Z.of_N (d_int (rescale d e)) < 10 ^ p).
    { destruct (Z.eq_dec (Z.of_N (d_int (rescale d e))) 0) as [->|Hnz]; [lia|].
      assert (Hpos : 0 < Z.of_N (d_int (rescale d e))) by lia.
      destruct (ndigits_spec _ Hpos) as (_ & _ & Hup).
      assert (10 ^ ndigits (Z.of_N (d_int (rescale d e))) <= 10 ^ p)
        by (apply pow10_le; destruct (ndigits_spec _ Hpos); lia).
      lia. }
    rewrite fix_in_small by assumption. intros [= <-].
    repeat split; [apply rescale_exp|assumption].
Qed.

(** The only failure of [quantize] is [InvalidOperation]. *)
Lemma quantize_in_raise (p : Z) (d : Decimal) (e : Z) (x : exn) :
  quantize_in p d e = Raise x -> x = InvalidOperation.
Proof.
  unfold quantize_in. destruct (is_zero d); [discriminate|].
  destruct (_ >? p); [congruence|].
  destruct (_ >? p); [congruence|discriminate].
Qed.

(** A division fails exactly when the divisor is zero, and the exception
    tells whether the dividend was zero as well. *)
Lemma div_zero_divisor (a b : Decimal) :
  is_zero b = true ->
  div a b = if is_zero a then Raise InvalidOperation else Raise DivisionByZero.
Proof. intros Hb. unfold div. rewrite Hb. reflexivity. Qed.

Lemma div_nonzero_divisor (a b : Decimal) :
  is_zero b = false -> exists q, div a b = Ok q.
Proof.
  intros Hb. unfold div. rewrite Hb.
  destruct (is_zero a); [eexists; reflexivity|].
  destruct (0 <=? _); destruct (_ =? 0);
    try destruct (strip_zeros _ _ _); eexists; reflexivity.
Qed.


Lemma strip_zeros_pow10 (k : nat) (e : Z) :
  strip_zeros k (10 ^ Z.of_nat k) e = (1, e + Z.of_nat k).
Proof.
  revert e. induction k as [|k IH]; intros e.
  - cbn. f_equal. lia.
  - cbn [strip_zeros]. rewrite Nat2Z.inj_succ, Z.pow_succ_r by lia.
    rewrite (Z.mul_comm 10), Z.mod_mul, Z.div_mul by lia.
    cbn [Z.eqb]. rewrite IH. f_equal. lia.
Qed.

(** A non-zero decimal divided by itself is exactly [1]. *)
Lemma div_self (d : Decimal) :
  is_zero d = false -> div d d = Ok (mk false 1 0).
Proof.
  intros Hnz. unfold div. rewrite Hnz.
  assert (Hpos : 0 < Z.of_N (d_int d)).
  { unfold is_zero in Hnz. apply N.eqb_neq in Hnz. lia. }
  replace (ndigits (Z.of_N (d_int d)) - ndigits (Z.of_N (d_int d)) + prec + 1)
    with 29 by (unfold prec; lia).
  cbn [Z.leb]. change (0 <=? 29) with true. cbv iota.
  rewrite (Z.mul_comm (Z.of_N (d_int d))), Z.mod_mul, Z.div_mul by lia.
  cbn [Z.eqb].
  replace (d_exp d - d_exp d - (d_exp d - d_exp d - 29)) with 29 by lia.
  replace (d_exp d - d_exp d - 29) with (-29) by lia.
  change (10 ^ 29) with (10 ^ Z.of_nat (Z.to_nat 29)).
  rewrite strip_zeros_pow10.
  rewrite xorb_nilpotent. reflexivity.
Qed.

End DecOps.

(** * Arithmetic respects numerical equality *)

Module DecCongruence.
Import Dec DecFacts DecOps.

(** Trailing zeros in the coefficient do not change what [_fix] returns,
    up to numerical equality. *)
Lemma fix_in_scale (p : Z) (s : bool) (n : N) (k e : Z) :
  0 < p -> 0 < Z.of_N n -> 0 <= k ->
  eqb (fix_in p (mk s (Z.to_N (Z.of_N n * 10 ^ k)) (e - k)))
      (fix_in p (mk s n e)) = true.
Proof.
  intros Hp Hc Hk. set (c := Z.of_N n) in *.
  pose proof (pow10_pos k Hk) as Hpk.
  destruct (ndigits_spec c Hc) as (HD1 & HD2 & HD3).
  assert (Hsame : eqb (mk s (Z.to_N (c * 10 ^ k)) (e - k)) (mk s n e) = true).
  { apply (eqb_at _ _ (e - k)); cbn [d_exp]; try lia.
    rewrite !sval_mk, !Z2N.id by nia. fold c.
    rewrite Z.sub_diag, Z.mul_1_r. replace (e - (e - k)) with k by lia.
    destruct s; lia. }
  destruct (Z.le_gt_cases (ndigits c) p) as [Hsmall|Hbig].
  - assert (Hcp : c < 10 ^ p).
    { assert (10 ^ ndigits c <= 10 ^ p) by (apply pow10_le; lia). lia. }
    rewrite (fix_in_small p (mk s n e)) by exact Hcp.
    eapply eqb_trans; [|exact Hsame].
    apply fix_in_exact_eqb with (c := c) (k := k);
      first [lia | rewrite Z2N.id by nia; reflexivity].
  - replace (fix_in p (mk s (Z.to_N (c * 10 ^ k)) (e - k)))
      with (fix_in p (mk s n e)); [apply eqb_refl|].
    unfold fix_in. cbn [d_int d_exp d_sign].
    rewrite !Z2N.id by nia. fold c.
    destruct (Z.eqb_spec c 0) as [|_]; [lia|].
    destruct (Z.eqb_spec (c * 10 ^ k) 0) as [|_]; [nia|].
    rewrite ndigits_scale by lia.
    destruct (Z.ltb_spec e (ndigits c + e - p)) as [_|]; [|lia].
    destruct (Z.ltb_spec (e - k) (ndigits c + k + (e - k) - p)) as [_|]; [|lia].
    replace (ndigits c + k + (e - k) - p - (e - k))
      with ((ndigits c + e - p - e) + k) by lia.
    rewrite pow10_split by lia.
    rewrite round_half_even_scale by (try apply pow10_pos; lia).
    replace (ndigits c + k + (e - k) - p) with (ndigits c + e - p) by lia.
    reflexivity.
Qed.

Lemma eqb_zero_l (x y : Decimal) :
  eqb x y = true -> d_int x = 0%N -> d_int y = 0%N.
Proof.
  intros He Hx.
  apply (eqb_at x y (Z.min (d_exp x) (d_exp y))) in He; try lia.
  unfold sval in He. rewrite Hx in He.
  assert (0 < 10 ^ (d_exp y - Z.min (d_exp x) (d_exp y)))
    by (apply pow10_pos; lia).
  destruct (d_sign x), (d_sign y); nia.
Qed.

(** Numerically equal decimals have, when they are not zero, the same sign,
    and the one with the smaller exponent has the other's coefficient
    followed by zeros. *)
Lemma eqb_scaled (x y : Decimal) :
  eqb x y = true -> d_int x <> 0%N -> d_exp x <= d_exp y ->
  exists k, 0 <= k /\ 0 < Z.of_N (d_int y) /\
    x = mk (d_sign y) (Z.to_N (Z.of_N (d_int y) * 10 ^ k)) (d_exp y - k).
Proof.
  intros He Hx Hle.
  apply (eqb_at x y (d_exp x)) in He; try lia.
  rewrite Z.sub_diag, Z.mul_1_r in He.
  assert (Hp : 0 < 10 ^ (d_exp y - d_exp x)) by (apply pow10_pos; lia).
  destruct x as [sx nx ex], y as [sy ny ey]. cbn [d_sign d_int d_exp] in *.
  unfold sval in He. cbn [d_sign d_int] in He.
  assert (Hnx : 0 < Z.of_N nx) by lia.
  assert (Hs : sx = sy) by (destruct sx, sy; try reflexivity; nia).
  subst sy.
  assert (Hn : Z.of_N nx = Z.of_N ny * 10 ^ (ey - ex)) by (destruct sx; lia).
  exists (ey - ex). split; [lia|]. split; [nia|].
  f_equal; [|lia]. rewrite <- Hn, N2Z.id. reflexivity.
Qed.

(** [_fix] respects numerical equality. *)
Lemma fix_in_congr (p : Z) (x y : Decimal) :
  0 < p -> eqb x y = true -> eqb (fix_in p x) (fix_in p y) = true.
Proof.
  intros Hp He.
  destruct (N.eq_dec (d_int x) 0) as [Hx|Hx].
  - pose proof (eqb_zero_l x y He Hx) as Hy.
    rewrite (fix_in_small p x), (fix_in_small p y);
      try (rewrite ?Hx, ?Hy; apply pow10_pos; lia).
    exact He.
  - assert (Hy : d_int y <> 0%N).
    { intros Hy. rewrite eqb_sym in He. apply Hx, (eqb_zero_l y x He Hy). }
    destruct (Z.le_gt_cases (d_exp x) (d_exp y)) as [Hle|Hgt].
    + destruct (eqb_scaled x y He Hx Hle) as (k & Hk & Hpos & ->).
      destruct y as [sy ny ey]. apply fix_in_scale; assumption.
    + rewrite eqb_sym in He.
      destruct (eqb_scaled y x He Hy ltac:(lia)) as (k & Hk & Hpos & ->).
      rewrite eqb_sym.
      destruct x as [sx nx ex]. apply fix_in_scale; assumption.
Qed.

Lemma add_unfold (a b : Decimal) : add a b = fix_ (exact_add a b).
Proof. reflexivity. Qed.

Lemma exact_add_spec (a b : Decimal) :
  d_exp (exact_add a b) = Z.min (d_exp a) (d_exp b) /\
  sval (exact_add a b) = aligned_sum a b.
Proof.
  unfold exact_add. cbv zeta.
  destruct (Z.eqb_spec (aligned_sum a b) 0) as [Hz|Hnz].
  - split; [reflexivity|]. rewrite sval_mk, Hz.
    destruct (_ && _); reflexivity.
  - split; [reflexivity|apply sval_of_Z].
Qed.

(** Addition respects numerical equality in its left operand. *)
Lemma add_congr_l (a a' x : Decimal) :
  eqb a a' = true -> eqb (add a x) (add a' x) = true.
Proof.
  intros He. rewrite !add_unfold. apply fix_in_congr; [reflexivity|].
  destruct (exact_add_spec a x) as [He1 Hs1].
  destruct (exact_add_spec a' x) as [He2 Hs2].
  set (M := Z.min (Z.min (d_exp a) (d_exp a')) (d_exp x)).
  assert (Ha : M <= d_exp a) by (unfold M; lia).
  assert (Ha' : M <= d_exp a') by (unfold M; lia).
  assert (Hx : M <= d_exp x) by (unfold M; lia).
  clearbody M.
  apply (eqb_at a a' M) in He; try assumption.
  apply (eqb_at _ _ M); rewrite ?He1, ?He2; try lia.
  rewrite Hs1, Hs2. unfold aligned_sum.
  rewrite !Z.mul_add_distr_r, <- !Z.mul_assoc, <- !pow10_split by lia.
  replace (d_exp a - Z.min (d_exp a) (d_exp x) + (Z.min (d_exp a) (d_exp x) - M))
    with (d_exp a - M) by lia.
  replace (d_exp x - Z.min (d_exp a) (d_exp x) + (Z.min (d_exp a) (d_exp x) - M))
    with (d_exp x - M) by lia.
  replace (d_exp a' - Z.min (d_exp a') (d_exp x) + (Z.min (d_exp a') (d_exp x) - M))
    with (d_exp a' - M) by lia.
  replace (d_exp x - Z.min (d_exp a') (d_exp x) + (Z.min (d_exp a') (d_exp x) - M))
    with (d_exp x - M) by lia.
  lia.
Qed.

(** Adding a zero to a number that fits the precision keeps its value. *)
Lemma add_zero_r (a z : Decimal) :
  is_zero z = true -> Z.of_N (d_int a) < 10 ^ prec ->
  eqb (add a z) a = true.
Proof.
  intros Hz Ha. rewrite add_unfold.
  destruct (exact_add_spec a z) as [He Hs].
  apply is_zero_spec in Hz.
  set (m := Z.min (d_exp a) (d_exp z)) in *.
  assert (Hk : 0 <= d_exp a - m) by (unfold m; lia).
  pose proof (pow10_pos _ Hk) as Hpk.
  assert (Hsum : aligned_sum a z = sval a * 10 ^ (d_exp a - m)).
  { unfold aligned_sum. fold m. rewrite Hz. lia. }
  assert (Hval : eqb (exact_add a z) a = true).
  { apply (eqb_at _ _ m); rewrite ?He; try lia.
    rewrite Hs, Hsum, Z.sub_diag. lia. }
  eapply eqb_trans; [|exact Hval].
  unfold fix_. destruct (exact_add a z) as [s n e] eqn:E.
  cbn [d_exp] in He. subst e.
  apply fix_in_exact_eqb with (c := Z.of_N (d_int a)) (k := d_exp a - m);
    try lia; [reflexivity|].
  assert (Hn : Z.of_N n = Z.abs (sval (mk s n m)))
    by (unfold sval; cbn [d_sign d_int]; destruct s; lia).
  rewrite Hn, Hs, Hsum, Z.abs_mul. unfold sval.
  destruct (d_sign a); lia.
Qed.

End DecCongruence.

(** * The value types *)

Import Dec DecFacts DecOps.

Lemma Money_eq_refl (a : Money) : Money_eq a a = true.
Proof. apply eqb_refl. Qed.

Lemma Money_bool_false (a : Money) :
  Money_bool a = false <-> is_zero (amount a) = true.
Proof. unfold Money_bool. destruct (is_zero (amount a)); split; auto. Qed.

Lemma Money_bool_true (a : Money) :
  Money_bool a = true <-> is_zero (amount a) = false.
Proof. unfold Money_bool. destruct (is_zero (amount a)); split; auto. Qed.

Lemma abs_sval (d : Decimal) : Z.abs (sval d) = Z.of_N (d_int d).
Proof. unfold sval. destruct (d_sign d); lia. Qed.

Lemma Money_round_ok (a r : Money) (n : Z) :
  Money_round a n = Ok r ->
  d_exp (amount r) = - n /\ Z.of_N (d_int (amount r)) < 10 ^ prec.
Proof.
  unfold Money_round, round.
  destruct (quantize_in prec (amount a) (- n)) as [q|x] eqn:Hq; [|discriminate].
  intros [= <-]. cbn [amount].
  apply quantize_in_ok in Hq; [tauto|reflexivity].
Qed.

Lemma Money_round_raise (a : Money) (n : Z) (x : exn) :
  Money_round a n = Raise x -> x = InvalidOperation.
Proof.
  unfold Money_round, round.
  destruct (quantize_in prec (amount a) (- n)) as [q|y] eqn:Hq; [discriminate|].
  intros [= <-]. eapply quantize_in_raise, Hq.
Qed.

Lemma Money_mul_bound (a : Money) (d : Decimal) :
  Z.of_N (d_int (amount (Money_mul a d))) < 10 ^ prec.
Proof. apply fix_in_bound. reflexivity. Qed.

Lemma Money_add_bound (a b : Money) :
  Z.of_N (d_int (amount (Money_add a b))) < 10 ^ prec.
Proof. apply fix_in_bound. reflexivity. Qed.

(** Adding back what was subtracted: when [a] and [b] fit the precision and
    [b - a] is exact, [a + (b - a)] has the value of [b]. *)
Lemma Money_add_sub_cancel (a b : Money) :
  Z.of_N (d_int (amount a)) < 10 ^ prec ->
  Z.of_N (d_int (amount b)) < 10 ^ prec ->
  Money_sub_is_exact b a ->
  Money_eq (Money_add a (Money_sub b a)) b = true.
Proof.
  intros Ha Hb Hex.
  unfold Money_sub_is_exact, Money_add_is_exact in Hex.
  unfold Money_eq, Money_sub, Money_add, Money_neg in *. cbn [amount] in *.
  destruct a as [a], b as [b]. cbn [amount] in *.
  destruct (neg_exact a Ha) as (Hne & Hns & _).
  destruct (add_exact b (neg a) Hex) as (Hte & Hts).
  set (t := add b (neg a)) in *.
  set (m := Z.min (d_exp b) (d_exp a)).
  assert (Hm : d_exp t = m) by (rewrite Hte, Hne; reflexivity).
  assert (Hsum : aligned_sum a t = sval b * 10 ^ (d_exp b - m)).
  { unfold aligned_sum at 1. rewrite Hts. unfold aligned_sum.
    rewrite Hne, Hns, Hm. fold m.
    replace (Z.min (d_exp a) m) with m by (unfold m; lia).
    rewrite Z.sub_diag, Z.mul_1_r. lia. }
  assert (Hk : 0 <= d_exp b - m) by (unfold m; lia).
  pose proof (pow10_pos _ Hk) as Hpk.
  eapply eqb_trans with
    (b := if aligned_sum a t =? 0 then mk (d_sign a && d_sign t) 0 m
          else of_Z (aligned_sum a t) m).
  - unfold add at 1, exact_add. cbv zeta. rewrite Hm.
    replace (Z.min (d_exp a) m) with m by (unfold m; lia).
    destruct (Z.eqb_spec (aligned_sum a t) 0) as [Hz|Hnz].
    + unfold fix_. rewrite fix_in_zero. apply eqb_refl.
    + unfold of_Z, fix_.
      apply fix_in_exact_eqb with (c := Z.of_N (d_int b)) (k := d_exp b - m);
        [reflexivity|assumption|lia|].
      rewrite N2Z.inj_abs_N, Hsum, Z.abs_mul, abs_sval. lia.
  - apply (eqb_at _ _ m); [|unfold m; lia|].
    + destruct (_ =? 0); cbn; lia.
    + destruct (Z.eqb_spec (aligned_sum a t) 0) as [Hz|Hnz].
      * rewrite sval_mk. cbn [d_exp]. rewrite <- Hsum, Hz.
        destruct (_ && _); lia.
      * rewrite sval_of_Z. cbn [of_Z d_exp]. rewrite Z.sub_diag. lia.
Qed.

(** The constructor calls behind the fixtures. *)
Lemma MoneyWithVAT_init_ints (n t : Z) :
  MoneyWithVAT_init (ArgInt n) (ArgInt t) = Ok (MoneyWithVAT_of_ints n t).
Proof.
  unfold MoneyWithVAT_init, MoneyWithVAT_of_ints. cbn.
  destruct (Z.eqb_spec n 0) as [->|]; destruct (Z.eqb_spec t 0) as [->|];
    reflexivity.
Qed.

Lemma MoneyWithVAT_init_default :
  MoneyWithVAT_init ArgNone ArgNone = Ok (MoneyWithVAT_of_ints 0 0).
Proof. reflexivity. Qed.

Lemma money_4444_2222_init :
  (n <- Money_init (ArgStr "4.444") ;;
   t <- Money_init (ArgStr "2.222") ;;
   MoneyWithVAT_init (ArgMoney n) (ArgMoney t)) = Ok money_4444_2222.
Proof. vm_compute. reflexivity. Qed.

(** * MoneyWithVAT.gross *)

(** C1: for every [MoneyWithVAT] [m], [m.gross == m.net + m.tax].  The gross
    amount is no slot of the object: it is computed from the two slots [net]
    and [tax] at every access, so the identity holds for every value,
    whichever constructor or operation produced it. *)
Theorem gross_is_net_plus_tax (m : MoneyWithVAT) :
  exists s : Money,
    py_binop Add (VMoney (net m)) (VMoney (tax m)) = Ok (VMoney s) /\
    Money_eq (gross m) s = true /\
    gross m = gross (mkMoneyWithVAT (net m) (tax m)).
Proof.
  exists (Money_add (net m) (tax m)). split; [reflexivity|].
  split; [apply Money_eq_refl|reflexivity].
Qed.

(** * MoneyWithVAT.rounded_to_cents *)

(** The only way [rounded_to_cents] fails is the [InvalidOperation] of a
    rounding whose result does not fit the context. *)
Lemma rounded_to_cents_raise (m : MoneyWithVAT) (x : exn) :
  rounded_to_cents m = Raise x -> x = InvalidOperation.
Proof.
  unfold rounded_to_cents.
  destruct (Money_round (net m) 2) as [a|y] eqn:Ha; cbn [bind].
  - destruct (Money_round (gross m) 2) as [b|y] eqn:Hb; cbn [bind];
      [discriminate|].
    intros [= <-]. eapply Money_round_raise, Hb.
  - intros [= <-]. eapply Money_round_raise, Ha.
Qed.

(** [Money.round(k)] keeps the sign and moves the amount to the exponent
    [-k]: exactly when the amount has no digit beyond that place, else to
    a nearest multiple of [10 ** -k], and to the even one of two nearest. *)
Lemma Money_round_nearest (x r : Money) (k : Z) :
  Money_round x k = Ok r ->
  let n := Z.of_N (d_int (amount x)) in
  let c := Z.of_N (d_int (amount r)) in
  d_exp (amount r) = - k /\ d_sign (amount r) = d_sign (amount x) /\
  (- k <= d_exp (amount x) -> c = n * 10 ^ (d_exp (amount x) + k)) /\
  (d_exp (amount x) < - k ->
   let p := 10 ^ (- k - d_exp (amount x)) in
   2 * Z.abs (n - c * p) <= p /\ (2 * Z.abs (n - c * p) = p -> Z.even c = true)).
Proof.
  unfold Money_round, round.
  destruct (quantize_in prec (amount x) (- k)) as [q|y] eqn:Hq; [|discriminate].
  intros [= <-]. cbn [amount]. cbv zeta.
  apply quantize_in_ok in Hq; [|reflexivity].
  destruct Hq as (-> & _ & _).
  split; [apply rescale_exp|]. split; [apply rescale_sign|].
  unfold rescale. destruct (is_zero (amount x)) eqn:Hz.
  - unfold is_zero in Hz. apply N.eqb_eq in Hz. rewrite Hz. cbn [d_int].
    split; [intros; lia|]. intros Hlt.
    assert (0 < 10 ^ (- k - d_exp (amount x))) by (apply pow10_pos; lia).
    split; [cbn; lia|]. intros _. reflexivity.
  - destruct (Z.leb_spec (- k) (d_exp (amount x))) as [Hle|Hlt]; cbn [d_int].
    + split; [|intros; lia]. intros _.
      assert (0 < 10 ^ (d_exp (amount x) - - k)) by (apply pow10_pos; lia).
      rewrite Z2N.id by nia. f_equal. f_equal. lia.
    + split; [intros; lia|]. intros _.
      assert (Hp : 0 < 10 ^ (- k - d_exp (amount x))) by (apply pow10_pos; lia).
      destruct (round_half_even_nearest (Z.of_N (d_int (amount x))) _
                  ltac:(lia) Hp) as (H0 & H1 & H2).
      rewrite Z2N.id by exact H0. split; assumption.
Qed.

(** Two amounts with the same exponent whose coefficients together fit the
    precision are subtracted exactly. *)
Lemma Money_sub_is_exact_small (b a : Money) :
  d_exp (amount a) = d_exp (amount b) ->
  Z.of_N (d_int (amount a)) + Z.of_N (d_int (amount b)) < 10 ^ prec ->
  Money_sub_is_exact b a.
Proof.
  intros He Hsum. unfold Money_sub_is_exact, Money_add_is_exact, Money_neg.
  cbn [amount].
  destruct (neg_exact (amount a) ltac:(lia)) as (Hne & Hns & _).
  unfold aligned_sum. rewrite Hne, Hns, He, Z.min_id, Z.sub_diag.
  change (10 ^ 0) with 1.
  pose proof (abs_sval (amount a)). pose proof (abs_sval (amount b)). lia.
Qed.

(** C2, as stated, fails: [rounded_to_cents] raises [InvalidOperation] on
    an amount of 1E+26, whose cents do not fit 28 digits; and on a net of
    99999999999999999999999999.99 with a tax of
    -199999999999999999999999999.98 it returns an instance whose gross
    differs from the rounded gross of the original. *)
Lemma rounded_to_cents_counterexample :
  rounded_to_cents money_1e26 = Raise InvalidOperation /\
  exists r g,
    rounded_to_cents money_28_digits = Ok r /\
    Money_round (gross money_28_digits) 2 = Ok g /\
    Money_eq (gross r) g = false.
Proof.
  split; [vm_compute; reflexivity|].
  eexists. eexists. split; [vm_compute; reflexivity|].
  split; [vm_compute; reflexivity|]. vm_compute. reflexivity.
Qed.

(** Quantizing fails when the digits in front of the requested exponent
    alone are more than the precision allows, and succeeds when they stay
    below it. *)
Lemma quantize_in_too_long (p : Z) (d : Decimal) (e : Z) :
  is_zero d = false ->
  p < d_exp d + ndigits (Z.of_N (d_int d)) - e ->
  quantize_in p d e = Raise InvalidOperation.
Proof.
  intros Hnz Hlong. unfold quantize_in. rewrite Hnz.
  destruct (Z.gtb_spec (d_exp d + ndigits (Z.of_N (d_int d)) - 1 - e + 1) p);
    [reflexivity|lia].
Qed.

Lemma quantize_in_succeeds (p : Z) (d : Decimal) (e : Z) :
  0 < p -> d_exp d + ndigits (Z.of_N (d_int d)) - e < p ->
  exists q, quantize_in p d e = Ok q.
Proof.
  intros Hp Hshort. unfold quantize_in.
  destruct (is_zero d) eqn:Hz; [eexists; reflexivity|].
  assert (Hpos : 0 < Z.of_N (d_int d)).
  { unfold is_zero in Hz. apply N.eqb_neq in Hz. lia. }
  destruct (ndigits_spec _ Hpos) as (H1 & Hlo & Hhi).
  set (n := Z.of_N (d_int d)) in *. set (nd := ndigits n) in *.
  destruct (Z.gtb_spec (d_exp d + nd - 1 - e + 1) p); [lia|].
  assert (Hans : ndigits (Z.of_N (d_int (rescale d e))) <= p).
  { unfold rescale. rewrite Hz. fold n.
    destruct (Z.leb_spec e (d_exp d)) as [Hle|Hlt]; cbn [d_int].
    - pose proof (pow10_pos (d_exp d - e) ltac:(lia)).
      rewrite Z2N.id by nia.
      rewrite ndigits_scale by lia. fold nd. lia.
    - set (k := e - d_exp d). assert (Hk : 0 < k) by (unfold k; lia).
      pose proof (pow10_pos k ltac:(lia)) as Hpk.
      pose proof (pow10_pos (p - 1) ltac:(lia)) as Hpp.
      assert (Hq : n / 10 ^ k < 10 ^ (p - 1)).
      { apply Z.div_lt_upper_bound; [lia|].
        rewrite <- pow10_split by lia.
        assert (10 ^ nd <= 10 ^ (k + (p - 1))) by (apply pow10_le; lia).
        lia. }
      assert (Hr : 0 <= round_half_even n (10 ^ k) <= n / 10 ^ k + 1).
      { unfold round_half_even.
        pose proof (Z.div_pos n (10 ^ k) ltac:(lia) Hpk).
        destruct (_ <? _); [lia|]. destruct (_ =? _); [|lia].
        destruct (Z.even _); lia. }
      rewrite Z2N.id by lia.
      destruct (Z.eq_dec (round_half_even n (10 ^ k)) 0) as [->|Hc];
        [change (ndigits 0) with 1; lia|].
      apply ndigits_le; [lia|].
      assert (10 ^ (p - 1) < 10 ^ p) by (apply pow10_lt; lia). lia. }
  destruct (Z.gtb_spec (ndigits (Z.of_N (d_int (rescale d e)))) p); [lia|].
  eexists; reflexivity.
Qed.

(** C2 (amended): whenever [m.net.round(2)] and [m.gross.round(2)] succeed,
    with results [a] and [b], [m.rounded_to_cents()] returns a new instance
    with net [a], which is [m.net] rounded half-even to 2 decimals, and tax
    [b - a] (the tax is not rounded on its own); when moreover the
    subtraction [b - a] is exact in the 28-digit context, as it is when the
    coefficients of [a] and [b] together stay below 1E+28, the gross of the
    result equals [b].  When the net or the gross cannot be rounded,
    [rounded_to_cents] raises [InvalidOperation] instead of returning, and
    it raises nothing else.  Rounding a non-zero amount to cents fails
    whenever the amount counted in cents has more than 28 digits, as for
    1E+26, and succeeds whenever it has fewer than 28.  On net=4.444,
    tax=2.222 the result is net=4.44, tax=2.23, gross=6.67. *)
Theorem rounded_to_cents_spec :
  (forall m a b,
      Money_round (net m) 2 = Ok a ->
      Money_round (gross m) 2 = Ok b ->
      rounded_to_cents m = Ok (mkMoneyWithVAT a (Money_sub b a)) /\
      (Money_sub_is_exact b a ->
       Money_eq (gross (mkMoneyWithVAT a (Money_sub b a))) b = true) /\
      (Z.of_N (d_int (amount a)) + Z.of_N (d_int (amount b)) < 10 ^ 28 ->
       Money_sub_is_exact b a)) /\
  (forall x r : Money,
      Money_round x 2 = Ok r ->
      d_exp (amount r) = -2 /\ d_sign (amount r) = d_sign (amount x) /\
      (-2 <= d_exp (amount x) -> Money_eq r x = true) /\
      (d_exp (amount x) < -2 ->
       let n := Z.of_N (d_int (amount x)) in
       let c := Z.of_N (d_int (amount r)) in
       let p := 10 ^ (-2 - d_exp (amount x)) in
       2 * Z.abs (n - c * p) <= p /\
       (2 * Z.abs (n - c * p) = p -> Z.even c = true))) /\
  (forall m x, rounded_to_cents m = Raise x -> x = InvalidOperation) /\
  (forall m x,
      Money_round (net m) 2 = Raise x ->
      rounded_to_cents m = Raise InvalidOperation) /\
  (forall m x,
      Money_round (gross m) 2 = Raise x ->
      rounded_to_cents m = Raise InvalidOperation) /\
  (forall x : Money,
      Money_bool x = true ->
      28 < d_exp (amount x) + ndigits (Z.of_N (d_int (amount x))) + 2 ->
      Money_round x 2 = Raise InvalidOperation) /\
  (forall x : Money,
      d_exp (amount x) + ndigits (Z.of_N (d_int (amount x))) + 2 < 28 ->
      exists r, Money_round x 2 = Ok r) /\
  rounded_to_cents money_1e26 = Raise InvalidOperation /\
  rounded_to_cents money_4444_2222 =
    Ok (mkMoneyWithVAT (mkMoney (mk false 444 (-2)))
                       (mkMoney (mk false 223 (-2)))) /\
  Money_round (gross money_4444_2222) 2 = Ok (mkMoney (mk false 667 (-2))) /\
  gross (mkMoneyWithVAT (mkMoney (mk false 444 (-2)))
                        (mkMoney (mk false 223 (-2))))
    = mkMoney (mk false 667 (-2)).
Proof.
  split; [|split; [|split; [|split; [|split; [|split; [|split;
    [|repeat split; vm_compute; reflexivity]]]]]]].
  - intros m a b Ha Hb. unfold rounded_to_cents. rewrite Ha, Hb. cbn [bind].
    split; [reflexivity|].
    apply Money_round_ok in Ha, Hb. split.
    + intros Hex. unfold gross. cbn [net tax].
      apply Money_add_sub_cancel; tauto.
    + intros Hsum. apply Money_sub_is_exact_small; [|exact Hsum].
      destruct Ha as [-> _], Hb as [-> _]. reflexivity.
  - intros x r Hr.
    destruct (Money_round_nearest x r 2 Hr) as (He & Hs & Hexact & Hnear).
    split; [exact He|]. split; [exact Hs|]. split; [|exact Hnear].
    intros Hle. unfold Money_eq.
    apply (eqb_at _ _ (-2)); try lia.
    rewrite He, Z.sub_diag, Z.mul_1_r. unfold sval. rewrite Hs.
    change (- (2)) with (-2) in Hexact. rewrite (Hexact Hle).
    replace (d_exp (amount x) - -2) with (d_exp (amount x) + 2) by lia.
    destruct (d_sign (amount x)); lia.
  - exact rounded_to_cents_raise.
  - intros m x Hn. unfold rounded_to_cents.
    rewrite Hn, (Money_round_raise _ _ _ Hn). reflexivity.
  - intros m x Hg. unfold rounded_to_cents.
    rewrite Hg, (Money_round_raise _ _ _ Hg).
    destruct (Money_round (net m) 2) as [a|y] eqn:Hn; cbn [bind];
      [reflexivity|].
    rewrite (Money_round_raise _ _ _ Hn). reflexivity.
  - intros x Hnz Hlong. unfold Money_round, round.
    rewrite quantize_in_too_long; [reflexivity| |unfold prec; lia].
    unfold Money_bool in Hnz. apply negb_true_iff in Hnz. exact Hnz.
  - intros x Hshort. unfold Money_round, round.
    destruct (quantize_in_succeeds prec (amount x) (- (2)))
      as [q Hq]; [reflexivity|unfold prec; lia|].
    rewrite Hq. eexists; reflexivity.
Qed.

Lemma rounded_to_cents_spec_witness :
  Money_round (net money_4444_2222) 2 = Ok (mkMoney (mk false 444 (-2))) /\
  Money_round (gross money_4444_2222) 2 = Ok (mkMoney (mk false 667 (-2))) /\
  Money_sub_is_exact (mkMoney (mk false 667 (-2))) (mkMoney (mk false 444 (-2))) /\
  Money_eq
    (gross (mkMoneyWithVAT (mkMoney (mk false 444 (-2)))
              (Money_sub (mkMoney (mk false 667 (-2)))
                         (mkMoney (mk false 444 (-2))))))
    (mkMoney (mk false 667 (-2))) = true.
Proof.
  assert (Ha : Money_round (net money_4444_2222) 2
               = Ok (mkMoney (mk false 444 (-2)))) by (vm_compute; reflexivity).
  assert (Hb : Money_round (gross money_4444_2222) 2
               = Ok (mkMoney (mk false 667 (-2)))) by (vm_compute; reflexivity).
  assert (Hex : Money_sub_is_exact (mkMoney (mk false 667 (-2)))
                                   (mkMoney (mk false 444 (-2))))
    by (vm_compute; reflexivity).
  split; [exact Ha|]. split; [exact Hb|]. split; [exact Hex|].
  destruct rounded_to_cents_spec as [H _].
  destruct (H money_4444_2222 _ _ Ha Hb) as (_ & Hg & _).
  exact (Hg Hex).
Defined.

(** * MoneyWithVAT.ratio and safe_ratio *)

(** C3, as stated, fails: with a zero divisor and a zero dividend the
    division is undefined and [ratio] raises [InvalidOperation], which is
    not a [DivisionByZero]. *)
Lemma ratio_counterexample :
  ratio (VMoneyWithVAT (MoneyWithVAT_of_ints 0 0))
        (VMoneyWithVAT (MoneyWithVAT_of_ints 0 0))
  = Raise InvalidOperation.
Proof. vm_compute. reflexivity. Qed.

(** C3 (amended): for two [MoneyWithVAT] whose divisor has a non-zero net
    and a non-zero gross, [ratio(dividend, divisor)] is
    [MoneyWithVATRatio(dividend.net / divisor.net,
    dividend.gross / divisor.gross)]; in particular [ratio(m, m)] is
    [MoneyWithVATRatio(1, 1)] when the net and the gross of [m] are not
    zero.  When the net of the divisor is zero, or else its gross is zero,
    the call raises [DivisionByZero] if the matching component of the
    dividend is not zero and [InvalidOperation] if it is zero too.  When an
    argument is not a [MoneyWithVAT] the call raises a [TypeError]. *)
Theorem ratio_spec :
  (forall a b,
      Money_bool (net b) = true -> Money_bool (gross b) = true ->
      exists n g,
        Money_div (net a) (net b) = Ok n /\
        Money_div (gross a) (gross b) = Ok g /\
        ratio (VMoneyWithVAT a) (VMoneyWithVAT b) = Ok (mkRatio n g)) /\
  (forall m,
      Money_bool (net m) = true -> Money_bool (gross m) = true ->
      ratio (VMoneyWithVAT m) (VMoneyWithVAT m)
      = Ok (mkRatio (of_int 1) (of_int 1))) /\
  (forall a b,
      Money_bool (net b) = false ->
      ratio (VMoneyWithVAT a) (VMoneyWithVAT b)
      = Raise (if Money_bool (net a) then DivisionByZero
               else InvalidOperation)) /\
  (forall a b,
      Money_bool (net b) = true -> Money_bool (gross b) = false ->
      ratio (VMoneyWithVAT a) (VMoneyWithVAT b)
      = Raise (if Money_bool (gross a) then DivisionByZero
               else InvalidOperation)) /\
  (forall x y,
      isinstance_MoneyWithVAT x && isinstance_MoneyWithVAT y = false ->
      ratio x y = Raise TypeError).
Proof.
  split; [|split; [|split; [|split]]].
  - intros a b Hn Hg.
    apply Money_bool_true in Hn, Hg.
    destruct (div_nonzero_divisor (amount (net a)) _ Hn) as [n Hdn].
    destruct (div_nonzero_divisor (amount (gross a)) _ Hg) as [g Hdg].
    exists n, g. unfold ratio, from_money_with_vat, Money_div.
    rewrite Hdn, Hdg. repeat split; reflexivity.
  - intros m Hn Hg. apply Money_bool_true in Hn, Hg.
    unfold ratio, from_money_with_vat, Money_div.
    rewrite !div_self by assumption. reflexivity.
  - intros a b Hn. apply Money_bool_false in Hn.
    unfold ratio, from_money_with_vat, Money_div, Money_bool.
    rewrite div_zero_divisor by assumption.
    destruct (is_zero (amount (net a))); reflexivity.
  - intros a b Hn Hg. apply Money_bool_true in Hn. apply Money_bool_false in Hg.
    unfold ratio, from_money_with_vat, Money_div, Money_bool.
    destruct (div_nonzero_divisor (amount (net a)) _ Hn) as [n ->].
    cbn [bind]. rewrite div_zero_divisor by assumption.
    destruct (is_zero (amount (gross a))); reflexivity.
  - intros x y H. unfold ratio.
    destruct x; try reflexivity; destruct y; try reflexivity; discriminate.
Qed.

Lemma ratio_spec_witness :
  Money_bool (net (MoneyWithVAT_of_ints 100 19)) = true /\
  Money_bool (gross (MoneyWithVAT_of_ints 100 19)) = true /\
  ratio (VMoneyWithVAT (MoneyWithVAT_of_ints 100 19))
        (VMoneyWithVAT (MoneyWithVAT_of_ints 100 19))
  = Ok (mkRatio (of_int 1) (of_int 1)).
Proof.
  split; [reflexivity|]. split; [reflexivity|].
  destruct ratio_spec as (_ & H & _).
  apply (H (MoneyWithVAT_of_ints 100 19)); reflexivity.
Defined.



(** * MoneyWithVAT.fast_sum and fast_sum_with_none *)

Lemma fast_sum_loop_all_none (l : list (option MoneyWithVAT))
    (acc : Decimal * Decimal) :
  forallb is_None l = true -> fold_left fast_sum_step l acc = acc.
Proof.
  revert acc. induction l as [|[o|] l IH]; intros acc H; cbn in *.
  - reflexivity.
  - discriminate.
  - apply IH, H.
Qed.

(** On a sequence, which can be iterated twice, [fast_sum_with_none] is
    [None] exactly when every operand is [None], and [fast_sum] of nothing
    is [MoneyWithVAT(0, 0)]. *)
Lemma fast_sum_with_none_sequence (l : list (option MoneyWithVAT)) :
  (fast_sum_with_none (Sequence l) = None <-> forallb is_None l = true) /\
  (fast_sum_with_none (Sequence l) <> None ->
   fast_sum_with_none (Sequence l) = Some (fst (fast_sum (Sequence l)))) /\
  fst (fast_sum (Sequence [])) = MoneyWithVAT_of_ints 0 0.
Proof.
  unfold fast_sum_with_none, fast_sum. cbn [iterate fst].
  destruct (fold_left fast_sum_step l (of_int 0, of_int 0)) as [n t] eqn:Hf.
  cbn [iterate fst].
  set (c := negb (MoneyWithVAT_bool (MoneyWithVAT_of_decimals n t))).
  split; [split|split].
  - intros H. destruct (c && forallb is_None l) eqn:Hc; [|discriminate H].
    apply andb_prop in Hc. tauto.
  - intros Hall. rewrite (fast_sum_loop_all_none l _ Hall) in Hf.
    injection Hf as <- <-. rewrite Hall. reflexivity.
  - destruct (c && forallb is_None l); [congruence|reflexivity].
  - reflexivity.
Qed.

Import DecCongruence.

Lemma add_bound (a b : Decimal) : Z.of_N (d_int (add a b)) < 10 ^ prec.
Proof. apply fix_in_bound. reflexivity. Qed.

(** The loop of [fast_sum] and the plain sums of the operands that are not
    [None] agree: skipping the operands that are zero changes nothing. *)
Lemma fast_sum_loop_sums (l : list (option MoneyWithVAT)) :
  forall n t n' t',
    eqb n n' = true -> eqb t t' = true ->
    Z.of_N (d_int n') < 10 ^ prec -> Z.of_N (d_int t') < 10 ^ prec ->
    eqb (fst (fold_left fast_sum_step l (n, t)))
        (fold_left add (map (fun m => amount (net m)) (present l)) n') = true /\
    eqb (snd (fold_left fast_sum_step l (n, t)))
        (fold_left add (map (fun m => amount (tax m)) (present l)) t') = true.
Proof.
  induction l as [|[o|] l IH]; intros n t n' t' Hn Ht Hbn Hbt.
  - cbn. split; assumption.
  - cbn [fold_left fast_sum_step present flat_map app map fst snd].
    destruct (MoneyWithVAT_bool o) eqn:Hb.
    + apply IH; try apply add_bound; apply add_congr_l; assumption.
    + unfold MoneyWithVAT_bool in Hb. apply orb_false_elim in Hb.
      destruct Hb as [Hzn Hzt].
      apply Money_bool_false in Hzn, Hzt.
      apply IH; try apply add_bound.
      * eapply eqb_trans; [exact Hn|]. rewrite eqb_sym.
        apply add_zero_r; assumption.
      * eapply eqb_trans; [exact Ht|]. rewrite eqb_sym.
        apply add_zero_r; assumption.
  - cbn [fold_left fast_sum_step present flat_map app]. apply IH; assumption.
Qed.

(** [fast_sum] returns one [MoneyWithVAT] whose net and tax equal the sums
    of the nets and of the taxes of the operands that are not [None],
    whether the operands come as a sequence or as an iterator. *)
Lemma fast_sum_sums (operands : iterable (option MoneyWithVAT)) :
  let l := fst (iterate operands) in
  let r := fst (fast_sum operands) in
  eqb (amount (net r))
      (sum_decimals (map (fun m => amount (net m)) (present l))) = true /\
  eqb (amount (tax r))
      (sum_decimals (map (fun m => amount (tax m)) (present l))) = true.
Proof.
  intros l r. subst l r. unfold fast_sum, sum_decimals.
  destruct (iterate operands) as [items operands']. cbn [fst].
  destruct (fast_sum_loop_sums items (of_int 0) (of_int 0) (of_int 0) (of_int 0))
    as [Hn Ht]; try apply eqb_refl; try reflexivity.
  destruct (fold_left fast_sum_step items (of_int 0, of_int 0)) as [n t].
  cbn [fst snd] in *. unfold MoneyWithVAT_of_decimals. cbn [net tax amount].
  split.
  - eapply eqb_trans; [|exact Hn].
    destruct (is_zero n) eqn:Hz; [|apply eqb_refl].
    rewrite eqb_sym, eqb_zero. exact Hz.
  - eapply eqb_trans; [|exact Ht].
    destruct (is_zero t) eqn:Hz; [|apply eqb_refl].
    rewrite eqb_sym, eqb_zero. exact Hz.
Qed.

(** C5: on an iterator the claim fails.  [fast_sum] consumes the iterator,
    so the test [all(operand is None for operand in operands)] sees no item
    at all and holds: an iterator that yields only [MoneyWithVAT(0, 0)]
    gives [None], although its operand was not empty, whereas the list with
    the same item gives [MoneyWithVAT(0, 0)]. *)
Theorem fast_sum_with_none_on_iterator :
  fast_sum_with_none (Iterator [Some (MoneyWithVAT_of_ints 0 0)]) = None /\
  fast_sum_with_none (Sequence [Some (MoneyWithVAT_of_ints 0 0)])
  = Some (MoneyWithVAT_of_ints 0 0) /\
  fast_sum_with_none (Iterator [Some (MoneyWithVAT_of_ints 1 1);
                                Some (MoneyWithVAT_of_ints (-1) (-1))]) = None.
Proof. repeat split. Qed.

(** * Operators and operand types *)

(** C6, as stated, fails: reverse multiplication with a non-zero int on the
    left is supported, [3 * Money(1)] is [Money(3)] and
    [2 * MoneyWithVAT(10, 1)] is [MoneyWithVAT(20, 2)]. *)
Lemma reverse_arithmetic_counterexample :
  py_binop Mul (VInt 3) (VMoney (mkMoney (of_int 1)))
  = Ok (VMoney (mkMoney (of_int 3))) /\
  py_binop Mul (VInt 2) (VMoneyWithVAT (MoneyWithVAT_of_ints 10 1))
  = Ok (VMoneyWithVAT (MoneyWithVAT_of_ints 20 2)).
Proof. split; vm_compute; reflexivity. Qed.

(** The slip next to it: [__rsub__] of [MoneyWithVAT] is bound to [__sub__],
    so [0 - m] negates the int and then looks for its [net]. *)
Lemma MoneyWithVAT_zero_minus (m : MoneyWithVAT) :
  py_binop Sub (VInt 0) (VMoneyWithVAT m) = Raise AttributeError.
Proof. reflexivity. Qed.

(** C6 (amended): [Money * Money] fails with a [TypeError];
    [MoneyWithVAT + v] fails for every [v] that is not a [MoneyWithVAT];
    reverse addition and subtraction of a [Money], and reverse addition of
    a [MoneyWithVAT], fail with a [TypeError] when the left operand is a
    non-zero int, a [Decimal] or a string.  Reverse multiplication by an
    int or a [Decimal] is supported.  For the integer zero reverse addition
    and subtraction are the identity and the negation: [0 + m] is [m] for
    every [Money] and every [MoneyWithVAT] [m], and [0 - m] is [-m] for
    every [Money] [m]. *)
Theorem operand_type_errors :
  (forall a b : Money, py_binop Mul (VMoney a) (VMoney b) = Raise TypeError) /\
  (forall (m : MoneyWithVAT) (v : value),
      isinstance_MoneyWithVAT v = false ->
      exists e, py_binop Add (VMoneyWithVAT m) v = Raise e) /\
  (forall (m : Money) (mv : MoneyWithVAT) (z : Z),
      z <> 0 ->
      py_binop Add (VInt z) (VMoney m) = Raise TypeError /\
      py_binop Sub (VInt z) (VMoney m) = Raise TypeError /\
      py_binop Add (VInt z) (VMoneyWithVAT mv) = Raise TypeError) /\
  (forall (m : Money) (mv : MoneyWithVAT) (d : Decimal) (s : string),
      py_binop Add (VDecimal d) (VMoney m) = Raise TypeError /\
      py_binop Sub (VDecimal d) (VMoney m) = Raise TypeError /\
      py_binop Add (VDecimal d) (VMoneyWithVAT mv) = Raise TypeError /\
      py_binop Add (VStr s) (VMoney m) = Raise TypeError /\
      py_binop Sub (VStr s) (VMoney m) = Raise TypeError /\
      py_binop Add (VStr s) (VMoneyWithVAT mv) = Raise TypeError) /\
  (forall (m : Money) (mv : MoneyWithVAT) (z : Z) (d : Decimal),
      py_binop Mul (VInt z) (VMoney m) = py_binop Mul (VMoney m) (VInt z) /\
      py_binop Mul (VInt z) (VMoney m) = Ok (VMoney (Money_mul m (of_int z))) /\
      py_binop Mul (VDecimal d) (VMoney m) = Ok (VMoney (Money_mul m d)) /\
      py_binop Mul (VInt z) (VMoneyWithVAT mv)
      = Ok (VMoneyWithVAT (MoneyWithVAT_mul mv (of_int z)))) /\
  (forall (m : Money) (mv : MoneyWithVAT),
      py_binop Add (VInt 0) (VMoney m) = Ok (VMoney m) /\
      py_binop Add (VInt 0) (VMoneyWithVAT mv) = Ok (VMoneyWithVAT mv) /\
      py_binop Sub (VInt 0) (VMoney m) = py_neg (VMoney m) /\
      py_neg (VMoney m) = Ok (VMoney (Money_neg m))).
Proof.
  split; [|split; [|split; [|split; [|split]]]].
  - reflexivity.
  - intros m v Hv. exists AttributeError.
    destruct v; try reflexivity. discriminate.
  - intros m mv z Hz. unfold py_binop. cbn.
    destruct (Z.eqb_spec z 0); [contradiction|]. repeat split.
  - intros m mv d s. repeat split.
  - intros m mv z d. repeat split.
  - intros m mv. repeat split.
Qed.

Lemma operand_type_errors_witness :
  isinstance_MoneyWithVAT (VInt 5) = false /\ 5 <> 0 /\
  (exists e, py_binop Add (VMoneyWithVAT (MoneyWithVAT_of_ints 1 1)) (VInt 5)
             = Raise e) /\
  py_binop Add (VInt 5) (VMoney (mkMoney (of_int 1))) = Raise TypeError.
Proof.
  destruct operand_type_errors as (_ & H2 & H3 & _).
  split; [reflexivity|]. split; [discriminate|]. split.
  - apply (H2 (MoneyWithVAT_of_ints 1 1) (VInt 5)). reflexivity.
  - apply (H3 (mkMoney (of_int 1)) (MoneyWithVAT_of_ints 1 1) 5). discriminate.
Defined.

(** * MoneyWithVATRatio times MoneyWithVAT *)

(** C7, as stated, fails: with the ratio of [MoneyWithVAT(1, 0)] to
    [MoneyWithVAT(1, 2)], which is (1, 0.3333333333333333333333333333), and
    [m = MoneyWithVAT(2, 0)], the gross of [r * m] is
    0.666666666666666666666666667 whereas [r.gross_ratio * m.gross] is
    0.6666666666666666666666666666. *)
Lemma ratio_mul_counterexample :
  ratio (VMoneyWithVAT (MoneyWithVAT_of_ints 1 0))
        (VMoneyWithVAT (MoneyWithVAT_of_ints 1 2)) = Ok ratio_1_third /\
  exists p,
    py_binop Mul (VMoneyWithVATRatio ratio_1_third)
                 (VMoneyWithVAT (MoneyWithVAT_of_ints 2 0))
    = Ok (VMoneyWithVAT p) /\
    amount (gross p) = mk false 666666666666666666666666667 (-27) /\
    Money_mul (gross (MoneyWithVAT_of_ints 2 0)) (gross_ratio ratio_1_third)
    = mkMoney (mk false 6666666666666666666666666666 (-28)) /\
    Money_eq (gross p)
      (Money_mul (gross (MoneyWithVAT_of_ints 2 0)) (gross_ratio ratio_1_third))
    = false.
Proof.
  split; [vm_compute; reflexivity|].
  eexists. split; [vm_compute; reflexivity|].
  repeat split; vm_compute; reflexivity.
Qed.

(** C7 (amended): [r * m] has net [r.net_ratio * m.net] and tax
    [r.gross_ratio * m.gross] minus that net, each operation rounded to
    the 28 digits of the context, and [m * r] is the same value; the gross
    of the result equals [r.gross_ratio * m.gross] whenever the subtraction
    that forms the tax is exact in that context.  For m=(100,19) and
    n=(200,14), [(ratio(m,n) * n).rounded_to_cents()] and
    [(n * ratio(m,n)).rounded_to_cents()] equal [m.rounded_to_cents()]. *)
Theorem ratio_mul_spec :
  (forall r m,
      py_binop Mul (VMoneyWithVATRatio r) (VMoneyWithVAT m)
      = Ok (VMoneyWithVAT (Ratio_mul_money r m)) /\
      py_binop Mul (VMoneyWithVAT m) (VMoneyWithVATRatio r)
      = Ok (VMoneyWithVAT (Ratio_mul_money r m)) /\
      net (Ratio_mul_money r m) = Money_mul (net m) (net_ratio r) /\
      tax (Ratio_mul_money r m)
      = Money_sub (Money_mul (gross m) (gross_ratio r))
                  (Money_mul (net m) (net_ratio r)) /\
      (Money_sub_is_exact (Money_mul (gross m) (gross_ratio r))
                          (Money_mul (net m) (net_ratio r)) ->
       Money_eq (gross (Ratio_mul_money r m))
                (Money_mul (gross m) (gross_ratio r)) = true)) /\
  (exists r a b c,
      ratio (VMoneyWithVAT (MoneyWithVAT_of_ints 100 19))
            (VMoneyWithVAT (MoneyWithVAT_of_ints 200 14)) = Ok r /\
      (p <- py_binop Mul (VMoneyWithVATRatio r)
                        (VMoneyWithVAT (MoneyWithVAT_of_ints 200 14)) ;;
       call_rounded_to_cents p) = Ok a /\
      (p <- py_binop Mul (VMoneyWithVAT (MoneyWithVAT_of_ints 200 14))
                        (VMoneyWithVATRatio r) ;;
       call_rounded_to_cents p) = Ok b /\
      rounded_to_cents (MoneyWithVAT_of_ints 100 19) = Ok c /\
      MoneyWithVAT_eq a c = true /\ MoneyWithVAT_eq b c = true).
Proof.
  split.
  - intros r m. split; [reflexivity|]. split; [reflexivity|].
    split; [reflexivity|]. split; [reflexivity|].
    intros Hex. unfold Ratio_mul_money, gross at 1. cbn [net tax].
    apply Money_add_sub_cancel; [apply Money_mul_bound ..|exact Hex].
  - do 4 eexists.
    split; [vm_compute; reflexivity|].
    split; [vm_compute; reflexivity|].
    split; [vm_compute; reflexivity|].
    split; [vm_compute; reflexivity|].
    split; vm_compute; reflexivity.
Qed.

Lemma ratio_mul_spec_witness :
  Money_sub_is_exact
    (Money_mul (gross (MoneyWithVAT_of_ints 200 14)) (of_int 2))
    (Money_mul (net (MoneyWithVAT_of_ints 200 14)) (of_int 3)) /\
  Money_eq
    (gross (Ratio_mul_money (mkRatio (of_int 3) (of_int 2))
                            (MoneyWithVAT_of_ints 200 14)))
    (Money_mul (gross (MoneyWithVAT_of_ints 200 14)) (of_int 2)) = true.
Proof.
  assert (Hex : Money_sub_is_exact
    (Money_mul (gross (MoneyWithVAT_of_ints 200 14)) (of_int 2))
    (Money_mul (net (MoneyWithVAT_of_ints 200 14)) (of_int 3)))
    by (vm_compute; reflexivity).
  split; [exact Hex|].
  destruct ratio_mul_spec as [H _].
  destruct (H (mkRatio (of_int 3) (of_int 2)) (MoneyWithVAT_of_ints 200 14))
    as (_ & _ & _ & _ & Hg).
  exact (Hg Hex).
Defined.

(** * MoneyWithVAT.max *)

Lemma gtb_false_at (a b : Decimal) (m : Z) :
  m <= d_exp a -> m <= d_exp b ->
  gtb a b = false <->
  sval a * 10 ^ (d_exp a - m) <= sval b * 10 ^ (d_exp b - m).
Proof.
  intros Ha Hb. pose proof (gtb_at a b m Ha Hb) as H.
  destruct (gtb a b).
  - split; [discriminate|]. intros Hle.
    assert (Hgt : sval a * 10 ^ (d_exp a - m) > sval b * 10 ^ (d_exp b - m))
      by (apply H; reflexivity).
    lia.
  - split; [|reflexivity]. intros _.
    destruct (Z_le_gt_dec (sval a * 10 ^ (d_exp a - m))
                          (sval b * 10 ^ (d_exp b - m))) as [|Hgt];
      [assumption|].
    apply H in Hgt. discriminate.
Qed.

Lemma not_gtb_le_trans (a b c : Decimal) :
  gtb a b = false -> gtb b c = false -> gtb a c = false.
Proof.
  set (m := Z.min (d_exp a) (Z.min (d_exp b) (d_exp c))).
  assert (Ha : m <= d_exp a) by (unfold m; lia).
  assert (Hb : m <= d_exp b) by (unfold m; lia).
  assert (Hc : m <= d_exp c) by (unfold m; lia).
  clearbody m.
  rewrite (gtb_false_at a b m), (gtb_false_at b c m), (gtb_false_at a c m)
    by assumption.
  lia.
Qed.

Lemma gtb_asym (a b : Decimal) : gtb a b = true -> gtb b a = false.
Proof.
  set (m := Z.min (d_exp a) (d_exp b)).
  assert (Ha : m <= d_exp a) by (unfold m; lia).
  assert (Hb : m <= d_exp b) by (unfold m; lia).
  clearbody m.
  rewrite (gtb_at a b m), (gtb_false_at b a m) by assumption. lia.
Qed.

(** The loop of the builtin [max] returns an item that no item exceeds. *)
Lemma max_loop_spec (rest : list Money) :
  forall x0,
    let r := fold_left (fun maxitem item =>
                          if Money_gt item maxitem then item else maxitem)
                       rest x0 in
    In r (x0 :: rest) /\ forall x, In x (x0 :: rest) -> Money_gt x r = false.
Proof.
  induction rest as [|y rest IH]; intros x0; cbn [fold_left].
  - cbn. split; [left; reflexivity|].
    intros x [<-|[]]. apply gtb_irrefl.
  - specialize (IH (if Money_gt y x0 then y else x0)).
    cbv zeta in IH. destruct IH as [Hin Hmax].
    set (r := fold_left _ rest _) in *.
    split.
    + destruct Hin as [Hr|Hr]; [|right; right; exact Hr].
      destruct (Money_gt y x0); [right; left|left]; exact Hr.
    + intros x Hx.
      assert (Hy : Money_gt y r = false).
      { destruct (Money_gt y x0) eqn:Hg.
        - apply Hmax. left. reflexivity.
        - eapply not_gtb_le_trans; [exact Hg|]. apply Hmax. left. reflexivity. }
      assert (Hx0 : Money_gt x0 r = false).
      { destruct (Money_gt y x0) eqn:Hg.
        - eapply not_gtb_le_trans; [apply gtb_asym, Hg|exact Hy].
        - apply Hmax. left. reflexivity. }
      destruct Hx as [<-|[<-|Hx]]; [exact Hx0|exact Hy|].
      apply Hmax. right. exact Hx.
Qed.

Lemma py_max_spec (l : list Money) (r : Money) :
  py_max l = Ok r -> In r l /\ forall x, In x l -> Money_gt x r = false.
Proof.
  destruct l as [|x0 rest]; [discriminate|].
  cbn [py_max]. intros [= <-]. apply max_loop_spec.
Qed.

Lemma py_max_nonempty (l : list Money) :
  l <> [] -> exists r, py_max l = Ok r.
Proof. destruct l; [congruence|]. intros _. eexists. reflexivity. Qed.

Lemma mapM_getattr_net (l : list MoneyWithVAT) :
  mapM getattr_net (map VMoneyWithVAT l) = Ok (map net l).
Proof.
  induction l as [|m l IH]; [reflexivity|].
  cbn [map mapM getattr_net bind]. rewrite IH. reflexivity.
Qed.

Lemma mapM_getattr_gross (l : list MoneyWithVAT) :
  mapM getattr_gross (map VMoneyWithVAT l) = Ok (map gross l).
Proof.
  induction l as [|m l IH]; [reflexivity|].
  cbn [map mapM getattr_gross bind]. rewrite IH. reflexivity.
Qed.

(** What [max] computes from the operands once they are in one list. *)
Lemma max_of_operands (l : list MoneyWithVAT) :
  l <> [] ->
  exists r,
    (nets <- mapM getattr_net (map VMoneyWithVAT l) ;;
     max_amount <- py_max nets ;;
     grosses <- mapM getattr_gross (map VMoneyWithVAT l) ;;
     max_gross <- py_max grosses ;;
     Ok (mkMoneyWithVAT max_amount (Money_sub max_gross max_amount))) = Ok r /\
    is_max_of l r.
Proof.
  intros Hne. rewrite mapM_getattr_net, mapM_getattr_gross. cbn [bind].
  destruct (py_max_nonempty (map net l)) as [n Hn].
  { destruct l; [congruence|discriminate]. }
  destruct (py_max_nonempty (map gross l)) as [g Hg].
  { destruct l; [congruence|discriminate]. }
  rewrite Hn. cbn [bind]. rewrite Hg. cbn [bind].
  eexists. split; [reflexivity|].
  apply py_max_spec in Hn, Hg. destruct Hn as [Hn1 Hn2], Hg as [Hg1 Hg2].
  apply in_map_iff in Hn1, Hg1.
  destruct Hn1 as (mn & Hmn & Hinn), Hg1 as (mg & Hmg & Hing).
  unfold is_max_of. cbn [net tax]. split; [|split].
  - exists mn. split; [assumption|]. symmetry. assumption.
  - intros m Hm. apply Hn2, in_map, Hm.
  - exists g. split; [|split].
    + exists mg. split; [assumption|]. symmetry. assumption.
    + intros m Hm. apply Hg2, in_map, Hm.
    + reflexivity.
Qed.

(** C10, as stated, fails on its fixture: the largest gross among
    (100,19), (112,999), (1,2), (99999,0) is 99999, not 1112 (and 112 + 999
    is 1111), so the tax of the maximum is 99999 - 99999 = 0 and not
    -98887. *)
Lemma max_counterexample :
  exists r,
    MoneyWithVAT_max [VList (map VMoneyWithVAT max_fixture)] = Ok r /\
    net r = mkMoney (of_int 99999) /\
    tax r = mkMoney (of_int 0) /\
    Money_eq (tax r) (mkMoney (of_int (-98887))) = false.
Proof.
  eexists. split; [vm_compute; reflexivity|].
  repeat split.
Qed.

(** C10 (amended): [MoneyWithVAT.max] accepts a single non-empty sequence
    of operands, or two or more operands given one by one (a single operand
    given on its own is taken for the sequence and fails), and returns a
    [MoneyWithVAT] whose net is the largest net among the operands and
    whose tax is the largest gross among the operands minus that net; on
    [(100,19), (112,999), (1,2), (99999,0)] this is net = 99999 and
    tax = 99999 - 99999 = 0. *)
Theorem max_spec :
  (forall l : list MoneyWithVAT,
      l <> [] ->
      exists r,
        MoneyWithVAT_max [VList (map VMoneyWithVAT l)] = Ok r /\
        is_max_of l r) /\
  (forall (a b : MoneyWithVAT) (rest : list MoneyWithVAT),
      exists r,
        MoneyWithVAT_max (map VMoneyWithVAT (a :: b :: rest)) = Ok r /\
        is_max_of (a :: b :: rest) r) /\
  (forall m : MoneyWithVAT,
      MoneyWithVAT_max [VMoneyWithVAT m] = Raise TypeError) /\
  MoneyWithVAT_max [VList (map VMoneyWithVAT max_fixture)]
  = Ok (MoneyWithVAT_of_ints 99999 0) /\
  MoneyWithVAT_max (map VMoneyWithVAT max_fixture)
  = Ok (MoneyWithVAT_of_ints 99999 0).
Proof.
  split; [|split; [|split; [reflexivity|split; vm_compute; reflexivity]]].
  - intros l Hne. unfold MoneyWithVAT_max. cbn [py_iter bind].
    apply max_of_operands, Hne.
  - intros a b rest. unfold MoneyWithVAT_max.
    change (map VMoneyWithVAT (a :: b :: rest))
      with (VMoneyWithVAT a :: VMoneyWithVAT b :: map VMoneyWithVAT rest)
      at 1.
    cbn [bind].
    change (VMoneyWithVAT a :: VMoneyWithVAT b :: map VMoneyWithVAT rest)
      with (map VMoneyWithVAT (a :: b :: rest)).
    apply max_of_operands. discriminate.
Qed.

Lemma max_spec_witness :
  max_fixture <> [] /\
  exists r,
    MoneyWithVAT_max [VList (map VMoneyWithVAT max_fixture)] = Ok r /\
    is_max_of max_fixture r.
Proof.
  assert (Hne : max_fixture <> []) by discriminate.
  split; [exact Hne|].
  destruct max_spec as [H _]. exact (H max_fixture Hne).
Defined.

(** * MoneyWithVAT.tax_rate_for_display *)

Lemma tax_rate_total (m : MoneyWithVAT) : exists tr, tax_rate m = Ok tr.
Proof.
  unfold tax_rate. rewrite eqb_zero.
  destruct (is_zero (amount (net m))) eqn:Hz; [eexists; reflexivity|].
  apply div_nonzero_divisor, Hz.
Qed.

Lemma existsb_members (f : Decimal -> bool) (l l' : list Decimal) :
  (forall d, In d l <-> In d l') -> existsb f l = existsb f l'.
Proof.
  intros H. destruct (existsb f l') eqn:E.
  - apply existsb_exists in E. destruct E as (x & Hx & Hf).
    apply existsb_exists. exists x. split; [apply H, Hx|exact Hf].
  - destruct (existsb f l) eqn:E'; [|reflexivity].
    apply existsb_exists in E'. destruct E' as (x & Hx & Hf).
    assert (existsb f l' = true)
      by (apply existsb_exists; exists x; split; [apply H, Hx|exact Hf]).
    congruence.
Qed.

Lemma find_first {A : Type} (f : A -> bool) (before after : list A) (x : A) :
  (forall y, In y before -> f y = false) -> f x = true ->
  find f (before ++ x :: after) = Some x.
Proof.
  intros Hb Hx. induction before as [|y before IH]; cbn.
  - rewrite Hx. reflexivity.
  - rewrite (Hb y) by (left; reflexivity).
    apply IH. intros z Hz. apply Hb. right. exact Hz.
Qed.

Lemma find_none_iff {A : Type} (f : A -> bool) (l : list A) :
  (forall y, In y l -> f y = false) -> find f l = None.
Proof.
  intros H. induction l as [|y l IH]; cbn; [reflexivity|].
  rewrite (H y) by (left; reflexivity).
  apply IH. intros z Hz. apply H. right. exact Hz.
Qed.

Section TaxRateForDisplay.

(** The tuple [_KNOWN_VAT_RATES] in the order the interpreter gives it: it
    is built from a [set], so only its members are known. *)
Variable _KNOWN_VAT_RATES : list Decimal.
Hypothesis known_vat_rates_members :
  forall d, In d _KNOWN_VAT_RATES <-> In d known_vat_rate_set.

(** C9: [tax_rate_for_display] returns [tax_rate] unchanged when it equals
    a member of the catalogue 0.19, 0.16, 0.07, 0.05, 0, 0.20, 0.13, 0.10,
    0.25; otherwise it returns the first rate, in the order of the tuple,
    whose implied tax [rate * net] differs from the tax by less than 0.05;
    and the raw [tax_rate] if there is no such rate. *)
Theorem tax_rate_for_display_spec (m : MoneyWithVAT) :
  known_vat_rate_set
  = [mk false 19 (-2); mk false 16 (-2); mk false 7 (-2); mk false 5 (-2);
     mk false 0 0; mk false 20 (-2); mk false 13 (-2); mk false 10 (-2);
     mk false 25 (-2)] /\
  exists tr,
    tax_rate m = Ok tr /\
    ((exists r, In r known_vat_rate_set /\ eqb tr r = true) ->
     tax_rate_for_display _KNOWN_VAT_RATES m = Ok tr) /\
    ((forall r, In r known_vat_rate_set -> eqb tr r = false) ->
     (forall before rate after,
         _KNOWN_VAT_RATES = before ++ rate :: after ->
         (forall x, In x before -> vat_matches m x = false) ->
         vat_matches m rate = true ->
         tax_rate_for_display _KNOWN_VAT_RATES m = Ok rate) /\
     ((forall x, In x known_vat_rate_set -> vat_matches m x = false) ->
      tax_rate_for_display _KNOWN_VAT_RATES m = Ok tr)).
Proof.
  split; [reflexivity|].
  destruct (tax_rate_total m) as [tr Htr]. exists tr.
  split; [exact Htr|]. unfold tax_rate_for_display. rewrite Htr. cbn [bind].
  rewrite (existsb_members _ _ _ known_vat_rates_members).
  split.
  - intros (r & Hin & Heq).
    assert (E : existsb (eqb tr) known_vat_rate_set = true)
      by (apply existsb_exists; exists r; split; assumption).
    rewrite E. reflexivity.
  - intros Hnone.
    assert (E : existsb (eqb tr) known_vat_rate_set = false).
    { destruct (existsb (eqb tr) known_vat_rate_set) eqn:E; [|reflexivity].
      apply existsb_exists in E. destruct E as (r & Hin & Heq).
      rewrite (Hnone r Hin) in Heq. discriminate. }
    rewrite E. split.
    + intros before rate after Hsplit Hbefore Hrate.
      rewrite Hsplit, (find_first _ _ _ _ Hbefore Hrate). reflexivity.
    + intros Hno. rewrite find_none_iff; [reflexivity|].
      intros y Hy. apply Hno, known_vat_rates_members, Hy.
Qed.

End TaxRateForDisplay.

Lemma tax_rate_for_display_spec_witness :
  (forall d, In d cpython_known_vat_rates <-> In d known_vat_rate_set) /\
  tax_rate money_100_1900912 = Ok (mk false 1900912 (-7)) /\
  (forall r, In r known_vat_rate_set ->
             eqb (mk false 1900912 (-7)) r = false) /\
  tax_rate_for_display cpython_known_vat_rates money_100_1900912
  = Ok (mk false 19 (-2)).
Proof.
  assert (Hmem : forall d, In d cpython_known_vat_rates
                           <-> In d known_vat_rate_set).
  { intros d. cbn. tauto. }
  assert (Hnone : forall r, In r known_vat_rate_set ->
                            eqb (mk false 1900912 (-7)) r = false).
  { intros r Hr. cbn in Hr.
    repeat (destruct Hr as [<-|Hr]; [vm_compute; reflexivity|]).
    destruct Hr. }
  split; [exact Hmem|]. split; [vm_compute; reflexivity|].
  split; [exact Hnone|].
  destruct (tax_rate_for_display_spec cpython_known_vat_rates Hmem
              money_100_1900912) as (_ & tr & Htr & _ & Hscan).
  assert (Etr : tr = mk false 1900912 (-7)).
  { assert (H : tax_rate money_100_1900912 = Ok (mk false 1900912 (-7)))
      by (vm_compute; reflexivity).
    congruence. }
  subst tr. destruct (Hscan Hnone) as [Hfirst _].
  apply (Hfirst [mk false 0 0; mk false 25 (-2)] (mk false 19 (-2))
           [mk false 5 (-2); mk false 16 (-2); mk false 13 (-2);
            mk false 10 (-2); mk false 7 (-2); mk false 20 (-2)]).
  - reflexivity.
  - intros x [<-|[<-|[]]]; vm_compute; reflexivity.
  - vm_compute. reflexivity.
Defined.

(** * Text form of decimals *)

Module DecText.
Import Dec DecFacts DecOps.
Local Open Scope string_scope.
Local Open Scope Z_scope.

Lemma digit_char_spec (d : Z) :
  0 <= d < 10 -> is_digit (digit_char d) = true /\ digit_val (digit_char d) = d.
Proof.
  intros H.
  assert (Hd : d = 0 \/ d = 1 \/ d = 2 \/ d = 3 \/ d = 4 \/ d = 5 \/ d = 6 \/
               d = 7 \/ d = 8 \/ d = 9) by lia.
  repeat (destruct Hd as [->|Hd]; [split; reflexivity|]).
  subst d. split; reflexivity.
Qed.

Lemma append_nil_r (s : string) : s ++ "" = s.
Proof. induction s as [|c s IH]; cbn; [reflexivity|]. rewrite IH. reflexivity. Qed.

Lemma append_assoc (a b c : string) : (a ++ b) ++ c = a ++ (b ++ c).
Proof. induction a as [|x a IH]; cbn; [reflexivity|]. rewrite IH. reflexivity. Qed.

Lemma length_append (a b : string) :
  String.length (a ++ b) = (String.length a + String.length b)%nat.
Proof. induction a as [|x a IH]; cbn; [reflexivity|]. rewrite IH. reflexivity. Qed.

Lemma all_digits_append (a b : string) :
  all_digits (a ++ b) = all_digits a && all_digits b.
Proof.
  induction a as [|x a IH]; cbn; [reflexivity|].
  rewrite IH, andb_assoc. reflexivity.
Qed.

Lemma nonempty_append_r (a b : string) :
  nonempty b = true -> nonempty (a ++ b) = true.
Proof. destruct a; cbn; auto. Qed.

Lemma int_of_digits_acc_append (s t : string) (a : Z) :
  int_of_digits_acc (s ++ t) a = int_of_digits_acc t (int_of_digits_acc s a).
Proof.
  revert a. induction s as [|c s IH]; intros a; cbn; [reflexivity|]. apply IH.
Qed.

Lemma int_of_digits_acc_zeros (k : nat) : int_of_digits_acc (zeros k) 0 = 0.
Proof. induction k as [|k IH]; cbn; [reflexivity|]. exact IH. Qed.

Lemma length_zeros (k : nat) : String.length (zeros k) = k.
Proof. induction k as [|k IH]; cbn; [reflexivity|]. rewrite IH. reflexivity. Qed.

Lemma all_digits_zeros (k : nat) : all_digits (zeros k) = true.
Proof. induction k as [|k IH]; cbn; [reflexivity|]. exact IH. Qed.

(** *** [str] *)

Lemma str_aux_acc (fuel : nat) :
  forall n acc, str_aux fuel n acc = str_aux fuel n "" ++ acc.
Proof.
  induction fuel as [|f IH]; intros n acc; cbn [str_aux]; [reflexivity|].
  destruct (n <? 10); [reflexivity|].
  rewrite (IH _ (String _ acc)), (IH _ (String _ "")), append_assoc.
  reflexivity.
Qed.

Lemma str_aux_nonempty (fuel : nat) (n : Z) :
  nonempty (str_aux (S fuel) n "") = true.
Proof.
  cbn [str_aux]. destruct (n <? 10); [reflexivity|].
  rewrite str_aux_acc. apply nonempty_append_r. reflexivity.
Qed.

Lemma str_aux_digits (fuel : nat) :
  forall n, 0 <= n -> all_digits (str_aux fuel n "") = true.
Proof.
  induction fuel as [|f IH]; intros n Hn; cbn [str_aux]; [reflexivity|].
  pose proof (Z.mod_pos_bound n 10 ltac:(lia)) as Hm.
  destruct (digit_char_spec _ Hm) as [Hd _].
  destruct (n <? 10).
  - cbn [all_digits]. rewrite Hd. reflexivity.
  - rewrite str_aux_acc, all_digits_append, IH by (apply Z.div_pos; lia).
    cbn [all_digits andb]. rewrite Hd. reflexivity.
Qed.

Lemma str_aux_value (fuel : nat) :
  forall n a, 0 <= n < 10 ^ Z.of_nat fuel ->
  int_of_digits_acc (str_aux fuel n "") a
  = a * 10 ^ len (str_aux fuel n "") + n.
Proof.
  induction fuel as [|f IH]; intros n a Hn.
  - cbn in *. lia.
  - cbn [str_aux].
    pose proof (Z.mod_pos_bound n 10 ltac:(lia)) as Hm.
    destruct (digit_char_spec _ Hm) as [_ Hv].
    pose proof (Z.div_mod n 10 ltac:(lia)) as Hdm.
    destruct (Z.ltb_spec n 10) as [Hs|Hb].
    + cbn [int_of_digits_acc]. rewrite Hv, Z.mod_small by lia.
      unfold len. cbn [String.length]. change (10 ^ Z.of_nat 1) with 10. lia.
    + rewrite str_aux_acc, int_of_digits_acc_append.
      assert (Hq : 0 <= n / 10 < 10 ^ Z.of_nat f).
      { split; [apply Z.div_pos; lia|].
        rewrite Nat2Z.inj_succ, Z.pow_succ_r in Hn by lia.
        apply Z.div_lt_upper_bound; lia. }
      rewrite (IH _ a Hq). cbn [int_of_digits_acc]. rewrite Hv.
      unfold len. rewrite length_append. cbn [String.length].
      rewrite Nat2Z.inj_add, pow10_split by lia.
      change (10 ^ Z.of_nat 1) with 10. lia.
Qed.

Lemma str_fuel (n : Z) : 0 <= n -> n < 10 ^ Z.of_nat (S (Z.to_nat (Z.log2 n))).
Proof.
  intros Hn. rewrite Nat2Z.inj_succ, Z2Nat.id by apply Z.log2_nonneg.
  destruct (Z.eq_dec n 0) as [->|Hnz]; [cbn; lia|].
  destruct (Z.log2_spec n ltac:(lia)) as [_ Hup].
  assert (2 ^ Z.succ (Z.log2 n) <= 10 ^ Z.succ (Z.log2 n)).
  { apply Z.pow_le_mono_l. pose proof (Z.log2_nonneg n). lia. }
  lia.
Qed.

Lemma str_spec (n : Z) :
  0 <= n ->
  nonempty (str n) = true /\ all_digits (str n) = true /\
  forall a, int_of_digits_acc (str n) a = a * 10 ^ len (str n) + n.
Proof.
  intros Hn. unfold str. split; [apply str_aux_nonempty|].
  split; [apply str_aux_digits, Hn|].
  intros a. apply str_aux_value. split; [assumption|apply str_fuel, Hn].
Qed.

(** *** Slices and digit prefixes *)

Lemma take_drop (k : nat) (s : string) : take k s ++ drop k s = s.
Proof.
  revert s. induction k as [|k IH]; intros [|c s]; cbn; try reflexivity.
  rewrite IH. reflexivity.
Qed.

Lemma length_drop (k : nat) (s : string) :
  String.length (drop k s) = (String.length s - k)%nat.
Proof.
  revert s. induction k as [|k IH]; intros [|c s]; cbn; try reflexivity.
  apply IH.
Qed.

Lemma all_digits_take_drop (k : nat) (s : string) :
  all_digits s = true ->
  all_digits (take k s) = true /\ all_digits (drop k s) = true.
Proof.
  intros H. rewrite <- (take_drop k s), all_digits_append in H.
  apply andb_prop in H. exact H.
Qed.

Definition starts_without_digit (s : string) : bool :=
  match s with
  | EmptyString => true
  | String c _ => negb (is_digit c)
  end.

Lemma span_digits_append (ds rest : string) :
  all_digits ds = true -> starts_without_digit rest = true ->
  span_digits (ds ++ rest) = (ds, rest).
Proof.
  intros Hd Hr. induction ds as [|c ds IH]; cbn.
  - destruct rest as [|c r]; [reflexivity|]. cbn in *.
    destruct (is_digit c); [discriminate|reflexivity].
  - cbn in Hd. apply andb_prop in Hd. destruct Hd as [Hc Hd].
    rewrite Hc, (IH Hd). reflexivity.
Qed.

Lemma digit_is_no_sign (c : ascii) :
  is_digit c = true -> Ascii.eqb c "-" = false /\ Ascii.eqb c "+" = false.
Proof.
  intros H. split.
  - destruct (Ascii.eqb_spec c "-"); [subst; discriminate|reflexivity].
  - destruct (Ascii.eqb_spec c "+"); [subst; discriminate|reflexivity].
Qed.

(** A sign, digits, a point and digits are read back as written. *)
Lemma of_string_fixed (sg : bool) (intpart frac : string) :
  all_digits intpart = true -> nonempty intpart = true ->
  all_digits frac = true ->
  let s := (if sg then "-" else "") ++ intpart ++ String "." frac in
  of_string s
  = Ok (mk sg (Z.to_N (int_of_digits (intpart ++ frac))) (- len frac)) /\
  is_fixed_point (String.length frac) s = true.
Proof.
  intros Hi Hne Hf s.
  assert (Hspan : span_digits (intpart ++ String "." frac)
                  = (intpart, String "." frac))
    by (apply span_digits_append; [assumption|reflexivity]).
  assert (Hspanf : span_digits frac = (frac, ""))
    by (rewrite <- (append_nil_r frac) at 1;
        apply span_digits_append; [assumption|reflexivity]).
  assert (Hsign : split_sign s = (sg, intpart ++ String "." frac) /\
                  match s with
                  | EmptyString => s
                  | String c r => if Ascii.eqb c "-" then r else s
                  end = intpart ++ String "." frac).
  { subst s. destruct sg; [split; reflexivity|].
    destruct intpart as [|c r]; [discriminate|]. cbn in Hi |- *.
    apply andb_prop in Hi. destruct Hi as [Hc _].
    destruct (digit_is_no_sign c Hc) as [-> ->]. split; reflexivity. }
  destruct Hsign as [Hsplit Hbody]. split.
  - unfold of_string. rewrite Hsplit, Hspan. cbv beta iota.
    change (Ascii.eqb "." ".") with true. cbv beta iota. rewrite Hspanf.
    rewrite Hne. cbn [orb parse_exponent]. rewrite Z.sub_0_l. reflexivity.
  - unfold is_fixed_point. rewrite Hbody, Hspan, Hne. cbv beta iota.
    change (Ascii.eqb "." ".") with true. rewrite Hf, Nat.eqb_refl.
    reflexivity.
Qed.

(** The fixed-point form of a decimal with a negative exponent: as many
    fractional digits as the exponent says, and the digits spell the
    coefficient. *)
Lemma format_f_shape (sg : bool) (n : N) (e : Z) :
  e < 0 ->
  exists intpart frac,
    format_f (mk sg n e)
    = (if sg then "-" else "") ++ intpart ++ String "." frac /\
    all_digits intpart = true /\ nonempty intpart = true /\
    all_digits frac = true /\ len frac = - e /\
    int_of_digits (intpart ++ frac) = Z.of_N n.
Proof.
  intros He. unfold format_f. cbn [d_exp d_int d_sign].
  replace (0 <? e) with false by (symmetry; apply Z.ltb_ge; lia).
  rewrite andb_false_r. cbn [d_exp d_int d_sign].
  destruct (str_spec (Z.of_N n) ltac:(lia)) as (Hne & Hd & Hv).
  set (ds := str (Z.of_N n)) in *.
  assert (HL : 0 < len ds).
  { unfold len. destruct ds; [discriminate|]. cbn [String.length]. lia. }
  destruct (Z.ltb_spec (e + len ds) 0) as [Hneg|Hpos].
  - exists "0", (zeros (Z.to_nat (- (e + len ds))) ++ ds).
    rewrite nonempty_append_r by assumption.
    split; [reflexivity|]. split; [reflexivity|]. split; [reflexivity|].
    split; [rewrite all_digits_append, all_digits_zeros; exact Hd|].
    split.
    + unfold len in *. rewrite length_append, length_zeros, Nat2Z.inj_add.
      rewrite Z2Nat.id by lia. lia.
    + unfold int_of_digits. cbn [append int_of_digits_acc].
      rewrite int_of_digits_acc_append.
      change (10 * 0 + digit_val "0") with 0.
      rewrite int_of_digits_acc_zeros, Hv. lia.
  - destruct (Z.gtb_spec (e + len ds) (len ds)) as [Hbad|_]; [lia|].
    set (k := Z.to_nat (e + len ds)).
    destruct (all_digits_take_drop k ds Hd) as [Htk Hdr].
    assert (Hlen : len (drop k ds) = - e).
    { unfold len in *. rewrite length_drop. unfold k. lia. }
    assert (Hfr : nonempty (drop k ds) = true).
    { destruct (drop k ds); [cbn in Hlen; lia|reflexivity]. }
    rewrite Hfr.
    exists (if nonempty (take k ds) then take k ds else "0"), (drop k ds).
    split; [reflexivity|].
    destruct (nonempty (take k ds)) eqn:Hi.
    + repeat split; try assumption.
      rewrite take_drop. unfold int_of_digits. rewrite Hv. lia.
    + repeat split; try assumption.
      assert (Hds : drop k ds = ds).
      { rewrite <- (take_drop k ds) at 2.
        destruct (take k ds); [reflexivity|discriminate]. }
      rewrite Hds. unfold int_of_digits. cbn [append int_of_digits_acc].
      change (10 * 0 + digit_val "0") with 0. rewrite Hv. lia.
Qed.

(** Printing a decimal with a negative exponent and reading the text back
    gives the same decimal. *)
Lemma of_string_format_f (sg : bool) (n : N) (e : Z) :
  e < 0 ->
  of_string (format_f (mk sg n e)) = Ok (mk sg n e) /\
  is_fixed_point (Z.to_nat (- e)) (format_f (mk sg n e)) = true.
Proof.
  intros He.
  destruct (format_f_shape sg n e He)
    as (intpart & frac & -> & Hi & Hne & Hf & Hlen & Hval).
  destruct (of_string_fixed sg intpart frac Hi Hne Hf) as [Hparse Hshape].
  split.
  - rewrite Hparse, Hval, Hlen, N2Z.id. f_equal. f_equal. lia.
  - replace (Z.to_nat (- e)) with (String.length frac); [exact Hshape|].
    unfold len in Hlen. lia.
Qed.

End DecText.

(** * Encoding and decoding *)

Import DecText.

(** Rescaling to a smaller exponent only appends zeros. *)
Lemma rescale_exact (d : Decimal) (e : Z) :
  e <= d_exp d -> eqb (rescale d e) d = true.
Proof.
  intros He. unfold rescale.
  destruct (is_zero d) eqn:Hz.
  - apply (eqb_at _ _ e); cbn [d_exp]; try lia.
    apply is_zero_spec in Hz. rewrite Hz, sval_mk.
    destruct (d_sign d); lia.
  - destruct (Z.leb_spec e (d_exp d)); [|lia].
    apply (eqb_at _ _ e); cbn [d_exp]; try lia.
    rewrite sval_mk, Z.sub_diag, Z.mul_1_r.
    assert (0 < 10 ^ (d_exp d - e)) by (apply pow10_pos; lia).
    rewrite Z2N.id by nia. unfold sval. destruct (d_sign d); lia.
Qed.

Lemma quantize_in_fits (p : Z) (d : Decimal) (e : Z) :
  0 < p -> e <= d_exp d -> Z.of_N (d_int d) * 10 ^ (d_exp d - e) < 10 ^ p ->
  exists q, quantize_in p d e = Ok q.
Proof.
  intros Hp He Hfit. unfold quantize_in.
  destruct (is_zero d) eqn:Hz; [eexists; reflexivity|].
  assert (Hpos : 0 < Z.of_N (d_int d)).
  { unfold is_zero in Hz. apply N.eqb_neq in Hz. lia. }
  assert (Hk : 0 <= d_exp d - e) by lia.
  pose proof (pow10_pos _ Hk) as Hpk.
  assert (Hnd : ndigits (Z.of_N (d_int d)) + (d_exp d - e) <= p).
  { rewrite <- ndigits_scale by lia. apply ndigits_le; [nia|assumption]. }
  destruct (Z.gtb_spec (d_exp d + ndigits (Z.of_N (d_int d)) - 1 - e + 1) p);
    [lia|].
  unfold rescale. rewrite Hz.
  destruct (Z.leb_spec e (d_exp d)); [|lia]. cbn [d_int].
  rewrite Z2N.id by nia. rewrite ndigits_scale by lia.
  destruct (Z.gtb_spec (ndigits (Z.of_N (d_int d)) + (d_exp d - e)) p); [lia|].
  eexists; reflexivity.
Qed.

(** What [for_json] prints is read back as the amount rounded to the field
    precision. *)
Lemma Money_for_json_decode (m : Money) (s : string) :
  Money_for_json m = Ok s ->
  is_fixed_point 12 s = true /\
  exists q,
    Money_round m 12 = Ok q /\
    _pydantic_validate_money (VStr s) = Ok q /\
    Z.of_N (d_int (amount q)) < 10 ^ 28 /\
    (-12 <= d_exp (amount m) -> Money_eq q m = true).
Proof.
  unfold Money_for_json.
  change (max_digits DECIMAL_MONEY_ARGS) with 28.
  change (- decimal_places DECIMAL_MONEY_ARGS) with (-12).
  destruct (quantize_in 28 (amount m) (-12)) as [q|x] eqn:Hq; [|discriminate].
  cbn [bind]. intros [= <-].
  destruct (quantize_in_ok 28 _ _ _ ltac:(lia) Hq) as (Hres & Hexp & Hfit).
  destruct q as [sg n e]. cbn [d_exp] in Hexp. subst e.
  destruct (of_string_format_f sg n (-12) ltac:(lia)) as [Hparse Hshape].
  split; [exact Hshape|].
  exists (mkMoney (mk sg n (-12))). split; [|split; [|split]].
  - unfold Money_round, round. change prec with 28. change (- (12)) with (-12).
    rewrite Hq. reflexivity.
  - unfold _pydantic_validate_money, validate_decimal. rewrite Hparse.
    reflexivity.
  - exact Hfit.
  - intros He. unfold Money_eq. cbn [amount]. rewrite Hres.
    apply rescale_exact, He.
Qed.

(** C8, as stated, fails: [Money("1E-13")] is encoded as "0.000000000000"
    and decoded as zero, which is not equal to it; and [Money("1E+17")]
    has no encoding at all, [for_json] raises [InvalidOperation]. *)
Lemma round_trip_counterexample :
  Money_for_json money_1e_minus_13 = Ok "0.000000000000"%string /\
  _pydantic_validate_money (VStr "0.000000000000")
  = Ok (mkMoney (mk false 0 (-12))) /\
  Money_eq (mkMoney (mk false 0 (-12))) money_1e_minus_13 = false /\
  Money_for_json money_1e17 = Raise InvalidOperation.
Proof. repeat split; vm_compute; reflexivity. Qed.

(** C8 (amended): whenever [m.for_json()] succeeds, the encoding is a
    fixed-point numeral with exactly 12 fractional digits and no exponent,
    of at most 28 digits, and decoding it gives [m.round(12)]: the amount
    rounded half-even to 12 fractional digits, which equals [m] when [m]
    has at most 12 fractional digits.  [for_json] succeeds whenever the
    amount written with 12 fractional digits fits 28 digits, and raises
    [InvalidOperation] otherwise.  For a [MoneyWithVAT], decoding the
    encoding gives [m.rounded_to_money_field_precision()], which equals
    [m] when its net and tax have at most 12 fractional digits. *)
Theorem for_json_round_trip :
  (forall (m : Money) (s : string),
      Money_for_json m = Ok s ->
      is_fixed_point 12 s = true /\
      exists q,
        Money_round m 12 = Ok q /\
        _pydantic_validate_money (VStr s) = Ok q /\
        Z.of_N (d_int (amount q)) < 10 ^ 28 /\
        (-12 <= d_exp (amount m) -> Money_eq q m = true)) /\
  (forall m : Money,
      -12 <= d_exp (amount m) ->
      Z.of_N (d_int (amount m)) * 10 ^ (d_exp (amount m) + 12) < 10 ^ 28 ->
      exists s, Money_for_json m = Ok s) /\
  (forall (m : Money) (x : exn),
      Money_for_json m = Raise x -> x = InvalidOperation) /\
  (forall (m : MoneyWithVAT) (v : value),
      MoneyWithVAT_for_json m = Ok v ->
      exists m',
        _pydantic_validate_money_vat v = Ok m' /\
        rounded_to_money_field_precision m = Ok m' /\
        (-12 <= d_exp (amount (net m)) -> -12 <= d_exp (amount (tax m)) ->
         MoneyWithVAT_eq m' m = true)).
Proof.
  split; [exact Money_for_json_decode|]. split; [|split].
  - intros m He Hfit. unfold Money_for_json.
    change (max_digits DECIMAL_MONEY_ARGS) with 28.
    change (- decimal_places DECIMAL_MONEY_ARGS) with (-12).
    destruct (quantize_in_fits 28 (amount m) (-12) ltac:(lia) He) as [q ->].
    + replace (d_exp (amount m) - -12) with (d_exp (amount m) + 12) by lia.
      exact Hfit.
    + eexists. reflexivity.
  - intros m x. unfold Money_for_json.
    destruct (quantize_in _ _ _) as [q|y] eqn:Hq; [discriminate|].
    intros [= <-]. eapply quantize_in_raise, Hq.
  - intros m v. unfold MoneyWithVAT_for_json.
    destruct (Money_for_json (net m)) as [sn|x] eqn:Hn; [|discriminate].
    destruct (Money_for_json (tax m)) as [st|x] eqn:Ht; [|discriminate].
    cbn [bind]. intros [= <-].
    destruct (Money_for_json_decode _ _ Hn) as (_ & qn & Hrn & Hvn & _ & Hen).
    destruct (Money_for_json_decode _ _ Ht) as (_ & qt & Hrt & Hvt & _ & Het).
    exists (mkMoneyWithVAT qn qt). split; [|split].
    + unfold _pydantic_validate_money_vat.
      change (keys_are [("net"%string, VStr sn); ("tax"%string, VStr st)]
                       ["net"%string; "tax"%string]) with true.
      cbn [mapM snd fst bind]. rewrite Hvn. cbn [bind]. rewrite Hvt.
      reflexivity.
    + unfold rounded_to_money_field_precision.
      change (decimal_places DECIMAL_MONEY_ARGS) with 12.
      rewrite Hrn, Hrt. reflexivity.
    + intros H1 H2. unfold MoneyWithVAT_eq. cbn [net tax].
      rewrite (Hen H1), (Het H2). reflexivity.
Qed.

Lemma for_json_round_trip_witness :
  Money_for_json (mkMoney (mk false 123123456789012 (-12)))
  = Ok "123.123456789012"%string /\
  -12 <= d_exp (amount (mkMoney (mk false 123123456789012 (-12)))) /\
  is_fixed_point 12 "123.123456789012" = true /\
  exists q,
    _pydantic_validate_money (VStr "123.123456789012") = Ok q /\
    Money_eq q (mkMoney (mk false 123123456789012 (-12))) = true.
Proof.
  assert (Henc : Money_for_json (mkMoney (mk false 123123456789012 (-12)))
                 = Ok "123.123456789012"%string) by (vm_compute; reflexivity).
  assert (Hexp : -12 <= d_exp (amount (mkMoney (mk false 123123456789012 (-12)))))
    by (cbn; lia).
  destruct for_json_round_trip as [H _].
  destruct (H _ _ Henc) as (Hshape & q & _ & Hdec & _ & Heq).
  split; [exact Henc|]. split; [exact Hexp|]. split; [exact Hshape|].
  exists q. split; [exact Hdec|exact (Heq Hexp)].
Defined.

(** * Further properties of Money *)

Lemma aligned_sum_comm (a b : Decimal) : aligned_sum a b = aligned_sum b a.
Proof. unfold aligned_sum. rewrite (Z.min_comm (d_exp b)). lia. Qed.

Lemma add_comm (a b : Decimal) : add a b = add b a.
Proof.
  unfold add, exact_add. cbv zeta.
  rewrite (aligned_sum_comm b a), (Z.min_comm (d_exp b)), (andb_comm (d_sign b)).
  reflexivity.
Qed.

(** Addition respects numerical equality in both operands. *)
Lemma add_congr (a a' b b' : Decimal) :
  eqb a a' = true -> eqb b b' = true -> eqb (add a b) (add a' b') = true.
Proof.
  intros Ha Hb. eapply eqb_trans; [apply add_congr_l, Ha|].
  rewrite (add_comm a' b), (add_comm a' b'). apply add_congr_l, Hb.
Qed.

Lemma cmp_antisym (a b : Decimal) : cmp b a = CompOpp (cmp a b).
Proof.
  unfold cmp. rewrite (Z.min_comm (d_exp b)). apply Z.compare_antisym.
Qed.

(** X1: addition of [Money] is commutative, and a [Money] whose amount fits
    the 28 digits of the context cancels against its negation: [a + (-a)]
    and [a - a] are the same value, equal to [Money(0)] and falsy. *)
Theorem Money_add_comm_and_inverse :
  (forall a b : Money, Money_add a b = Money_add b a) /\
  (forall a : Money,
      Money_fits a ->
      Money_sub a a = Money_add a (Money_neg a) /\
      Money_eq (Money_sub a a) Money_zero = true /\
      Money_bool (Money_sub a a) = false).
Proof.
  split.
  - intros a b. unfold Money_add. rewrite add_comm. reflexivity.
  - intros a Hfit. split; [reflexivity|].
    assert (Hz : is_zero (amount (Money_sub a a)) = true).
    { unfold Money_sub, Money_add, Money_neg. cbn [amount].
      destruct (neg_exact (amount a) Hfit) as (Hne & Hns & _).
      apply is_zero_spec.
      assert (Hsum : aligned_sum (amount a) (neg (amount a)) = 0).
      { unfold aligned_sum. rewrite Hne, Hns, Z.min_id, Z.sub_diag. lia. }
      destruct (add_exact (amount a) (neg (amount a))) as [_ Hs].
      - rewrite Hsum. reflexivity.
      - rewrite Hs. exact Hsum. }
    split.
    + unfold Money_eq, Money_zero. cbn [amount]. rewrite eqb_zero. exact Hz.
    + unfold Money_bool. rewrite Hz. reflexivity.
Qed.

Lemma Money_add_comm_and_inverse_witness :
  Money_fits (mkMoney (mk false 1000000 0)) /\
  Money_eq (Money_sub (mkMoney (mk false 1000000 0))
                      (mkMoney (mk false 1000000 0))) Money_zero = true.
Proof.
  assert (Hfit : Money_fits (mkMoney (mk false 1000000 0)))
    by (vm_compute; reflexivity).
  split; [exact Hfit|].
  destruct Money_add_comm_and_inverse as [_ H].
  destruct (H _ Hfit) as (_ & Heq & _). exact Heq.
Defined.

(** X2: addition of [Money] is associative whenever the four sums involved
    are exact in the 28-digit context: [(a + b) + c == a + (b + c)]. *)
Theorem Money_add_assoc_exact (a b c : Money) :
  Money_add_is_exact a b ->
  Money_add_is_exact (Money_add a b) c ->
  Money_add_is_exact b c ->
  Money_add_is_exact a (Money_add b c) ->
  Money_eq (Money_add (Money_add a b) c) (Money_add a (Money_add b c)) = true.
Proof.
  unfold Money_add_is_exact, Money_eq, Money_add. cbn [amount].
  destruct a as [a], b as [b], c as [c]. cbn [amount].
  intros H1 H2 H3 H4.
  destruct (add_exact a b H1) as [E1 S1].
  destruct (add_exact (add a b) c H2) as [E2 S2].
  destruct (add_exact b c H3) as [E3 S3].
  destruct (add_exact a (add b c) H4) as [E4 S4].
  set (M := Z.min (d_exp a) (Z.min (d_exp b) (d_exp c))).
  apply (eqb_at _ _ M); [rewrite E2, E1; unfold M; lia
                        |rewrite E4, E3; unfold M; lia|].
  rewrite S2, S4. unfold aligned_sum. rewrite S1, S3, E1, E2, E3, E4, E1, E3.
  unfold aligned_sum.
  replace (Z.min (Z.min (d_exp a) (d_exp b)) (d_exp c)) with M by (unfold M; lia).
  replace (Z.min (d_exp a) (Z.min (d_exp b) (d_exp c))) with M by reflexivity.
  rewrite !Z.sub_diag, !Z.mul_1_r.
  assert (Ha : M <= d_exp a) by (unfold M; lia).
  assert (Hb : M <= d_exp b) by (unfold M; lia).
  assert (Hc : M <= d_exp c) by (unfold M; lia).
  clearbody M.
  rewrite !Z.mul_add_distr_r, <- !Z.mul_assoc, <- !pow10_split by lia.
  replace (d_exp a - Z.min (d_exp a) (d_exp b) + (Z.min (d_exp a) (d_exp b) - M))
    with (d_exp a - M) by lia.
  replace (d_exp b - Z.min (d_exp a) (d_exp b) + (Z.min (d_exp a) (d_exp b) - M))
    with (d_exp b - M) by lia.
  replace (d_exp b - Z.min (d_exp b) (d_exp c) + (Z.min (d_exp b) (d_exp c) - M))
    with (d_exp b - M) by lia.
  replace (d_exp c - Z.min (d_exp b) (d_exp c) + (Z.min (d_exp b) (d_exp c) - M))
    with (d_exp c - M) by lia.
  lia.
Qed.

Lemma Money_add_assoc_exact_witness :
  Money_add_is_exact (mkMoney (mk false 15 (-1))) (mkMoney (mk false 225 (-2))) /\
  Money_eq
    (Money_add (Money_add (mkMoney (mk false 15 (-1)))
                          (mkMoney (mk false 225 (-2))))
               (mkMoney (mk true 3 0)))
    (Money_add (mkMoney (mk false 15 (-1)))
               (Money_add (mkMoney (mk false 225 (-2)))
                          (mkMoney (mk true 3 0)))) = true.
Proof.
  assert (H1 : Money_add_is_exact (mkMoney (mk false 15 (-1)))
                                  (mkMoney (mk false 225 (-2))))
    by (vm_compute; reflexivity).
  split; [exact H1|].
  apply Money_add_assoc_exact; [exact H1|..]; vm_compute; reflexivity.
Defined.

(** X3: the comparisons of [Money] order the amounts totally: of [a < b],
    [a == b] and [a > b] exactly one holds, [a < b] is [b > a], [<=] and
    [>=] are the negations of [>] and [<], and [<=] is transitive and
    antisymmetric up to [==]. *)
Theorem Money_order_total (a b c : Money) :
  (Money_lt a b = true /\ Money_eq a b = false /\ Money_gt a b = false \/
   Money_lt a b = false /\ Money_eq a b = true /\ Money_gt a b = false \/
   Money_lt a b = false /\ Money_eq a b = false /\ Money_gt a b = true) /\
  Money_lt a b = Money_gt b a /\
  Money_le a b = negb (Money_gt a b) /\
  Money_ge a b = negb (Money_lt a b) /\
  (Money_le a b = true -> Money_le b c = true -> Money_le a c = true) /\
  (Money_le a b = true -> Money_le b a = true -> Money_eq a b = true).
Proof.
  assert (Hle : forall x y, Money_le x y = negb (Money_gt x y)).
  { intros x y. unfold Money_le, Money_lt, Money_eq, Money_gt, ltb, eqb, gtb.
    destruct (cmp (amount x) (amount y)); reflexivity. }
  split; [|split; [|split; [|split; [|split]]]].
  - unfold Money_lt, Money_eq, Money_gt, ltb, eqb, gtb.
    destruct (cmp (amount a) (amount b)); auto.
  - unfold Money_lt, Money_gt, ltb, gtb. rewrite (cmp_antisym (amount a)).
    destruct (cmp (amount a) (amount b)); reflexivity.
  - apply Hle.
  - unfold Money_ge, Money_lt, Money_eq, Money_gt, ltb, eqb, gtb.
    destruct (cmp (amount a) (amount b)); reflexivity.
  - rewrite !Hle, !negb_true_iff. unfold Money_gt. apply not_gtb_le_trans.
  - rewrite !Hle, !negb_true_iff.
    unfold Money_gt, Money_eq, gtb, eqb. rewrite (cmp_antisym (amount a)).
    destruct (cmp (amount a) (amount b)); cbn; congruence.
Qed.

Lemma Money_order_total_witness :
  Money_le (mkMoney (mk false 15 (-1))) (mkMoney (mk false 2 0)) = true /\
  Money_le (mkMoney (mk false 2 0)) (mkMoney (mk false 200 (-2))) = true /\
  Money_le (mkMoney (mk false 15 (-1))) (mkMoney (mk false 200 (-2))) = true.
Proof.
  assert (H1 : Money_le (mkMoney (mk false 15 (-1))) (mkMoney (mk false 2 0))
               = true) by (vm_compute; reflexivity).
  assert (H2 : Money_le (mkMoney (mk false 2 0)) (mkMoney (mk false 200 (-2)))
               = true) by (vm_compute; reflexivity).
  split; [exact H1|split; [exact H2|]].
  destruct (Money_order_total (mkMoney (mk false 15 (-1)))
              (mkMoney (mk false 2 0)) (mkMoney (mk false 200 (-2))))
    as (_ & _ & _ & _ & Htrans & _).
  exact (Htrans H1 H2).
Defined.

(** X4: [==] on [Money] is an equivalence relation on the amounts, whatever
    their representation; a [Money] is truthy exactly when it differs from
    [Money(0)]; and no [Money] equals an object that is not a [Money]. *)
Theorem Money_eq_equivalence :
  (forall a : Money, Money_eq a a = true) /\
  (forall a b : Money, Money_eq a b = Money_eq b a) /\
  (forall a b c : Money,
      Money_eq a b = true -> Money_eq b c = true -> Money_eq a c = true) /\
  (forall a : Money, Money_bool a = Money_ne a Money_zero) /\
  (forall (a : Money) (v : value),
      (forall m, v <> VMoney m) -> Money___eq__ a v = false).
Proof.
  split; [|split; [|split; [|split]]].
  - intros a. apply eqb_refl.
  - intros a b. unfold Money_eq, eqb. rewrite (cmp_antisym (amount a)).
    destruct (cmp (amount a) (amount b)); reflexivity.
  - intros a b c. apply eqb_trans.
  - intros a. unfold Money_bool, Money_ne, Money_eq, Money_zero. cbn [amount].
    rewrite eqb_zero. reflexivity.
  - intros a v Hv. destruct v; try reflexivity. destruct (Hv m eq_refl).
Qed.

Lemma Money_eq_equivalence_witness :
  Money_eq (mkMoney (mk false 100 (-2))) (mkMoney (mk false 1 0)) = true /\
  Money_eq (mkMoney (mk false 1 0)) (mkMoney (mk false 10 (-1))) = true /\
  Money_eq (mkMoney (mk false 100 (-2))) (mkMoney (mk false 10 (-1))) = true.
Proof.
  assert (H1 : Money_eq (mkMoney (mk false 100 (-2))) (mkMoney (mk false 1 0))
               = true) by (vm_compute; reflexivity).
  assert (H2 : Money_eq (mkMoney (mk false 1 0)) (mkMoney (mk false 10 (-1)))
               = true) by (vm_compute; reflexivity).
  split; [exact H1|split; [exact H2|]].
  destruct Money_eq_equivalence as (_ & _ & Htrans & _).
  exact (Htrans _ _ _ H1 H2).
Defined.

(** * Further properties of MoneyWithVAT *)

(** X5: [==] on [MoneyWithVAT] is an equivalence relation that compares net
    and tax; equal values have equal gross amounts and are not ordered by
    [<] or [>]; a value is truthy exactly when it differs from
    [MoneyWithVAT(0, 0)]; [a < b] is [b > a].  The order looks at the gross
    amount only, so two values can be neither equal nor ordered. *)
Theorem MoneyWithVAT_eq_and_order :
  (forall a : MoneyWithVAT, MoneyWithVAT_eq a a = true) /\
  (forall a b : MoneyWithVAT, MoneyWithVAT_eq a b = MoneyWithVAT_eq b a) /\
  (forall a b c : MoneyWithVAT,
      MoneyWithVAT_eq a b = true -> MoneyWithVAT_eq b c = true ->
      MoneyWithVAT_eq a c = true) /\
  (forall a b : MoneyWithVAT,
      MoneyWithVAT_eq a b = true ->
      Money_eq (gross a) (gross b) = true /\
      MoneyWithVAT_lt a b = false /\ MoneyWithVAT_gt a b = false) /\
  (forall a : MoneyWithVAT,
      MoneyWithVAT_bool a = negb (MoneyWithVAT_eq a (MoneyWithVAT_of_ints 0 0))) /\
  (forall a b : MoneyWithVAT, MoneyWithVAT_lt a b = MoneyWithVAT_gt b a) /\
  (exists a b : MoneyWithVAT,
      MoneyWithVAT_eq a b = false /\
      MoneyWithVAT_lt a b = false /\ MoneyWithVAT_gt a b = false).
Proof.
  assert (Hsym : forall x y, eqb x y = eqb y x).
  { intros x y. unfold eqb. rewrite (cmp_antisym x).
    destruct (cmp x y); reflexivity. }
  split; [|split; [|split; [|split; [|split; [|split]]]]].
  - intros a. unfold MoneyWithVAT_eq, Money_eq. rewrite !eqb_refl. reflexivity.
  - intros a b. unfold MoneyWithVAT_eq, Money_eq.
    rewrite (Hsym (amount (net a))), (Hsym (amount (tax a))). reflexivity.
  - intros a b c. unfold MoneyWithVAT_eq, Money_eq.
    rewrite !andb_true_iff. intros [H1 H2] [H3 H4].
    split; eapply eqb_trans; eassumption.
  - intros a b. unfold MoneyWithVAT_eq, Money_eq.
    rewrite andb_true_iff. intros [Hn Ht].
    assert (Hg : eqb (amount (gross a)) (amount (gross b)) = true)
      by (apply add_congr; assumption).
    split; [exact Hg|].
    unfold MoneyWithVAT_lt, MoneyWithVAT_gt, Money_lt, Money_gt.
    unfold eqb in Hg. unfold ltb, gtb.
    destruct (cmp (amount (gross a)) (amount (gross b)));
      try discriminate Hg; auto.
  - intros a. unfold MoneyWithVAT_bool, MoneyWithVAT_eq, MoneyWithVAT_of_ints,
      Money_bool, Money_eq. cbn [net tax amount].
    rewrite !eqb_zero, negb_andb. reflexivity.
  - intros a b. unfold MoneyWithVAT_lt, MoneyWithVAT_gt, Money_lt, Money_gt,
      ltb, gtb. rewrite (cmp_antisym (amount (gross a))).
    destruct (cmp (amount (gross a)) (amount (gross b))); reflexivity.
  - exists (MoneyWithVAT_of_ints 1 1), (MoneyWithVAT_of_ints 2 0).
    vm_compute. auto.
Qed.

Lemma MoneyWithVAT_eq_and_order_witness :
  MoneyWithVAT_eq (MoneyWithVAT_of_ints 100 19)
                  (mkMoneyWithVAT (mkMoney (mk false 1000 (-1)))
                                  (mkMoney (mk false 1900 (-2)))) = true /\
  MoneyWithVAT_lt (MoneyWithVAT_of_ints 100 19)
                  (mkMoneyWithVAT (mkMoney (mk false 1000 (-1)))
                                  (mkMoney (mk false 1900 (-2)))) = false.
Proof.
  assert (H : MoneyWithVAT_eq (MoneyWithVAT_of_ints 100 19)
                (mkMoneyWithVAT (mkMoney (mk false 1000 (-1)))
                                (mkMoney (mk false 1900 (-2)))) = true)
    by (vm_compute; reflexivity).
  split; [exact H|].
  destruct MoneyWithVAT_eq_and_order as (_ & _ & _ & Hord & _).
  destruct (Hord _ _ H) as (_ & Hlt & _). exact Hlt.
Defined.

(** Rounding to the context keeps the sign and looks at the coefficient and
    the exponent only. *)
Lemma fix_in_sign (p : Z) (s s' : bool) (n : N) (e : Z) :
  fix_in p (mk s n e) =
  mk s (d_int (fix_in p (mk s' n e))) (d_exp (fix_in p (mk s' n e))).
Proof.
  unfold fix_in. cbn [d_int d_exp d_sign].
  destruct (Z.of_N n =? 0); [reflexivity|].
  destruct (e <? _); [|reflexivity].
  destruct (_ >? p); reflexivity.
Qed.

Lemma fix_in_idem (p : Z) (d : Decimal) :
  0 < p -> fix_in p (fix_in p d) = fix_in p d.
Proof. intros Hp. apply fix_in_small, fix_in_bound, Hp. Qed.

(** X6: [abs] of a [Money] is never negative, ignores the sign
    ([abs(-a)] is [abs(a)]) and is idempotent; for an amount that fits the
    28 digits of the context, [-(-a) == a] and [abs(a)] is [a] or [-a]. *)
Theorem Money_abs_neg (a : Money) :
  Money_lt (Money_abs a) Money_zero = false /\
  Money_abs (Money_neg a) = Money_abs a /\
  Money_abs (Money_abs a) = Money_abs a /\
  (Money_fits a ->
   Money_eq (Money_neg (Money_neg a)) a = true /\
   Money_eq (Money_abs a)
            (if Money_lt a Money_zero then Money_neg a else a) = true).
Proof.
  destruct a as [[s n e]]. unfold Money_fits. cbn [amount d_int].
  assert (Habs : forall d, d_sign (abs d) = false).
  { intros d. unfold abs, fix_. rewrite (fix_in_sign prec false false).
    reflexivity. }
  split; [|split; [|split]].
  - unfold Money_lt, Money_abs, Money_zero. cbn [amount].
    set (d := abs (mk s n e)).
    pose proof (Habs (mk s n e)) as Hs. fold d in Hs.
    destruct (ltb d (of_int 0)) eqn:Hlt; [|reflexivity].
    apply (ltb_at _ _ (Z.min (d_exp d) 0)) in Hlt; [|lia|cbn; lia].
    change (sval (of_int 0)) with 0 in Hlt.
    assert (0 <= sval d) by (unfold sval; rewrite Hs; lia).
    pose proof (pow10_pos (d_exp d - Z.min (d_exp d) 0) ltac:(lia)). nia.
  - unfold Money_abs, Money_neg. cbn [amount]. f_equal.
    unfold abs, neg, fix_, is_zero. cbn [d_int d_exp d_sign].
    destruct (N.eqb_spec n 0) as [->|Hn]; [reflexivity|].
    rewrite (fix_in_sign prec (negb s) false). cbn [d_int d_exp].
    change (mk false (d_int (fix_in prec (mk false n e)))
               (d_exp (fix_in prec (mk false n e))))
      with (mk (d_sign (mk false n e)) (d_int (fix_in prec (mk false n e)))
               (d_exp (fix_in prec (mk false n e)))).
    rewrite <- (fix_in_sign prec false false).
    apply fix_in_idem. reflexivity.
  - unfold Money_abs. cbn [amount]. f_equal.
    unfold abs, fix_. cbn [d_int d_exp].
    rewrite <- (fix_in_sign prec false false n e).
    apply fix_in_idem. reflexivity.
  - intros Hfit.
    destruct (neg_exact (mk s n e) Hfit) as (He1 & Hs1 & Hi1).
    assert (Hfit1 : Z.of_N (d_int (neg (mk s n e))) < 10 ^ prec)
      by (rewrite Hi1; exact Hfit).
    destruct (neg_exact _ Hfit1) as (He2 & Hs2 & Hi2).
    split.
    + unfold Money_eq, Money_neg. cbn [amount].
      apply (eqb_at _ _ e); [rewrite He2, He1; cbn; lia|cbn; lia|].
      rewrite Hs2, Hs1, He2, He1. cbn [d_exp]. lia.
    + assert (Ha : abs (mk s n e) = mk false n e).
      { unfold abs, fix_. cbn [d_int d_exp]. apply fix_in_small. exact Hfit. }
      unfold Money_eq, Money_lt, Money_abs, Money_neg, Money_zero.
      cbn [amount]. rewrite Ha.
      destruct (ltb (mk s n e) (of_int 0)) eqn:Hlt; cbn [amount].
      * apply (ltb_at _ _ (Z.min e 0)) in Hlt; [|cbn; lia|cbn; lia].
        change (sval (of_int 0)) with 0 in Hlt. cbn [d_exp] in Hlt.
        pose proof (pow10_pos (e - Z.min e 0) ltac:(lia)).
        apply (eqb_at _ _ e); [cbn; lia|rewrite He1; cbn; lia|].
        rewrite Hs1, He1. rewrite !sval_mk in *. cbn [d_exp].
        destruct s; [lia|nia].
      * apply (eqb_at _ _ e); [cbn; lia|cbn; lia|].
        rewrite !sval_mk. cbn [d_exp].
        destruct s; [|reflexivity].
        assert (Hge : ~ (sval (mk true n e) * 10 ^ (e - Z.min e 0)
                         < sval (of_int 0) * 10 ^ (0 - Z.min e 0))).
        { intros Hc. apply (ltb_at (mk true n e) (of_int 0) (Z.min e 0)) in Hc;
            [congruence|cbn; lia|cbn; lia]. }
        change (sval (of_int 0)) with 0 in Hge. rewrite sval_mk in Hge.
        pose proof (pow10_pos (e - Z.min e 0) ltac:(lia)).
        assert (Z.of_N n = 0) by nia. lia.
Qed.

Lemma Money_abs_neg_witness :
  Money_fits (mkMoney (mk true 1250 (-2))) /\
  Money_eq (Money_neg (Money_neg (mkMoney (mk true 1250 (-2)))))
           (mkMoney (mk true 1250 (-2))) = true.
Proof.
  assert (Hfit : Money_fits (mkMoney (mk true 1250 (-2))))
    by (vm_compute; reflexivity).
  split; [exact Hfit|].
  destruct (Money_abs_neg (mkMoney (mk true 1250 (-2)))) as (_ & _ & _ & H).
  destruct (H Hfit) as [Hnn _]. exact Hnn.
Defined.

(** * Sums *)

Lemma Money_plus_non_Money (m : Money) (v : value) :
  (forall o, v <> VMoney o) -> py_binop Add (VMoney m) v = Raise TypeError.
Proof.
  intros Hv. destruct v; try reflexivity. destruct (Hv m0 eq_refl).
Qed.

Lemma sum_loop_raise (l : list value) (e : exn) :
  fold_left (fun result_ elem => r <- result_ ;; py_binop Add r elem) l
    (Raise e) = Raise e.
Proof. induction l as [|v l IH]; [reflexivity|exact IH]. Qed.

Lemma sum_loop_Money (l : list (option Money)) (acc : Money) :
  fold_left (fun result_ elem => r <- result_ ;; py_binop Add r elem)
    (filter (fun elem => negb (is_VNone elem)) (map value_of_option_Money l))
    (Ok (VMoney acc))
  = Ok (VMoney (fold_left Money_add (present_Money l) acc)).
Proof.
  revert acc. induction l as [|[m|] l IH]; intros acc.
  - reflexivity.
  - cbn [map value_of_option_Money filter is_VNone negb fold_left
         present_Money flat_map app].
    change (r <- Ok (VMoney acc) ;; py_binop Add r (VMoney m))
      with (Ok (VMoney (Money_add acc m)) : result value).
    apply IH.
  - apply IH.
Qed.

Lemma sum__spec_aux :
  (forall l : list (option Money),
      sum_ (Sequence (map value_of_option_Money l))
      = Ok (VMoney (fold_left Money_add (present_Money l) Money_zero))) /\
  (forall l : list (option Money),
      sum_ (Iterator (map value_of_option_Money l))
      = Ok (VMoney (fold_left Money_add (present_Money l) Money_zero))).
Proof. split; intros l; unfold sum_; cbn [iterate fst]; apply sum_loop_Money. Qed.

(** X7: [sum_] adds the elements that are not [None] from left to right,
    starting from [Money(0)], for a list as for a one-shot iterator; with
    no [Money] among the elements the result is [Money(0)], never [None].
    The first element that is neither [None] nor a [Money] makes the call
    raise [TypeError]. *)
Theorem sum__spec :
  (forall l : list (option Money),
      sum_ (Sequence (map value_of_option_Money l))
      = Ok (VMoney (fold_left Money_add (present_Money l) Money_zero)) /\
      sum_ (Iterator (map value_of_option_Money l))
      = Ok (VMoney (fold_left Money_add (present_Money l) Money_zero))) /\
  (forall l : list (option Money),
      present_Money l = [] ->
      sum_ (Sequence (map value_of_option_Money l)) = Ok (VMoney Money_zero)) /\
  (forall (l : list (option Money)) (v : value) (rest : list value),
      v <> VNone -> (forall m, v <> VMoney m) ->
      sum_ (Sequence (map value_of_option_Money l ++ v :: rest))
      = Raise TypeError).
Proof.
  split; [|split].
  - intros l. unfold sum_. cbn [iterate fst].
    split; apply sum_loop_Money.
  - intros l Hl. unfold sum_. cbn [iterate fst].
    rewrite sum_loop_Money, Hl. reflexivity.
  - intros l v rest Hnone Hmoney. unfold sum_. cbn [iterate fst].
    rewrite filter_app, fold_left_app, sum_loop_Money.
    cbn [filter].
    replace (negb (is_VNone v)) with true
      by (destruct v; try reflexivity; congruence).
    cbn [fold_left bind].
    rewrite Money_plus_non_Money by assumption.
    apply sum_loop_raise.
Qed.

Lemma sum__spec_witness :
  sum_ (Sequence (map value_of_option_Money [None; None]))
  = Ok (VMoney Money_zero) /\
  sum_ (Sequence (map value_of_option_Money [Some (mkMoney (of_int 100))]
                  ++ VInt 5 :: [VMoney (mkMoney (of_int 200))]))
  = Raise TypeError.
Proof.
  destruct sum__spec as (_ & Hnone & Hbad).
  split.
  - apply (Hnone [None; None]). reflexivity.
  - apply (Hbad [Some (mkMoney (of_int 100))] (VInt 5)
             [VMoney (mkMoney (of_int 200))]).
    + discriminate.
    + intros m; discriminate.
Defined.

Lemma amount_fold_Money_add (l : list Money) (acc : Money) :
  amount (fold_left Money_add l acc)
  = fold_left add (map amount l) (amount acc).
Proof.
  revert acc. induction l as [|m l IH]; intros acc; [reflexivity|].
  cbn [fold_left map]. rewrite IH. reflexivity.
Qed.

(** X8: [fast_sum] agrees with [sum_]: for a list as for a one-shot
    iterator of operands, the net of the result equals the [sum_] of the
    nets of the operands that are not [None], and the tax the [sum_] of
    their taxes. *)
Theorem fast_sum_agrees_with_sum_
    (operands : iterable (option MoneyWithVAT)) :
  let l := present (fst (iterate operands)) in
  let r := fst (fast_sum operands) in
  exists n t : Money,
    sum_ (Sequence (map (fun m => VMoney (net m)) l)) = Ok (VMoney n) /\
    sum_ (Sequence (map (fun m => VMoney (tax m)) l)) = Ok (VMoney t) /\
    Money_eq (net r) n = true /\ Money_eq (tax r) t = true.
Proof.
  intros l r.
  assert (Hsum : forall f : MoneyWithVAT -> Money,
             sum_ (Sequence (map (fun m => VMoney (f m)) l))
             = Ok (VMoney (fold_left Money_add (map f l) Money_zero))).
  { intros f.
    replace (map (fun m => VMoney (f m)) l)
      with (map value_of_option_Money (map (fun m => Some (f m)) l))
      by (rewrite map_map; reflexivity).
    destruct sum__spec_aux as [H _].
    rewrite (H (map (fun m => Some (f m)) l)). do 3 f_equal.
    clear. induction l as [|m l IH]; [reflexivity|].
    cbn [map present_Money flat_map app]. f_equal. exact IH. }
  exists (fold_left Money_add (map net l) Money_zero),
         (fold_left Money_add (map tax l) Money_zero).
  split; [apply Hsum|split; [apply Hsum|]].
  destruct (fast_sum_sums operands) as [Hn Ht]. fold l r in Hn, Ht.
  unfold Money_eq. rewrite !amount_fold_Money_add, !map_map.
  split; assumption.
Qed.

(** X9: on a list, [fast_sum_with_none] is [None] exactly when every
    operand is [None] (so also for the empty list), and the [fast_sum] of
    the list otherwise, even when that sum is zero. *)
Theorem fast_sum_with_none_on_lists (l : list (option MoneyWithVAT)) :
  fast_sum_with_none (Sequence l)
  = (if forallb is_None l then None else Some (fst (fast_sum (Sequence l)))) /\
  (fast_sum_with_none (Sequence l) = None <-> forall o, In o l -> o = None).
Proof.
  destruct (fast_sum_with_none_sequence l) as (Hiff & Hsome & _).
  assert (Hall : forallb is_None l = true <-> forall o, In o l -> o = None).
  { rewrite forallb_forall. split; intros H o Ho; specialize (H o Ho).
    - destruct o; [discriminate|reflexivity].
    - rewrite H. reflexivity. }
  split.
  - destruct (forallb is_None l) eqn:Hf.
    + apply Hiff. reflexivity.
    + apply Hsome. intros Hn. apply Hiff in Hn. congruence.
  - rewrite Hiff. exact Hall.
Qed.

(** * Rounding *)

Lemma round_half_even_mono (a b p : Z) :
  0 <= a <= b -> 0 < p -> round_half_even a p <= round_half_even b p.
Proof.
  intros Hab Hp. unfold round_half_even.
  pose proof (Z.div_mod a p ltac:(lia)) as Ha.
  pose proof (Z.div_mod b p ltac:(lia)) as Hb.
  pose proof (Z.mod_pos_bound a p Hp) as Hra.
  pose proof (Z.mod_pos_bound b p Hp) as Hrb.
  pose proof (Z.div_le_mono a b p Hp ltac:(lia)) as Hq.
  set (qa := a / p) in *. set (ra := a mod p) in *.
  set (qb := b / p) in *. set (rb := b mod p) in *.
  clearbody qa ra qb rb.
  assert (Hcase : qa = qb \/ qa + 1 <= qb) by lia.
  destruct (Z.ltb_spec (2 * ra) p), (Z.ltb_spec (2 * rb) p),
    (Z.eqb_spec (2 * ra) p), (Z.eqb_spec (2 * rb) p),
    (Z.even qa) eqn:Ea, (Z.even qb) eqn:Eb;
    try lia;
    destruct Hcase as [->|Hlt]; try lia; try congruence; nia.
Qed.

Lemma round_half_even_nonneg (n p : Z) :
  0 <= n -> 0 < p -> 0 <= round_half_even n p.
Proof.
  intros Hn Hp. destruct (round_half_even_nearest n p Hn Hp) as [H _].
  exact H.
Qed.

(** The value of a rescaled decimal, read at any exponent [m] below both
    the old and the new one. *)
Lemma rescale_sval (d : Decimal) (e m : Z) :
  m <= d_exp d -> m <= e ->
  sval (rescale d e)
  = (if d_sign d then -1 else 1)
    * round_half_even (Z.of_N (d_int d) * 10 ^ (d_exp d - m)) (10 ^ (e - m)).
Proof.
  intros Hm He.
  pose proof (pow10_pos (e - m) ltac:(lia)) as Hp.
  pose proof (pow10_pos (d_exp d - m) ltac:(lia)) as Hc.
  unfold rescale. destruct (is_zero d) eqn:Hz.
  - unfold is_zero in Hz. apply N.eqb_eq in Hz. rewrite Hz, sval_mk.
    change (Z.of_N 0) with 0. rewrite Z.mul_0_l.
    rewrite (round_half_even_exact 0 _ Hp : round_half_even 0 _ = 0).
    destruct (d_sign d); reflexivity.
  - destruct (Z.leb_spec e (d_exp d)) as [Hle|Hlt]; rewrite sval_mk.
    + pose proof (pow10_pos (d_exp d - e) ltac:(lia)).
      rewrite Z2N.id by nia.
      replace (d_exp d - m) with ((d_exp d - e) + (e - m)) by lia.
      rewrite pow10_split, Z.mul_assoc, round_half_even_exact by lia.
      destruct (d_sign d); lia.
    + pose proof (pow10_pos (e - d_exp d) ltac:(lia)).
      rewrite Z2N.id by (apply round_half_even_nonneg; lia).
      replace (e - m) with ((e - d_exp d) + (d_exp d - m)) by lia.
      rewrite pow10_split, round_half_even_scale by lia.
      destruct (d_sign d); lia.
Qed.

(** Rescaling keeps the order of the values. *)
Lemma rescale_mono (x y : Decimal) (e : Z) :
  gtb x y = false -> gtb (rescale x e) (rescale y e) = false.
Proof.
  intros Hxy.
  set (m := Z.min e (Z.min (d_exp x) (d_exp y))).
  assert (Hx : m <= d_exp x) by (unfold m; lia).
  assert (Hy : m <= d_exp y) by (unfold m; lia).
  assert (He : m <= e) by (unfold m; lia).
  clearbody m.
  apply (gtb_false_at x y m Hx Hy) in Hxy.
  apply (gtb_false_at _ _ e); rewrite ?rescale_exp; try lia.
  rewrite Z.sub_diag, !Z.mul_1_r.
  rewrite (rescale_sval x e m Hx He), (rescale_sval y e m Hy He).
  pose proof (pow10_pos (e - m) ltac:(lia)) as Hp.
  pose proof (pow10_pos (d_exp x - m) ltac:(lia)) as Hcx.
  pose proof (pow10_pos (d_exp y - m) ltac:(lia)) as Hcy.
  unfold sval in Hxy.
  set (X := Z.of_N (d_int x) * 10 ^ (d_exp x - m)).
  set (Y := Z.of_N (d_int y) * 10 ^ (d_exp y - m)).
  assert (HX : 0 <= X) by (unfold X; nia).
  assert (HY : 0 <= Y) by (unfold Y; nia).
  pose proof (round_half_even_nonneg X _ HX Hp) as HrX.
  pose proof (round_half_even_nonneg Y _ HY Hp) as HrY.
  destruct (d_sign x), (d_sign y);
    rewrite ?Z.mul_opp_l in Hxy; fold X Y in Hxy.
  - pose proof (round_half_even_mono Y X _ ltac:(lia) Hp). lia.
  - lia.
  - assert (X = 0 /\ Y = 0) as [HX0 HY0] by lia.
    rewrite HX0, HY0.
    rewrite (round_half_even_exact 0 _ Hp : round_half_even 0 _ = 0). lia.
  - pose proof (round_half_even_mono X Y _ ltac:(lia) Hp). lia.
Qed.

(** Quantizing a decimal that already has the requested exponent and fits
    the precision returns it as it is. *)
Lemma quantize_in_same (p : Z) (d : Decimal) :
  0 < p -> Z.of_N (d_int d) < 10 ^ p -> quantize_in p d (d_exp d) = Ok d.
Proof.
  intros Hp Hfit. unfold quantize_in. destruct d as [s n e].
  cbn [d_int d_exp d_sign] in *. unfold is_zero. cbn [d_int].
  destruct (N.eqb_spec n 0) as [->|Hn]; [reflexivity|].
  assert (Hpos : 0 < Z.of_N n) by lia.
  pose proof (ndigits_le _ p Hpos Hfit) as Hnd.
  destruct (Z.gtb_spec (e + ndigits (Z.of_N n) - 1 - e + 1) p); [lia|].
  assert (Hr : rescale (mk s n e) e = mk s n e).
  { unfold rescale, is_zero. cbn [d_int d_exp d_sign].
    destruct (N.eqb_spec n 0); [contradiction|].
    rewrite Z.leb_refl, Z.sub_diag, Z.mul_1_r, N2Z.id. reflexivity. }
  rewrite Hr. cbn [d_int].
  destruct (Z.gtb_spec (ndigits (Z.of_N n)) p); [lia|].
  rewrite fix_in_small by exact Hfit. reflexivity.
Qed.

Lemma Money_round_rescale (x r : Money) (k : Z) :
  Money_round x k = Ok r -> amount r = rescale (amount x) (- k).
Proof.
  unfold Money_round, round.
  destruct (quantize_in prec (amount x) (- k)) as [q|y] eqn:Hq; [|discriminate].
  intros [= <-]. cbn [amount].
  apply quantize_in_ok in Hq; [|reflexivity]. tauto.
Qed.

Lemma Money_round_idem (x r : Money) (k : Z) :
  Money_round x k = Ok r -> Money_round r k = Ok r.
Proof.
  intros Hr. destruct (Money_round_ok x r k Hr) as [He Hfit].
  unfold Money_round, round. rewrite <- He.
  rewrite quantize_in_same by (reflexivity || exact Hfit).
  destruct r; reflexivity.
Qed.

Lemma Money_round_mono (x y rx ry : Money) (k : Z) :
  Money_round x k = Ok rx -> Money_round y k = Ok ry ->
  Money_gt x y = false -> Money_gt rx ry = false.
Proof.
  intros Hx Hy Hxy. unfold Money_gt in *.
  rewrite (Money_round_rescale x rx k Hx), (Money_round_rescale y ry k Hy).
  apply rescale_mono, Hxy.
Qed.

(** X10: [Money.round] is idempotent and keeps the order: rounding a
    rounded amount to the same number of places returns it unchanged, and
    when [x <= y] and both can be rounded, [round(x) <= round(y)].  The only
    failure is [InvalidOperation]. *)
Theorem Money_round_idempotent_monotone (x y rx ry : Money) (k : Z) :
  Money_round x k = Ok rx -> Money_round y k = Ok ry ->
  Money_round rx k = Ok rx /\
  (Money_le x y = true -> Money_le rx ry = true) /\
  (Money_lt rx ry = true -> Money_lt x y = true) /\
  (forall (z : Money) (e : exn), Money_round z k = Raise e -> e = InvalidOperation).
Proof.
  intros Hx Hy.
  assert (Hle : forall a b, Money_le a b = negb (Money_gt a b)).
  { intros a b. unfold Money_le, Money_lt, Money_eq, Money_gt, ltb, eqb, gtb.
    destruct (cmp (amount a) (amount b)); reflexivity. }
  assert (Hlt : forall a b, Money_lt a b = Money_gt b a).
  { intros a b. unfold Money_lt, Money_gt, ltb, gtb.
    rewrite (cmp_antisym (amount a)).
    destruct (cmp (amount a) (amount b)); reflexivity. }
  split; [eapply Money_round_idem, Hx|]. split; [|split].
  - rewrite !Hle, !negb_true_iff. apply (Money_round_mono x y rx ry k Hx Hy).
  - rewrite !Hlt. intros Hgt.
    destruct (Money_gt y x) eqn:Hyx; [reflexivity|].
    rewrite (Money_round_mono y x ry rx k Hy Hx Hyx) in Hgt. discriminate.
  - intros z e. apply Money_round_raise.
Qed.

Lemma Money_round_idempotent_monotone_witness :
  Money_round (mkMoney (mk false 12345 (-3))) 2
    = Ok (mkMoney (mk false 1234 (-2))) /\
  Money_round (mkMoney (mk false 1234 (-2))) 2
    = Ok (mkMoney (mk false 1234 (-2))).
Proof.
  assert (H : Money_round (mkMoney (mk false 12345 (-3))) 2
              = Ok (mkMoney (mk false 1234 (-2)))) by (vm_compute; reflexivity).
  split; [exact H|].
  exact (proj1 (Money_round_idempotent_monotone _ _ _ _ 2 H H)).
Defined.

Lemma Money_le_not_gt (a b : Money) : Money_le a b = negb (Money_gt a b).
Proof.
  unfold Money_le, Money_lt, Money_eq, Money_gt, ltb, eqb, gtb.
  destruct (cmp (amount a) (amount b)); reflexivity.
Qed.

Lemma Money_lt_gt (a b : Money) : Money_lt a b = Money_gt b a.
Proof.
  unfold Money_lt, Money_gt, ltb, gtb. rewrite (cmp_antisym (amount a)).
  destruct (cmp (amount a) (amount b)); reflexivity.
Qed.

(** X11: the comparisons up to cents.  When both gross amounts can be
    rounded to two places, exactly one of "a is lower than b", "a equals b"
    and "b is lower than a" holds up to cents; lower-or-equal is the
    negation of the reverse lower; equality up to cents is symmetric; and
    the comparisons agree with the exact order: [a <= b] implies lower or
    equal up to cents, and lower up to cents implies [a < b].  When a gross
    amount cannot be rounded, the comparisons raise [InvalidOperation]. *)
Theorem up_to_cents_comparisons (a b : MoneyWithVAT) (ra rb : Money) :
  Money_round (gross a) 2 = Ok ra -> Money_round (gross b) 2 = Ok rb ->
  exists eq lo hi : bool,
    is_equal_up_to_cents a b = Ok eq /\ is_equal_up_to_cents b a = Ok eq /\
    is_lower_up_to_cents a b = Ok lo /\ is_lower_up_to_cents b a = Ok hi /\
    (eq = true /\ lo = false /\ hi = false \/
     eq = false /\ lo = true /\ hi = false \/
     eq = false /\ lo = false /\ hi = true) /\
    is_lower_or_equal_up_to_cents a b = Ok (negb hi) /\
    (MoneyWithVAT_gt a b = false -> hi = false) /\
    (lo = true -> MoneyWithVAT_lt a b = true) /\
    is_equal_up_to_cents a a = Ok true /\
    (forall (c : MoneyWithVAT) (x : exn),
        Money_round (gross c) 2 = Raise x ->
        is_equal_up_to_cents c a = Raise InvalidOperation /\
        is_equal_up_to_cents a c = Raise InvalidOperation /\
        is_lower_up_to_cents c a = Raise InvalidOperation /\
        is_lower_or_equal_up_to_cents a c = Raise InvalidOperation).
Proof.
  intros Ha Hb.
  exists (Money_eq ra rb), (Money_lt ra rb), (Money_lt rb ra).
  unfold is_lower_or_equal_up_to_cents, is_equal_up_to_cents,
    is_lower_up_to_cents.
  rewrite Ha, Hb. cbn [bind].
  split; [reflexivity|]. split; [unfold Money_eq; rewrite eqb_sym; reflexivity|].
  split; [reflexivity|]. split; [reflexivity|].
  split; [|split; [|split; [|split; [|split]]]].
  - rewrite (Money_lt_gt rb ra).
    unfold Money_lt, Money_eq, Money_gt, ltb, eqb, gtb.
    destruct (cmp (amount ra) (amount rb)); auto.
  - rewrite (Money_lt_gt rb ra).
    unfold Money_lt, Money_eq, Money_gt, ltb, eqb, gtb.
    destruct (cmp (amount ra) (amount rb)); reflexivity.
  - unfold MoneyWithVAT_gt. intros Hgt. rewrite Money_lt_gt.
    exact (Money_round_mono _ _ _ _ 2 Ha Hb Hgt).
  - unfold MoneyWithVAT_lt. rewrite !Money_lt_gt. intros Hlo.
    destruct (Money_gt (gross b) (gross a)) eqn:Hgt; [reflexivity|].
    rewrite (Money_round_mono _ _ _ _ 2 Hb Ha Hgt) in Hlo. discriminate.
  - unfold Money_eq. rewrite eqb_refl. reflexivity.
  - intros c x Hc. pose proof (Money_round_raise _ _ _ Hc) as ->.
    rewrite Hc. cbn [bind]. auto.
Qed.

Lemma up_to_cents_comparisons_witness :
  Money_round (gross (MoneyWithVAT_of_ints 0 0)) 2 = Ok (mkMoney (mk false 0 (-2))) /\
  Money_round (gross (mkMoneyWithVAT (mkMoney (mk false 1 (-3))) Money_zero)) 2
    = Ok (mkMoney (mk false 0 (-2))) /\
  is_equal_up_to_cents (MoneyWithVAT_of_ints 0 0) (MoneyWithVAT_of_ints 0 0)
    = Ok true.
Proof.
  assert (H1 : Money_round (gross (MoneyWithVAT_of_ints 0 0)) 2
               = Ok (mkMoney (mk false 0 (-2)))) by (vm_compute; reflexivity).
  assert (H2 : Money_round
                 (gross (mkMoneyWithVAT (mkMoney (mk false 1 (-3))) Money_zero)) 2
               = Ok (mkMoney (mk false 0 (-2)))) by (vm_compute; reflexivity).
  split; [exact H1|split; [exact H2|]].
  destruct (up_to_cents_comparisons _ _ _ _ H1 H2)
    as (eq & lo & hi & _ & _ & _ & _ & _ & _ & _ & _ & Hrefl & _).
  exact Hrefl.
Defined.

(** X12: [rounded_to_cents] is idempotent.  When the rounded net and gross
    amounts of [m] together stay below 28 digits, rounding the rounded value
    again gives an equal value, the gross of the rounded value is already a
    whole number of cents, and the rounded value equals [m] up to cents. *)
Theorem rounded_to_cents_idempotent (m : MoneyWithVAT) (a b : Money) :
  Money_round (net m) 2 = Ok a ->
  Money_round (gross m) 2 = Ok b ->
  Z.of_N (d_int (amount a)) + Z.of_N (d_int (amount b)) < 10 ^ prec ->
  exists r r' : MoneyWithVAT,
    rounded_to_cents m = Ok r /\
    rounded_to_cents r = Ok r' /\ MoneyWithVAT_eq r' r = true /\
    Money_round (gross r) 2 = Ok (gross r) /\
    is_equal_up_to_cents r m = Ok true.
Proof.
  intros Ha Hb Hsum.
  destruct (Money_round_ok _ _ _ Ha) as [Hea Hfa].
  destruct (Money_round_ok _ _ _ Hb) as [Heb Hfb].
  set (r := mkMoneyWithVAT a (Money_sub b a)).
  assert (Hr : rounded_to_cents m = Ok r).
  { unfold rounded_to_cents. rewrite Ha, Hb. reflexivity. }
  assert (Hex : Money_sub_is_exact b a).
  { apply Money_sub_is_exact_small; [congruence|exact Hsum]. }
  destruct (neg_exact (amount a) Hfa) as (Hne & Hns & _).
  destruct (add_exact (amount b) (neg (amount a)) Hex) as [Hse Hss].
  assert (Hsub : aligned_sum (amount b) (neg (amount a))
                 = sval (amount b) - sval (amount a)).
  { unfold aligned_sum. rewrite Hne, Hns, Heb, Hea, Z.min_id, Z.sub_diag. lia. }
  rewrite Hne, Heb, Hea, Z.min_id in Hse. rewrite Hsub in Hss.
  assert (Hg : aligned_sum (amount a) (amount (Money_sub b a))
               = sval (amount b)).
  { unfold aligned_sum, Money_sub, Money_add, Money_neg. cbn [amount].
    rewrite Hse, Hss, Hea, Z.min_id, Z.sub_diag. lia. }
  assert (Hgfit : Z.abs (aligned_sum (amount a) (amount (Money_sub b a)))
                  < 10 ^ prec) by (rewrite Hg, abs_sval; exact Hfb).
  destruct (add_exact _ _ Hgfit) as [Hge Hgs].
  assert (Hge' : d_exp (amount (gross r)) = - (2)).
  { unfold gross, r, Money_add. cbn [net tax amount]. rewrite Hge.
    unfold Money_sub, Money_add, Money_neg. cbn [amount].
    rewrite Hse, Hea, Z.min_id. reflexivity. }
  assert (Hgs' : sval (amount (gross r)) = sval (amount b)).
  { unfold gross, r, Money_add. cbn [net tax amount]. rewrite Hgs. exact Hg. }
  assert (Hgr : Money_round (gross r) 2 = Ok (gross r)).
  { unfold Money_round, round. rewrite <- Hge'.
    rewrite quantize_in_same by (reflexivity || apply Money_add_bound).
    destruct (gross r); reflexivity. }
  assert (Hgb : Money_eq (gross r) b = true).
  { unfold Money_eq. apply (eqb_at _ _ (- (2))); [lia|lia|].
    rewrite Hgs', Hge', Heb. reflexivity. }
  exists r, (mkMoneyWithVAT a (Money_sub (gross r) a)).
  split; [exact Hr|]. split; [|split; [|split]].
  - unfold rounded_to_cents.
    change (net r) with a. rewrite (Money_round_idem _ _ _ Ha), Hgr.
    reflexivity.
  - unfold MoneyWithVAT_eq, r. cbn [net tax].
    unfold Money_eq at 1. rewrite eqb_refl. cbn [andb].
    unfold Money_eq, Money_sub, Money_add. cbn [amount].
    apply add_congr_l. exact Hgb.
  - exact Hgr.
  - unfold is_equal_up_to_cents. rewrite Hgr, Hb. cbn [bind].
    rewrite Hgb. reflexivity.
Qed.

Lemma rounded_to_cents_idempotent_witness :
  Money_round (net money_4444_2222) 2 = Ok (mkMoney (mk false 444 (-2))) /\
  exists r r' : MoneyWithVAT,
    rounded_to_cents money_4444_2222 = Ok r /\
    rounded_to_cents r = Ok r' /\ MoneyWithVAT_eq r' r = true /\
    Money_round (gross r) 2 = Ok (gross r) /\
    is_equal_up_to_cents r money_4444_2222 = Ok true.
Proof.
  assert (Ha : Money_round (net money_4444_2222) 2
               = Ok (mkMoney (mk false 444 (-2)))) by (vm_compute; reflexivity).
  split; [exact Ha|].
  apply (rounded_to_cents_idempotent money_4444_2222
           (mkMoney (mk false 444 (-2))) (mkMoney (mk false 667 (-2)))).
  - exact Ha.
  - vm_compute; reflexivity.
  - vm_compute; reflexivity.
Defined.

(** X13: [rounded_to_money_field_precision] is idempotent: its result has
    both amounts at the exponent -12 and is returned unchanged when rounded
    again; a value whose amounts have at most 12 decimal places is left
    numerically unchanged.  The only failure is [InvalidOperation]. *)
Theorem rounded_to_money_field_precision_idempotent (m r : MoneyWithVAT) :
  rounded_to_money_field_precision m = Ok r ->
  rounded_to_money_field_precision r = Ok r /\
  d_exp (amount (net r)) = -12 /\ d_exp (amount (tax r)) = -12 /\
  (-12 <= d_exp (amount (net m)) -> -12 <= d_exp (amount (tax m)) ->
   MoneyWithVAT_eq r m = true) /\
  (forall (c : MoneyWithVAT) (x : exn),
      rounded_to_money_field_precision c = Raise x -> x = InvalidOperation).
Proof.
  unfold rounded_to_money_field_precision. cbv zeta.
  change (decimal_places DECIMAL_MONEY_ARGS) with 12.
  destruct (Money_round (net m) 12) as [n|x] eqn:Hn; cbn [bind]; [|discriminate].
  destruct (Money_round (tax m) 12) as [t|x] eqn:Ht; cbn [bind]; [|discriminate].
  intros [= <-]. cbn [net tax].
  rewrite (Money_round_idem _ _ _ Hn), (Money_round_idem _ _ _ Ht). cbn [bind].
  split; [reflexivity|].
  split; [apply (Money_round_ok _ _ _ Hn)|].
  split; [apply (Money_round_ok _ _ _ Ht)|].
  split.
  - intros Hen Het. unfold MoneyWithVAT_eq, Money_eq. cbn [net tax].
    rewrite (Money_round_rescale _ _ _ Hn), (Money_round_rescale _ _ _ Ht).
    rewrite !rescale_exact by lia. reflexivity.
  - intros c x.
    destruct (Money_round (net c) 12) as [n'|y] eqn:Hn'; cbn [bind].
    + destruct (Money_round (tax c) 12) as [t'|y] eqn:Ht'; cbn [bind];
        [discriminate|].
      intros [= <-]. eapply Money_round_raise, Ht'.
    + intros [= <-]. eapply Money_round_raise, Hn'.
Qed.

Lemma rounded_to_money_field_precision_idempotent_witness :
  rounded_to_money_field_precision money_4444_2222
  = Ok (mkMoneyWithVAT (mkMoney (mk false 4444000000000 (-12)))
                       (mkMoney (mk false 2222000000000 (-12)))) /\
  rounded_to_money_field_precision
    (mkMoneyWithVAT (mkMoney (mk false 4444000000000 (-12)))
                    (mkMoney (mk false 2222000000000 (-12))))
  = Ok (mkMoneyWithVAT (mkMoney (mk false 4444000000000 (-12)))
                       (mkMoney (mk false 2222000000000 (-12)))).
Proof.
  assert (H : rounded_to_money_field_precision money_4444_2222
              = Ok (mkMoneyWithVAT (mkMoney (mk false 4444000000000 (-12)))
                                   (mkMoney (mk false 2222000000000 (-12)))))
    by (vm_compute; reflexivity).
  split; [exact H|].
  exact (proj1 (rounded_to_money_field_precision_idempotent _ _ H)).
Defined.

(** * The exponent limits of the context *)

(** Rounding to the context never turns a non-zero coefficient into
    zero. *)
Lemma fix_in_nonzero (p : Z) (d : Decimal) :
  0 < p -> is_zero d = false -> is_zero (fix_in p d) = false.
Proof.
  intros Hp Hnz. unfold is_zero in *. apply N.eqb_neq in Hnz.
  apply N.eqb_neq. unfold fix_in.
  destruct (Z.eqb_spec (Z.of_N (d_int d)) 0) as [Hz|_]; [lia|].
  assert (Hpos : 0 < Z.of_N (d_int d)) by lia.
  destruct (ndigits_spec _ Hpos) as (H1 & Hlo & Hhi).
  set (n := Z.of_N (d_int d)) in *. set (nd := ndigits n) in *.
  destruct (Z.ltb_spec (d_exp d) (nd + d_exp d - p)) as [Hlt|Hge];
    [|exact Hnz].
  replace (nd + d_exp d - p - d_exp d) with (nd - p) by lia.
  assert (Hk : 0 < nd - p) by lia.
  pose proof (pow10_pos (nd - p) ltac:(lia)) as Hpk.
  pose proof (pow10_pos (p - 1) ltac:(lia)) as Hpp.
  assert (Hq : 10 ^ (p - 1) <= n / 10 ^ (nd - p)).
  { apply Z.div_le_lower_bound; [lia|].
    rewrite <- pow10_split by lia.
    replace (nd - p + (p - 1)) with (nd - 1) by lia. exact Hlo. }
  assert (Hr : n / 10 ^ (nd - p) <= round_half_even n (10 ^ (nd - p))).
  { unfold round_half_even.
    destruct (_ <? _); [lia|]. destruct (_ =? _); [|lia].
    destruct (Z.even _); lia. }
  set (coeff := round_half_even n (10 ^ (nd - p))) in *.
  destruct (Z.gtb_spec (ndigits coeff) p) as [Hbig|Hsmall]; cbn [d_int].
  - assert (Hc : 10 ^ p <= coeff).
    { destruct (Z.le_gt_cases (10 ^ p) coeff) as [|Hc]; [assumption|].
      pose proof (ndigits_le coeff p ltac:(lia) Hc). lia. }
    assert (10 ^ (p - 1) <= coeff / 10).
    { apply Z.div_le_lower_bound; [lia|].
      replace p with (1 + (p - 1)) in Hc at 1 by lia.
      rewrite pow10_split in Hc by lia. exact Hc. }
    lia.
  - lia.
Qed.

Lemma mul_is_zero (a d : Decimal) :
  is_zero (mul a d) = is_zero a || is_zero d.
Proof.
  unfold mul, fix_.
  destruct (is_zero a) eqn:Ha; [|destruct (is_zero d) eqn:Hd].
  - unfold is_zero in Ha. apply N.eqb_eq in Ha. rewrite Ha, N.mul_0_l.
    rewrite fix_in_zero. reflexivity.
  - unfold is_zero in Hd. apply N.eqb_eq in Hd. rewrite Hd, N.mul_0_r.
    rewrite fix_in_zero. reflexivity.
  - apply fix_in_nonzero; [reflexivity|].
    unfold is_zero in *. cbn [d_int].
    apply N.eqb_neq in Ha, Hd. apply N.eqb_neq. lia.
Qed.

Lemma ndigits_between (n a b : Z) :
  0 <= a -> 10 ^ a <= n < 10 ^ b -> a < ndigits n <= b.
Proof.
  intros Ha [Hlo Hhi]. pose proof (pow10_pos a Ha).
  split; [apply ndigits_gt; assumption|apply ndigits_le; lia].
Qed.

Lemma ndigits_pos (n : Z) : 1 <= ndigits n.
Proof.
  destruct (Z.lt_trichotomy n 0) as [Hn|[->|Hn]].
  - destruct n; try lia. reflexivity.
  - reflexivity.
  - apply ndigits_spec. exact Hn.
Qed.

Lemma ndigits_mul (a b : Z) :
  0 < a -> 0 < b ->
  ndigits a + ndigits b - 1 <= ndigits (a * b) <= ndigits a + ndigits b.
Proof.
  intros Ha Hb.
  destruct (ndigits_spec a Ha) as (Ha1 & Halo & Hahi).
  destruct (ndigits_spec b Hb) as (Hb1 & Hblo & Hbhi).
  pose proof (pow10_pos (ndigits a - 1) ltac:(lia)).
  pose proof (pow10_pos (ndigits b - 1) ltac:(lia)).
  assert (Hlo : 10 ^ (ndigits a + ndigits b - 2) <= a * b).
  { replace (ndigits a + ndigits b - 2)
      with ((ndigits a - 1) + (ndigits b - 1)) by lia.
    rewrite pow10_split by lia. nia. }
  assert (Hhi : a * b < 10 ^ (ndigits a + ndigits b)).
  { rewrite pow10_split by lia. nia. }
  assert (H0' : 0 <= ndigits a + ndigits b - 2) by lia.
  pose proof (ndigits_between (a * b) _ _ H0' (conj Hlo Hhi)). lia.
Qed.

(** Rounding to the context moves the first digit up by at most one
    place. *)
Lemma fix_in_adjusted (p : Z) (d : Decimal) :
  0 < p -> is_zero d = false ->
  adjusted d <= adjusted (fix_in p d) <= adjusted d + 1.
Proof.
  intros Hp Hnz. unfold is_zero in Hnz. apply N.eqb_neq in Hnz.
  unfold adjusted, fix_in.
  destruct (Z.eqb_spec (Z.of_N (d_int d)) 0) as [Hz|_]; [lia|].
  assert (Hpos : 0 < Z.of_N (d_int d)) by lia.
  destruct (ndigits_spec _ Hpos) as (H1 & Hlo & Hhi).
  set (n := Z.of_N (d_int d)) in *. set (nd := ndigits n) in *.
  destruct (Z.ltb_spec (d_exp d) (nd + d_exp d - p)) as [Hlt|Hge];
    [|fold n; fold nd; lia].
  replace (nd + d_exp d - p - d_exp d) with (nd - p) by lia.
  assert (Hk : 0 < nd - p) by lia.
  pose proof (pow10_pos (nd - p) ltac:(lia)) as Hpk.
  pose proof (pow10_pos (p - 1) ltac:(lia)) as Hpp.
  assert (Hq : 10 ^ (p - 1) <= n / 10 ^ (nd - p) < 10 ^ p).
  { split.
    - apply Z.div_le_lower_bound; [lia|].
      rewrite <- pow10_split by lia.
      replace (nd - p + (p - 1)) with (nd - 1) by lia. exact Hlo.
    - apply Z.div_lt_upper_bound; [lia|].
      rewrite <- pow10_split by lia.
      replace (nd - p + p) with nd by lia. exact Hhi. }
  assert (Hr : n / 10 ^ (nd - p) <= round_half_even n (10 ^ (nd - p))
               <= n / 10 ^ (nd - p) + 1).
  { unfold round_half_even.
    destruct (_ <? _); [lia|]. destruct (_ =? _); [|lia].
    destruct (Z.even _); lia. }
  set (coeff := round_half_even n (10 ^ (nd - p))) in *.
  destruct (Z.gtb_spec (ndigits coeff) p) as [Hbig|Hsmall];
    cbn [d_int d_exp].
  - assert (Hc : coeff = 10 ^ p).
    { destruct (Z.le_gt_cases (10 ^ p) coeff) as [|Hc]; [lia|].
      pose proof (ndigits_le coeff p ltac:(lia) Hc). lia. }
    rewrite Hc.
    replace (10 ^ p) with (10 ^ (p - 1) * 10)
      by (rewrite <- (Z.pow_1_r 10) at 2; rewrite <- pow10_split by lia;
          f_equal; lia).
    rewrite Z.div_mul by lia. rewrite Z2N.id by lia.
    assert (ndigits (10 ^ (p - 1)) = p).
    { apply ndigits_unique; [lia| |lia].
      split; [lia|]. apply pow10_lt. lia. }
    lia.
  - rewrite Z2N.id by lia.
    pose proof (ndigits_gt coeff (p - 1) ltac:(lia) ltac:(lia)). lia.
Qed.

Lemma within_limits_bounds (d : Decimal) :
  within_limits d = true ->
  -300000 <= d_exp d /\ d_exp d <= adjusted d /\ adjusted d <= 300000.
Proof.
  unfold within_limits. rewrite andb_true_iff, Z.leb_le, Z.leb_le.
  intros [H1 H2]. pose proof (ndigits_pos (Z.of_N (d_int d))).
  unfold adjusted in *. lia.
Qed.

(** A decimal with at most [prec] digits: its exponent is at most 27 places
    below its first digit. *)
Lemma exp_of_adjusted (d : Decimal) :
  Z.of_N (d_int d) < 10 ^ prec ->
  adjusted d - 27 <= d_exp d <= adjusted d.
Proof.
  intros Hfit. unfold adjusted.
  pose proof (ndigits_pos (Z.of_N (d_int d))).
  destruct (Z.eq_dec (Z.of_N (d_int d)) 0) as [->|Hnz].
  - change (ndigits 0) with 1. lia.
  - pose proof (ndigits_le (Z.of_N (d_int d)) prec ltac:(lia) Hfit).
    unfold prec in *. lia.
Qed.

Lemma in_context_of_bounds (d : Decimal) (lo hi : Z) :
  Etiny <= lo -> hi <= Emax -> Emin <= lo ->
  lo <= d_exp d -> lo <= adjusted d <= hi -> in_context d = true.
Proof.
  intros H1 H2 H3 He Ha. unfold in_context.
  pose proof (ndigits_pos (Z.of_N (d_int d))).
  assert (d_exp d <= adjusted d) by (unfold adjusted; lia).
  destruct (is_zero d); apply andb_true_iff; rewrite !Z.leb_le; lia.
Qed.

(** The first digit of a product. *)
Lemma mul_adjusted (a b : Decimal) :
  is_zero a = false -> is_zero b = false ->
  adjusted a + adjusted b <= adjusted (mul a b) <= adjusted a + adjusted b + 2.
Proof.
  intros Ha Hb. unfold mul, fix_.
  set (x := mk (xorb (d_sign a) (d_sign b)) (d_int a * d_int b)
               (d_exp a + d_exp b)).
  assert (Hpa : 0 < Z.of_N (d_int a))
    by (unfold is_zero in Ha; apply N.eqb_neq in Ha; lia).
  assert (Hpb : 0 < Z.of_N (d_int b))
    by (unfold is_zero in Hb; apply N.eqb_neq in Hb; lia).
  assert (Hx : is_zero x = false).
  { unfold is_zero, x. cbn [d_int]. apply N.eqb_neq. lia. }
  pose proof (fix_in_adjusted prec x ltac:(reflexivity) Hx) as Hfix.
  assert (Hax : adjusted a + adjusted b <= adjusted x
                <= adjusted a + adjusted b + 1).
  { unfold adjusted, x. cbn [d_int d_exp]. rewrite N2Z.inj_mul.
    pose proof (ndigits_mul _ _ Hpa Hpb). lia. }
  lia.
Qed.

Lemma mul_exp_zero (a b : Decimal) :
  is_zero (mul a b) = true -> d_exp (mul a b) = d_exp a + d_exp b.
Proof.
  intros Hz. unfold mul, fix_ in *.
  set (x := mk (xorb (d_sign a) (d_sign b)) (d_int a * d_int b)
               (d_exp a + d_exp b)) in *.
  destruct (is_zero x) eqn:Hx.
  - unfold is_zero in Hx. apply N.eqb_eq in Hx.
    rewrite (fix_in_small prec x) by (rewrite Hx; reflexivity).
    reflexivity.
  - rewrite (fix_in_nonzero prec x ltac:(reflexivity) Hx) in Hz.
    discriminate.
Qed.

(** A product of two operands whose exponents and first digits lie within
    [lo, hi] stays within twice that range. *)
Lemma mul_in_context (a b : Decimal) (B : Z) :
  0 <= B -> 2 * B + 2 <= Emax ->
  -B <= d_exp a -> adjusted a <= B ->
  -B <= d_exp b -> adjusted b <= B ->
  in_context (mul a b) = true /\
  - (2 * B) - 27 <= d_exp (mul a b) /\ adjusted (mul a b) <= 2 * B + 2.
Proof.
  intros HB Hmax Hea Haa Heb Hab.
  pose proof (ndigits_pos (Z.of_N (d_int a))) as Hna.
  pose proof (ndigits_pos (Z.of_N (d_int b))) as Hnb.
  assert (Haa' : d_exp a <= adjusted a) by (unfold adjusted; lia).
  assert (Hab' : d_exp b <= adjusted b) by (unfold adjusted; lia).
  assert (Hfit : Z.of_N (d_int (mul a b)) < 10 ^ prec)
    by (apply fix_in_bound; reflexivity).
  pose proof (exp_of_adjusted _ Hfit) as Hexp.
  unfold Etiny in *; unfold Emax, Emin, prec in *.
  destruct (is_zero (mul a b)) eqn:Hz.
  - pose proof (mul_exp_zero a b Hz) as He.
    assert (Hadj : adjusted (mul a b) = d_exp (mul a b)).
    { unfold adjusted. unfold is_zero in Hz. apply N.eqb_eq in Hz.
      rewrite Hz. change (ndigits (Z.of_N 0)) with 1. lia. }
    split; [|lia].
    unfold in_context. rewrite Hz. apply andb_true_iff.
    rewrite !Z.leb_le. unfold Etiny; unfold Emax, Emin, prec. lia.
  - assert (Hza : is_zero a = false /\ is_zero b = false).
    { rewrite mul_is_zero in Hz. apply orb_false_iff in Hz. exact Hz. }
    destruct Hza as [Hza Hzb].
    pose proof (mul_adjusted a b Hza Hzb) as Hm.
    split; [|lia].
    unfold in_context. rewrite Hz. apply andb_true_iff.
    rewrite !Z.leb_le. unfold Emax, Emin. lia.
Qed.

(** Removing trailing zeros keeps the value. *)
Lemma strip_zeros_spec (fuel : nat) :
  forall c e, 0 < c ->
  exists j, 0 <= j /\ 0 < fst (strip_zeros fuel c e) /\
            c = fst (strip_zeros fuel c e) * 10 ^ j /\
            snd (strip_zeros fuel c e) = e + j.
Proof.
  induction fuel as [|f IH]; intros c e Hc; cbn [strip_zeros].
  - exists 0. cbn [fst snd]. repeat split; lia.
  - destruct (Z.eqb_spec (c mod 10) 0) as [Hm|Hm].
    + assert (Hc10 : c = 10 * (c / 10))
        by (pose proof (Z.div_mod c 10 ltac:(lia)); lia).
      assert (Hq : 0 < c / 10) by lia.
      destruct (IH (c / 10) (e + 1) Hq) as (j & Hj & Hpos & Hval & Hexp).
      exists (j + 1). split; [lia|]. split; [exact Hpos|]. split; [|lia].
      rewrite pow10_split by lia. change (10 ^ 1) with 10.
      set (c' := fst (strip_zeros f (c / 10) (e + 1))) in *.
      set (pj := 10 ^ j) in *. lia.
    + exists 0. cbn [fst snd]. repeat split; lia.
Qed.

(** The first digit of a quotient. *)
Lemma div_adjusted (a b q : Decimal) :
  is_zero a = false -> is_zero b = false -> div a b = Ok q ->
  is_zero q = false /\
  adjusted a - adjusted b - 1 <= adjusted q <= adjusted a - adjusted b + 1.
Proof.
  intros Ha Hb. unfold div. rewrite Hb, Ha.
  assert (Hpa : 0 < Z.of_N (d_int a))
    by (unfold is_zero in Ha; apply N.eqb_neq in Ha; lia).
  assert (Hpb : 0 < Z.of_N (d_int b))
    by (unfold is_zero in Hb; apply N.eqb_neq in Hb; lia).
  destruct (ndigits_spec _ Hpa) as (Hd1 & Hlo1 & Hhi1).
  destruct (ndigits_spec _ Hpb) as (Hd2 & Hlo2 & Hhi2).
  unfold adjusted at 1 2.
  set (n1 := Z.of_N (d_int a)) in *. set (n2 := Z.of_N (d_int b)) in *.
  set (d1 := ndigits n1) in *. set (d2 := ndigits n2) in *.
  change prec with 28.
  set (shift := d2 - d1 + 28 + 1).
  set (exp0 := d_exp a - d_exp b - shift).
  set (sign := xorb (d_sign a) (d_sign b)).
  assert (Hpair : exists c r,
             (if 0 <=? shift
              then (n1 * 10 ^ shift / n2, (n1 * 10 ^ shift) mod n2)
              else (n1 / (n2 * 10 ^ (- shift)), n1 mod (n2 * 10 ^ (- shift))))
             = (c, r) /\ 10 ^ 28 <= c < 10 ^ 30).
  { pose proof (pow10_pos (d1 - 1) ltac:(lia)) as P1.
    pose proof (pow10_pos (d2 - 1) ltac:(lia)) as P2.
    assert (E1 : 10 ^ d1 = 10 ^ (d1 - 1) * 10)
      by (rewrite <- (Z.pow_1_r 10) at 3; rewrite <- pow10_split by lia;
          f_equal; lia).
    assert (E2 : 10 ^ d2 = 10 ^ (d2 - 1) * 10)
      by (rewrite <- (Z.pow_1_r 10) at 3; rewrite <- pow10_split by lia;
          f_equal; lia).
    destruct (Z.leb_spec 0 shift) as [Hs|Hs]; eexists; eexists;
      (split; [reflexivity|]).
    - pose proof (pow10_pos shift Hs) as Ps.
      assert (E : 10 ^ (d1 - 1) * 10 ^ shift = 10 ^ (d2 - 1) * 10 * 10 ^ 28).
      { rewrite <- E2, <- !pow10_split by lia. f_equal. unfold shift. lia. }
      split.
      + apply Z.div_le_lower_bound; [lia|]. nia.
      + apply Z.div_lt_upper_bound; [lia|].
        change (10 ^ 30) with (10 ^ 28 * 100). nia.
    - pose proof (pow10_pos (- shift) ltac:(lia)) as Ps.
      assert (E : 10 ^ (d1 - 1) = 10 ^ (d2 - 1) * 10 * 10 ^ (- shift) * 10 ^ 28).
      { rewrite <- E2, <- !pow10_split by lia. f_equal. unfold shift. lia. }
      split.
      + apply Z.div_le_lower_bound; [nia|]. nia.
      + apply Z.div_lt_upper_bound; [nia|].
        change (10 ^ 30) with (10 ^ 28 * 100). nia. }
  destruct Hpair as (c & r & -> & Hc).
  assert (Hcpos : 0 < c).
  { change (10 ^ 28) with 10000000000000000000000000000 in Hc. lia. }
  assert (Hfinal : forall c' e',
             0 < c' -> e' + ndigits c' = exp0 + ndigits c ->
             is_zero (fix_ (mk sign (Z.to_N c') e')) = false /\
             d_exp a + d1 - 1 - (d_exp b + d2 - 1) - 1
             <= adjusted (fix_ (mk sign (Z.to_N c') e'))
             <= d_exp a + d1 - 1 - (d_exp b + d2 - 1) + 1).
  { intros c' e' Hc' He'.
    assert (Hx : is_zero (mk sign (Z.to_N c') e') = false).
    { unfold is_zero. cbn [d_int]. apply N.eqb_neq. lia. }
    split; [apply fix_in_nonzero; [reflexivity|exact Hx]|].
    pose proof (fix_in_adjusted prec _ ltac:(reflexivity) Hx) as Hfix.
    unfold fix_.
    assert (Hadj : adjusted (mk sign (Z.to_N c') e') = e' + ndigits c' - 1).
    { unfold adjusted. cbn [d_int d_exp]. rewrite Z2N.id by lia. reflexivity. }
    rewrite Hadj in Hfix.
    pose proof (ndigits_between c 28 30 ltac:(lia) Hc) as Hnd.
    unfold exp0, shift in He'. lia. }
  cbv beta iota.
  destruct (Z.eqb_spec r 0) as [Hr|Hr].
  - destruct (strip_zeros_spec (Z.to_nat (d_exp a - d_exp b - exp0)) c exp0 Hcpos)
      as (j & Hj & Hpos & Hval & Hexp).
    destruct (strip_zeros _ c exp0) as [c' e'].
    cbn [fst snd] in *. intros [= <-].
    apply Hfinal; [exact Hpos|].
    rewrite Hval, ndigits_scale by lia. lia.
  - intros [= <-]. apply Hfinal; [destruct (_ =? 0); lia|].
    destruct (Z.eqb_spec (c mod 5) 0) as [Hm|Hm]; [|reflexivity].
    f_equal.
    pose proof (ndigits_between c 28 30 ltac:(lia) Hc) as Hnd.
    assert (Hc1 : c + 1 < 10 ^ 30).
    { destruct (Z.eq_dec (c + 1) (10 ^ 30)) as [He|He]; [|lia].
      assert (Hc' : c = 10 ^ 30 - 1) by lia.
      rewrite Hc' in Hm. vm_compute in Hm. discriminate. }
    destruct (Z.eq_dec (ndigits c) 29) as [H29|H29].
    + rewrite H29. apply ndigits_unique; [lia| |lia].
      change (29 - 1) with 28. split; [lia|].
      destruct (Z.eq_dec (c + 1) (10 ^ 29)) as [He|He].
      * assert (Hc' : c = 10 ^ 29 - 1) by lia.
        rewrite Hc' in Hm. vm_compute in Hm. discriminate.
      * assert (c < 10 ^ 29).
        { destruct (Z.lt_ge_cases c (10 ^ 29)) as [|Hge]; [assumption|].
          pose proof (ndigits_gt c 29 ltac:(lia) Hge). lia. }
        lia.
    + assert (H30 : ndigits c = 30) by lia. rewrite H30.
      apply ndigits_unique; [lia| |lia].
      change (30 - 1) with 29. split; [|exact Hc1].
      destruct (Z.lt_ge_cases c (10 ^ 29)) as [Hlt|Hge]; [|lia].
      pose proof (ndigits_le c 29 Hcpos Hlt). lia.
Qed.

Lemma div_exp_zero (a b q : Decimal) :
  is_zero a = true -> is_zero b = false -> div a b = Ok q ->
  is_zero q = true /\ d_exp q = d_exp a - d_exp b.
Proof.
  intros Ha Hb. unfold div. rewrite Hb, Ha. intros [= <-].
  unfold fix_. rewrite fix_in_zero. split; reflexivity.
Qed.

(** A quotient of two operands within the limits is a result of the
    context, and its exponent and first digit stay within 1E-600028 and
    1E+600001. *)
Lemma div_in_context (a b q : Decimal) :
  within_limits a = true -> within_limits b = true ->
  is_zero b = false -> div a b = Ok q ->
  in_context q = true /\ -600028 <= d_exp q /\ adjusted q <= 600001.
Proof.
  intros Hwa Hwb Hb Hq.
  destruct (within_limits_bounds a Hwa) as (Hea & Hea' & Haa).
  destruct (within_limits_bounds b Hwb) as (Heb & Heb' & Hab).
  assert (Hfit : Z.of_N (d_int q) < 10 ^ prec).
  { unfold div in Hq. rewrite Hb in Hq.
    destruct (is_zero a); [injection Hq as <-; apply fix_in_bound; reflexivity|].
    destruct (if 0 <=? _ then _ else _) as [c r].
    destruct (if r =? 0 then _ else _) as [c' e'].
    injection Hq as <-. apply fix_in_bound. reflexivity. }
  pose proof (exp_of_adjusted _ Hfit) as Hexp.
  destruct (is_zero a) eqn:Ha.
  - destruct (div_exp_zero a b q Ha Hb Hq) as [Hz He].
    assert (Hadj : adjusted q = d_exp q).
    { unfold adjusted. unfold is_zero in Hz. apply N.eqb_eq in Hz.
      rewrite Hz. change (ndigits (Z.of_N 0)) with 1. lia. }
    split; [|lia].
    unfold in_context. rewrite Hz. apply andb_true_iff.
    rewrite !Z.leb_le. unfold Etiny; unfold Emax, Emin, prec. lia.
  - destruct (div_adjusted a b q Ha Hb Hq) as [Hz Hadj].
    split; [|lia].
    unfold in_context. rewrite Hz. apply andb_true_iff.
    rewrite !Z.leb_le. unfold Emax, Emin. lia.
Qed.

(** A product of an operand within the limits and such a quotient, or
    another operand within the limits, is a result of the context. *)
Lemma mul_in_context_wide (a q : Decimal) :
  within_limits a = true ->
  -600028 <= d_exp q -> adjusted q <= 600001 ->
  in_context (mul a q) = true.
Proof.
  intros Hwa Heq Haq.
  destruct (within_limits_bounds a Hwa) as (Hea & Hea' & Haa).
  pose proof (ndigits_pos (Z.of_N (d_int q))) as Hnq.
  assert (Haq' : d_exp q <= adjusted q) by (unfold adjusted; lia).
  assert (Hfit : Z.of_N (d_int (mul a q)) < 10 ^ prec)
    by (apply fix_in_bound; reflexivity).
  destruct (is_zero (mul a q)) eqn:Hz.
  - pose proof (mul_exp_zero a q Hz) as He.
    unfold in_context. rewrite Hz. apply andb_true_iff.
    rewrite !Z.leb_le. unfold Etiny; unfold Emax, Emin, prec. lia.
  - assert (Hza : is_zero a = false /\ is_zero q = false).
    { rewrite mul_is_zero in Hz. apply orb_false_iff in Hz. exact Hz. }
    destruct Hza as [Hza Hzq].
    pose proof (mul_adjusted a q Hza Hzq) as Hm.
    unfold in_context. rewrite Hz. apply andb_true_iff.
    rewrite !Z.leb_le. unfold Emax, Emin. lia.
Qed.

(** * Division *)

Lemma mul_one_r (d : Decimal) :
  Z.of_N (d_int d) < 10 ^ prec -> mul d (mk false 1 0) = d.
Proof.
  intros Hfit. unfold mul, fix_. cbn [d_sign d_int d_exp].
  rewrite xorb_false_r, N.mul_1_r, Z.add_0_r.
  rewrite fix_in_small by exact Hfit. destruct d; reflexivity.
Qed.

Lemma one_over_one : div (of_int 1) (of_int 1) = Ok (mk false 1 0).
Proof. vm_compute. reflexivity. Qed.

Lemma one_over_zero (d : Decimal) :
  is_zero d = true -> div (of_int 1) d = Raise DivisionByZero.
Proof. intros Hz. rewrite div_zero_divisor by exact Hz. reflexivity. Qed.

(** X14: division of a [MoneyWithVAT].  Dividing by zero, an int or a
    [Decimal], raises [DivisionByZero], whatever the dividend.  For a value
    and a non-zero divisor within the limits (exponent and first digit
    between 1E-300000 and 1E+300000), the division does not fail: it
    multiplies net and tax by the rounded quotient [1 / other], and the
    quotient and both products are results of the context, so that no
    [Overflow] is raised on the way.  Dividing a value within the limits
    whose amounts fit 28 digits by one returns it unchanged.  A divisor
    that is a [Money], a ratio, [None], a string, a list or a dict raises
    [TypeError], and so does a [MoneyWithVAT] within the limits. *)
Theorem MoneyWithVAT_truediv_spec (m : MoneyWithVAT) :
  MoneyWithVAT___truediv__ m (VInt 0) = Raise DivisionByZero /\
  (forall d, is_zero d = true ->
             MoneyWithVAT___truediv__ m (VDecimal d) = Raise DivisionByZero) /\
  (forall d,
      is_zero d = false -> within_limits d = true ->
      MoneyWithVAT_within_limits m = true ->
      exists q,
        div (of_int 1) d = Ok q /\ in_context q = true /\
        MoneyWithVAT_div m d = Ok (MoneyWithVAT_mul m q) /\
        MoneyWithVAT___truediv__ m (VDecimal d)
        = Ok (VMoneyWithVAT (MoneyWithVAT_mul m q)) /\
        in_context (amount (net (MoneyWithVAT_mul m q))) = true /\
        in_context (amount (tax (MoneyWithVAT_mul m q))) = true) /\
  (forall z,
      z <> 0 -> within_limits (of_int z) = true ->
      MoneyWithVAT_within_limits m = true ->
      exists q,
        div (of_int 1) (of_int z) = Ok q /\ in_context q = true /\
        MoneyWithVAT___truediv__ m (VInt z)
        = Ok (VMoneyWithVAT (MoneyWithVAT_mul m q)) /\
        in_context (amount (net (MoneyWithVAT_mul m q))) = true /\
        in_context (amount (tax (MoneyWithVAT_mul m q))) = true) /\
  (Money_fits (net m) -> Money_fits (tax m) ->
   MoneyWithVAT_within_limits m = true ->
   MoneyWithVAT___truediv__ m (VInt 1) = Ok (VMoneyWithVAT m)) /\
  (forall v,
      match v with
      | VNone | VNotImplemented | VStr _ | VMoney _ | VMoneyWithVATRatio _
      | VList _ | VDict _ => True
      | _ => False
      end ->
      MoneyWithVAT___truediv__ m v = Raise TypeError) /\
  (forall o,
      MoneyWithVAT_within_limits m = true ->
      MoneyWithVAT_within_limits o = true ->
      MoneyWithVAT___truediv__ m (VMoneyWithVAT o) = Raise TypeError).
Proof.
  assert (Hquot : forall d,
             is_zero d = false -> within_limits d = true ->
             MoneyWithVAT_within_limits m = true ->
             exists q,
               div (of_int 1) d = Ok q /\ in_context q = true /\
               in_context (amount (net (MoneyWithVAT_mul m q))) = true /\
               in_context (amount (tax (MoneyWithVAT_mul m q))) = true).
  { intros d Hnz Hd Hm. unfold MoneyWithVAT_within_limits in Hm.
    apply andb_prop in Hm. destruct Hm as [Hmn Hmt].
    destruct (div_nonzero_divisor (of_int 1) d Hnz) as [q Hq].
    destruct (div_in_context (of_int 1) d q ltac:(reflexivity) Hd Hnz Hq)
      as (Hcq & Heq & Haq).
    exists q. split; [exact Hq|]. split; [exact Hcq|].
    unfold MoneyWithVAT_mul, Money_mul. cbn [net tax amount].
    split; apply mul_in_context_wide; assumption. }
  split; [reflexivity|]. split; [|split; [|split; [|split; [|split]]]].
  - intros d Hz. unfold MoneyWithVAT___truediv__, Decimal_one_over.
    rewrite one_over_zero by exact Hz. reflexivity.
  - intros d Hnz Hd Hm.
    destruct (Hquot d Hnz Hd Hm) as (q & Hq & Hcq & Hcn & Hct).
    exists q. split; [exact Hq|]. split; [exact Hcq|].
    unfold MoneyWithVAT_div, MoneyWithVAT___truediv__, Decimal_one_over.
    rewrite Hq. auto.
  - intros z Hz Hd Hm.
    assert (Hnz : is_zero (of_int z) = false).
    { apply is_zero_false. unfold of_int. rewrite sval_of_Z. exact Hz. }
    destruct (Hquot (of_int z) Hnz Hd Hm) as (q & Hq & Hcq & Hcn & Hct).
    exists q. split; [exact Hq|]. split; [exact Hcq|].
    unfold MoneyWithVAT___truediv__, Decimal_one_over. rewrite Hq. auto.
  - intros Hn Ht _. unfold MoneyWithVAT___truediv__, Decimal_one_over.
    rewrite one_over_one. cbn [bind].
    unfold MoneyWithVAT___mul__, Money_times, Money___mul__, Money_mul.
    cbn [bind]. rewrite !mul_one_r by assumption.
    destruct m as [[n] [t]]. reflexivity.
  - intros v Hv. unfold MoneyWithVAT___truediv__.
    destruct v; try contradiction; reflexivity.
  - intros o _ _. reflexivity.
Qed.

Lemma MoneyWithVAT_truediv_spec_witness :
  is_zero (mk false 25 (-1)) = false /\
  within_limits (mk false 25 (-1)) = true /\
  MoneyWithVAT_within_limits (MoneyWithVAT_of_ints 200 38) = true /\
  exists q,
    div (of_int 1) (mk false 25 (-1)) = Ok q /\ in_context q = true /\
    MoneyWithVAT_div (MoneyWithVAT_of_ints 200 38) (mk false 25 (-1))
    = Ok (MoneyWithVAT_mul (MoneyWithVAT_of_ints 200 38) q) /\
    MoneyWithVAT___truediv__ (MoneyWithVAT_of_ints 200 38)
                             (VDecimal (mk false 25 (-1)))
    = Ok (VMoneyWithVAT (MoneyWithVAT_mul (MoneyWithVAT_of_ints 200 38) q)) /\
    in_context (amount (net (MoneyWithVAT_mul (MoneyWithVAT_of_ints 200 38) q)))
    = true /\
    in_context (amount (tax (MoneyWithVAT_mul (MoneyWithVAT_of_ints 200 38) q)))
    = true.
Proof.
  assert (Hnz : is_zero (mk false 25 (-1)) = false) by reflexivity.
  assert (Hd : within_limits (mk false 25 (-1)) = true)
    by (vm_compute; reflexivity).
  assert (Hm : MoneyWithVAT_within_limits (MoneyWithVAT_of_ints 200 38) = true)
    by (vm_compute; reflexivity).
  split; [exact Hnz|]. split; [exact Hd|]. split; [exact Hm|].
  destruct (MoneyWithVAT_truediv_spec (MoneyWithVAT_of_ints 200 38))
    as (_ & _ & H & _).
  exact (H _ Hnz Hd Hm).
Defined.

(** X15: [safe_ratio_decimal] returns [None] exactly when the dividend is
    [None] or the divisor is [None] or zero.  Otherwise, for a dividend and
    a divisor within the limits (exponent and first digit between
    1E-300000 and 1E+300000), it does not raise: it returns the dividend
    with net and tax multiplied by the rounded quotient [1 / divisor], and
    the quotient and both products are results of the context. *)
Theorem safe_ratio_decimal_spec (dividend : option MoneyWithVAT)
    (divisor : option Decimal) :
  (forall m, dividend = Some m -> MoneyWithVAT_within_limits m = true) ->
  (forall d, divisor = Some d -> within_limits d = true) ->
  exists r : option MoneyWithVAT,
    safe_ratio_decimal dividend divisor = Ok r /\
    (r = None <->
     dividend = None \/ divisor = None \/
     exists d, divisor = Some d /\ is_zero d = true) /\
    (forall x, r = Some x ->
       exists m d q,
         dividend = Some m /\ divisor = Some d /\
         div (of_int 1) d = Ok q /\ in_context q = true /\
         x = MoneyWithVAT_mul m q /\ MoneyWithVAT_div m d = Ok x /\
         in_context (amount (net x)) = true /\
         in_context (amount (tax x)) = true).
Proof.
  intros Hm Hd. unfold safe_ratio_decimal.
  destruct dividend as [m|], divisor as [d|].
  - destruct (is_zero d) eqn:Hz.
    + exists None. split; [reflexivity|]. split.
      * split; [|reflexivity]. intros _. right. right. exists d. auto.
      * discriminate.
    + specialize (Hm m eq_refl). specialize (Hd d eq_refl).
      unfold MoneyWithVAT_within_limits in Hm.
      apply andb_prop in Hm. destruct Hm as [Hmn Hmt].
      destruct (div_nonzero_divisor (of_int 1) d Hz) as [q Hq].
      destruct (div_in_context (of_int 1) d q ltac:(reflexivity) Hd Hz Hq)
        as (Hcq & Heq & Haq).
      exists (Some (MoneyWithVAT_mul m q)).
      unfold MoneyWithVAT_div. rewrite Hq. cbn [bind].
      split; [reflexivity|]. split.
      * split; [discriminate|].
        intros [H|[H|(d' & [= <-] & H)]]; congruence.
      * intros x [= <-]. exists m, d, q.
        split; [reflexivity|]. split; [reflexivity|].
        split; [exact Hq|]. split; [exact Hcq|]. split; [reflexivity|].
        split; [unfold MoneyWithVAT_div; rewrite Hq; reflexivity|].
        unfold MoneyWithVAT_mul, Money_mul. cbn [net tax amount].
        split; apply mul_in_context_wide; assumption.
  - exists None. split; [reflexivity|]. split; [|discriminate].
    split; auto.
  - exists None. split; [reflexivity|]. split; [|discriminate].
    split; auto.
  - exists None. split; [reflexivity|]. split; [|discriminate].
    split; auto.
Qed.

Lemma safe_ratio_decimal_spec_witness :
  MoneyWithVAT_within_limits (MoneyWithVAT_of_ints 200 38) = true /\
  within_limits (of_int 2) = true /\
  exists r : option MoneyWithVAT,
    safe_ratio_decimal (Some (MoneyWithVAT_of_ints 200 38)) (Some (of_int 2))
    = Ok r /\
    (r = None <->
     Some (MoneyWithVAT_of_ints 200 38) = None \/ Some (of_int 2) = None \/
     exists d, Some (of_int 2) = Some d /\ is_zero d = true) /\
    (forall x, r = Some x ->
       exists m d q,
         Some (MoneyWithVAT_of_ints 200 38) = Some m /\
         Some (of_int 2) = Some d /\
         div (of_int 1) d = Ok q /\ in_context q = true /\
         x = MoneyWithVAT_mul m q /\ MoneyWithVAT_div m d = Ok x /\
         in_context (amount (net x)) = true /\
         in_context (amount (tax x)) = true).
Proof.
  assert (Hm : MoneyWithVAT_within_limits (MoneyWithVAT_of_ints 200 38) = true)
    by (vm_compute; reflexivity).
  assert (Hd : within_limits (of_int 2) = true) by (vm_compute; reflexivity).
  split; [exact Hm|]. split; [exact Hd|].
  apply (safe_ratio_decimal_spec (Some (MoneyWithVAT_of_ints 200 38))
           (Some (of_int 2))).
  - intros m [= <-]. exact Hm.
  - intros d [= <-]. exact Hd.
Defined.

(** X16: division of a [Money].  By a [Money] it gives a plain [Decimal]: a
    value divided by itself is exactly 1, and a zero divisor raises
    [DivisionByZero], or [InvalidOperation] when the dividend is zero too;
    for a dividend and a non-zero divisor within the limits (exponent and
    first digit between 1E-300000 and 1E+300000) the division does not
    fail and its quotient is a result of the context.  By a number it
    gives a [Money] under the same conditions and fails the same way.  By
    [None], a string, a list, a dict or a ratio it raises [TypeError]. *)
Theorem Money_truediv_spec (a : Money) :
  (forall b,
      Money_bool b = true ->
      within_limits (amount a) = true -> within_limits (amount b) = true ->
      exists q, Money___truediv__ a (VMoney b) = Ok (VDecimal q) /\
                Money_div a b = Ok q /\ in_context q = true) /\
  (Money_bool a = true ->
   Money___truediv__ a (VMoney a) = Ok (VDecimal (mk false 1 0))) /\
  (forall b, Money_bool b = false ->
     Money___truediv__ a (VMoney b)
     = Raise (if Money_bool a then DivisionByZero else InvalidOperation)) /\
  (forall d,
      is_zero d = false ->
      within_limits (amount a) = true -> within_limits d = true ->
      exists q, Money___truediv__ a (VDecimal d) = Ok (VMoney (mkMoney q)) /\
                div (amount a) d = Ok q /\ in_context q = true) /\
  (forall d, is_zero d = true ->
     Money___truediv__ a (VDecimal d)
     = Raise (if Money_bool a then DivisionByZero else InvalidOperation)) /\
  Money___truediv__ a (VInt 0)
  = Raise (if Money_bool a then DivisionByZero else InvalidOperation) /\
  (forall v,
      match v with
      | VNone | VNotImplemented | VStr _ | VList _ | VDict _
      | VMoneyWithVATRatio _ => True
      | _ => False
      end ->
      Money___truediv__ a v = Raise TypeError).
Proof.
  unfold Money_bool.
  split; [|split; [|split; [|split; [|split; [|split]]]]].
  - intros b Hb Hwa Hwb. apply negb_true_iff in Hb.
    destruct (div_nonzero_divisor (amount a) (amount b) Hb) as [q Hq].
    destruct (div_in_context _ _ q Hwa Hwb Hb Hq) as (Hcq & _).
    exists q. unfold Money___truediv__, Money_div. rewrite Hq. auto.
  - intros Ha. apply negb_true_iff in Ha.
    unfold Money___truediv__, Money_div. rewrite div_self by exact Ha.
    reflexivity.
  - intros b Hb. apply negb_false_iff in Hb.
    unfold Money___truediv__, Money_div. rewrite div_zero_divisor by exact Hb.
    destruct (is_zero (amount a)); reflexivity.
  - intros d Hd Hwa Hwd.
    destruct (div_nonzero_divisor (amount a) d Hd) as [q Hq].
    destruct (div_in_context _ _ q Hwa Hwd Hd Hq) as (Hcq & _).
    exists q. unfold Money___truediv__, Money_div_scalar. rewrite Hq. auto.
  - intros d Hd. unfold Money___truediv__, Money_div_scalar.
    rewrite div_zero_divisor by exact Hd.
    destruct (is_zero (amount a)); reflexivity.
  - unfold Money___truediv__, Money_div_scalar.
    rewrite div_zero_divisor by reflexivity.
    destruct (is_zero (amount a)); reflexivity.
  - intros v Hv. destruct v; try contradiction; reflexivity.
Qed.

Lemma Money_truediv_spec_witness :
  Money_bool (mkMoney (mk false 300 (-2))) = true /\
  within_limits (amount (mkMoney (mk false 250 (-2)))) = true /\
  within_limits (amount (mkMoney (mk false 300 (-2)))) = true /\
  exists q,
    Money___truediv__ (mkMoney (mk false 250 (-2)))
                      (VMoney (mkMoney (mk false 300 (-2))))
    = Ok (VDecimal q) /\
    Money_div (mkMoney (mk false 250 (-2))) (mkMoney (mk false 300 (-2)))
    = Ok q /\
    in_context q = true.
Proof.
  assert (Hb : Money_bool (mkMoney (mk false 300 (-2))) = true)
    by reflexivity.
  assert (Hwa : within_limits (amount (mkMoney (mk false 250 (-2)))) = true)
    by (vm_compute; reflexivity).
  assert (Hwb : within_limits (amount (mkMoney (mk false 300 (-2)))) = true)
    by (vm_compute; reflexivity).
  split; [exact Hb|]. split; [exact Hwa|]. split; [exact Hwb|].
  destruct (Money_truediv_spec (mkMoney (mk false 250 (-2)))) as (H & _).
  exact (H _ Hb Hwa Hwb).
Defined.

(** * The text of a Decimal *)

Module DecStr.
Import DecText.
Local Open Scope string_scope.
Local Open Scope Z_scope.

Lemma nonempty_take (k : nat) (s : string) :
  (0 < k)%nat -> nonempty s = true -> nonempty (take k s) = true.
Proof.
  destruct k as [|k]; [lia|]. destruct s; [discriminate|reflexivity].
Qed.

Lemma span_digits_all (ds : string) :
  all_digits ds = true -> span_digits ds = (ds, "").
Proof.
  intros Hd. rewrite <- (append_nil_r ds) at 1.
  apply span_digits_append; [assumption|reflexivity].
Qed.

(** An exponent part is read back as written. *)
Lemma parse_exponent_text (x : Z) :
  parse_exponent
    (String "E" ((if x <? 0 then "-" else "+") ++ str (Z.abs x))) = Some x.
Proof.
  destruct (str_spec (Z.abs x) ltac:(lia)) as (Hne & Hd & Hv).
  unfold parse_exponent.
  change (Ascii.eqb "E" "E" || Ascii.eqb "E" "e")%bool with true.
  cbv beta iota.
  destruct (Z.ltb_spec x 0) as [Hneg|Hpos].
  - change (split_sign ("-" ++ str (Z.abs x))) with (true, str (Z.abs x)).
    cbv beta iota. rewrite (span_digits_all _ Hd), Hne. cbn [nonempty negb andb].
    unfold int_of_digits. rewrite Hv. f_equal. lia.
  - change (split_sign ("+" ++ str (Z.abs x))) with (false, str (Z.abs x)).
    cbv beta iota. rewrite (span_digits_all _ Hd), Hne. cbn [nonempty negb andb].
    unfold int_of_digits. rewrite Hv. f_equal. lia.
Qed.

(** A sign, digits, an optional fraction and an optional exponent are read
    back as written. *)
Lemma of_string_parts (sg : bool) (intpart frac : string)
    (has_dot has_exp : bool) (x : Z) :
  all_digits intpart = true -> nonempty intpart = true ->
  all_digits frac = true ->
  (has_dot = false -> frac = "") -> (has_exp = false -> x = 0) ->
  of_string
    ((if sg then "-" else "") ++ intpart
     ++ (if has_dot then String "." frac else "")
     ++ (if has_exp
         then String "E" ((if x <? 0 then "-" else "+") ++ str (Z.abs x))
         else ""))
  = Ok (mk sg (Z.to_N (int_of_digits (intpart ++ frac))) (x - len frac)).
Proof.
  intros Hi Hne Hf Hdot Hexp.
  set (etext := if has_exp
                then String "E" ((if x <? 0 then "-" else "+") ++ str (Z.abs x))
                else "").
  set (rest := (if has_dot then String "." frac else "") ++ etext).
  assert (Hpe : parse_exponent etext = Some x).
  { unfold etext. destruct has_exp; [apply parse_exponent_text|].
    rewrite (Hexp eq_refl). reflexivity. }
  assert (Het : starts_without_digit etext = true)
    by (unfold etext; destruct has_exp; reflexivity).
  assert (Hrest : starts_without_digit rest = true).
  { unfold rest. destruct has_dot; [reflexivity|exact Het]. }
  assert (Hspan : span_digits (intpart ++ rest) = (intpart, rest))
    by (apply span_digits_append; assumption).
  assert (Hsplit : split_sign ((if sg then "-" else "") ++ intpart ++ rest)
                   = (sg, intpart ++ rest)).
  { destruct sg; [reflexivity|].
    destruct intpart as [|c r]; [discriminate|]. cbn in Hi |- *.
    apply andb_prop in Hi. destruct Hi as [Hc _].
    destruct (digit_is_no_sign c Hc) as [-> ->]. reflexivity. }
  unfold of_string. rewrite Hsplit, Hspan. cbv beta iota.
  assert (Hfrac : match rest with
                  | "" => ("", rest)
                  | String c r =>
                      if Ascii.eqb c "." then span_digits r else ("", rest)
                  end = (frac, etext)).
  { unfold rest. destruct has_dot.
    - cbn [append]. change (Ascii.eqb "." ".") with true. cbv beta iota.
      apply span_digits_append; assumption.
    - rewrite (Hdot eq_refl). cbn [append]. unfold etext.
      destruct has_exp; reflexivity. }
  rewrite Hfrac, Hne. cbn [orb]. rewrite Hpe. reflexivity.
Qed.

(** The shape of [str(d)]. *)
Lemma Decimal_str_shape (sg : bool) (n : N) (e : Z) :
  exists (intpart frac : string) (has_dot has_exp : bool) (x : Z),
    Decimal_str (mk sg n e)
    = (if sg then "-" else "") ++ intpart
      ++ (if has_dot then String "." frac else "")
      ++ (if has_exp
          then String "E" ((if x <? 0 then "-" else "+") ++ str (Z.abs x))
          else "") /\
    all_digits intpart = true /\ nonempty intpart = true /\
    all_digits frac = true /\
    (has_dot = false -> frac = "") /\ (has_exp = false -> x = 0) /\
    int_of_digits (intpart ++ frac) = Z.of_N n /\ x - len frac = e.
Proof.
  unfold Decimal_str. cbn [d_exp d_int d_sign].
  destruct (str_spec (Z.of_N n) ltac:(lia)) as (Hne & Hd & Hv).
  set (ds := str (Z.of_N n)) in *.
  assert (HL : 0 < len ds).
  { unfold len. destruct ds; [discriminate|]. cbn [String.length]. lia. }
  assert (Hint : int_of_digits ds = Z.of_N n)
    by (unfold int_of_digits; rewrite Hv; lia).
  destruct ((e <=? 0) && (-6 <? e + len ds))%bool eqn:Hcond.
  - apply andb_prop in Hcond. destruct Hcond as [He Hld].
    apply Z.leb_le in He. rewrite Z.eqb_refl.
    destruct (Z.leb_spec (e + len ds) 0) as [Hle|Hgt].
    + exists "0", (zeros (Z.to_nat (- (e + len ds))) ++ ds), true, false, 0.
      split; [reflexivity|]. split; [reflexivity|]. split; [reflexivity|].
      split; [rewrite all_digits_append, all_digits_zeros; exact Hd|].
      split; [discriminate|]. split; [reflexivity|]. split.
      * unfold int_of_digits. cbn [append int_of_digits_acc].
        rewrite int_of_digits_acc_append.
        change (10 * 0 + digit_val "0") with 0.
        rewrite int_of_digits_acc_zeros, Hv. lia.
      * unfold len in *. rewrite length_append, length_zeros, Nat2Z.inj_add.
        rewrite Z2Nat.id by lia. lia.
    + destruct (Z.geb_spec (e + len ds) (len ds)) as [Hge|Hlt].
      * exists ds, "", false, false, 0.
        replace (Z.to_nat (e + len ds - len ds)) with 0%nat by lia.
        cbn [zeros]. rewrite append_nil_r.
        repeat split; try assumption; try reflexivity.
        -- rewrite append_nil_r. exact Hint.
        -- cbn. lia.
      * set (k := Z.to_nat (e + len ds)).
        destruct (all_digits_take_drop k ds Hd) as [Htk Hdr].
        exists (take k ds), (drop k ds), true, false, 0.
        split; [reflexivity|]. split; [exact Htk|].
        split; [apply nonempty_take; [unfold k; lia|exact Hne]|].
        split; [exact Hdr|]. split; [discriminate|]. split; [reflexivity|].
        split; [rewrite take_drop; exact Hint|].
        unfold len in *. rewrite length_drop. unfold k. lia.
  - assert (Hld : e + len ds <> 1).
    { apply andb_false_iff in Hcond. destruct Hcond as [H|H].
      - apply Z.leb_gt in H. lia.
      - apply Z.ltb_ge in H. lia. }
    destruct (Z.eqb_spec (e + len ds) 1) as [|_]; [contradiction|].
    change (1 <=? 0) with false. cbv beta iota.
    destruct (Z.geb_spec 1 (len ds)) as [Hge|Hlt].
    + exists ds, "", false, true, (e + len ds - 1).
      replace (Z.to_nat (1 - len ds)) with 0%nat by lia.
      cbn [zeros]. rewrite append_nil_r.
      repeat split; try assumption; try reflexivity; try discriminate;
        try (rewrite ?append_nil_r; exact Hint).
      change (len "") with 0. lia.
    + destruct (all_digits_take_drop (Z.to_nat 1) ds Hd) as [Htk Hdr].
      exists (take (Z.to_nat 1) ds), (drop (Z.to_nat 1) ds), true, true,
        (e + len ds - 1).
      split; [reflexivity|]. split; [exact Htk|].
      split; [apply nonempty_take; [lia|exact Hne]|].
      split; [exact Hdr|]. split; [discriminate|]. split; [discriminate|].
      split; [rewrite take_drop; exact Hint|].
      unfold len in *. rewrite length_drop. lia.
Qed.

(** The text of a decimal is read back as the same decimal: sign,
    coefficient and exponent. *)
Lemma of_string_Decimal_str (d : Decimal) : of_string (Decimal_str d) = Ok d.
Proof.
  destruct d as [sg n e].
  destruct (Decimal_str_shape sg n e)
    as (intpart & frac & has_dot & has_exp & x & -> & Hi & Hne & Hf & Hdot
        & Hexp & Hval & Hx).
  rewrite (of_string_parts sg intpart frac has_dot has_exp x) by assumption.
  rewrite Hval, Hx, N2Z.id. reflexivity.
Qed.

End DecStr.

Import DecStr.

(** * Operand types *)

(** X17: [Money + v] raises [TypeError] for every [v] that is not a
    [Money], and so does [Money - v] unless [v] is a [MoneyWithVAT]; with a
    [MoneyWithVAT] on the right the subtraction ends in the reflected
    method of [MoneyWithVAT], which is its [__sub__], and raises
    [AttributeError].  Between two [Money] both operators succeed. *)
Theorem Money_add_sub_operands (m : Money) :
  (forall v, (forall o, v <> VMoney o) ->
             py_binop Add (VMoney m) v = Raise TypeError) /\
  (forall v, (forall o, v <> VMoney o) -> (forall o, v <> VMoneyWithVAT o) ->
             py_binop Sub (VMoney m) v = Raise TypeError) /\
  (forall o : MoneyWithVAT,
      py_binop Sub (VMoney m) (VMoneyWithVAT o) = Raise AttributeError) /\
  (forall o : Money,
      py_binop Add (VMoney m) (VMoney o) = Ok (VMoney (Money_add m o)) /\
      py_binop Sub (VMoney m) (VMoney o) = Ok (VMoney (Money_sub m o))).
Proof.
  split; [exact (Money_plus_non_Money m)|]. split; [|split].
  - intros v Hm Hv. destruct v; try reflexivity.
    + destruct (Hm m0 eq_refl).
    + destruct (Hv m0 eq_refl).
  - intros o. reflexivity.
  - intros o. split; reflexivity.
Qed.

Lemma Money_add_sub_operands_witness :
  py_binop Add (VMoney Money_zero) (VInt 5) = Raise TypeError /\
  py_binop Sub (VMoney Money_zero) (VDecimal (of_int 5)) = Raise TypeError.
Proof.
  destruct (Money_add_sub_operands Money_zero) as (Hadd & Hsub & _).
  split.
  - apply Hadd. intros o; discriminate.
  - apply Hsub; intros o; discriminate.
Defined.

(** * MoneyWithVATRatio *)

Lemma neg_cancel (a : Decimal) :
  Z.of_N (d_int a) < 10 ^ prec -> is_zero (add a (neg a)) = true.
Proof.
  intros Hfit. destruct (neg_exact a Hfit) as (Hne & Hns & _).
  apply is_zero_spec.
  assert (Hsum : aligned_sum a (neg a) = 0).
  { unfold aligned_sum. rewrite Hne, Hns, Z.min_id, Z.sub_diag. lia. }
  destruct (add_exact a (neg a)) as [_ Hs].
  - rewrite Hsum. reflexivity.
  - rewrite Hs. exact Hsum.
Qed.

(** X18: addition and subtraction of ratios.  Addition is commutative;
    adding [zero()] to a ratio whose components fit 28 digits gives an
    equal ratio, and subtracting such a ratio from itself gives [zero()];
    an operand that is not a ratio raises [TypeError] for [+] and for
    [-]; a ratio equals no object of another type. *)
Theorem Ratio_add_sub_spec (r : MoneyWithVATRatio) :
  (forall o, Ratio_add r o = Ratio_add o r) /\
  (forall o,
      py_binop Add (VMoneyWithVATRatio r) (VMoneyWithVATRatio o)
      = Ok (VMoneyWithVATRatio (Ratio_add r o)) /\
      py_binop Sub (VMoneyWithVATRatio r) (VMoneyWithVATRatio o)
      = Ok (VMoneyWithVATRatio (Ratio_sub r o))) /\
  (Z.of_N (d_int (net_ratio r)) < 10 ^ prec ->
   Z.of_N (d_int (gross_ratio r)) < 10 ^ prec ->
   Ratio_eq (Ratio_add r Ratio_zero) r = true /\
   Ratio_eq (Ratio_sub r r) Ratio_zero = true) /\
  (forall v, (forall o, v <> VMoneyWithVATRatio o) ->
      py_binop Add (VMoneyWithVATRatio r) v = Raise TypeError /\
      py_binop Sub (VMoneyWithVATRatio r) v = Raise TypeError /\
      Ratio___eq__ r v = false).
Proof.
  split; [|split; [|split]].
  - intros o. unfold Ratio_add.
    rewrite (add_comm (net_ratio r)), (add_comm (gross_ratio r)). reflexivity.
  - intros o. split; reflexivity.
  - intros Hn Hg. split.
    + unfold Ratio_eq, Ratio_add, Ratio_zero. cbn [net_ratio gross_ratio].
      rewrite !add_zero_r by (reflexivity || assumption). reflexivity.
    + unfold Ratio_eq, Ratio_sub, Ratio_add, Ratio_neg, Ratio_zero.
      cbn [net_ratio gross_ratio].
      rewrite !eqb_zero, !neg_cancel by assumption. reflexivity.
  - intros v Hv. destruct v; try (repeat split; reflexivity).
    destruct (Hv r0 eq_refl).
Qed.

Lemma Ratio_add_sub_spec_witness :
  Z.of_N (d_int (net_ratio (mkRatio (mk false 5 (-1)) (mk false 25 (-2)))))
    < 10 ^ prec /\
  Ratio_eq (Ratio_sub (mkRatio (mk false 5 (-1)) (mk false 25 (-2)))
                      (mkRatio (mk false 5 (-1)) (mk false 25 (-2))))
           Ratio_zero = true.
Proof.
  assert (Hn : Z.of_N (d_int (net_ratio (mkRatio (mk false 5 (-1))
                                                  (mk false 25 (-2)))))
               < 10 ^ prec) by (vm_compute; reflexivity).
  split; [exact Hn|].
  destruct (Ratio_add_sub_spec (mkRatio (mk false 5 (-1)) (mk false 25 (-2))))
    as (_ & _ & H & _).
  destruct (H Hn) as [_ Hsub]; [vm_compute; reflexivity|exact Hsub].
Defined.

(** X19: multiplication and division of a ratio by a number.  A number on
    the right multiplies both components, a number on the left raises
    [TypeError] (the class has no reflected multiplication); multiplying
    or dividing by one returns the ratio itself when its components fit 28
    digits; dividing by zero raises [DivisionByZero]; dividing by another
    number multiplies by the rounded quotient [1 / other]; dividing by
    anything that is not a number raises [TypeError]. *)
Theorem Ratio_mul_div_spec (r : MoneyWithVATRatio) :
  (forall z d,
      py_binop Mul (VMoneyWithVATRatio r) (VInt z)
      = Ok (VMoneyWithVATRatio (Ratio_mul_scalar r (of_int z))) /\
      py_binop Mul (VMoneyWithVATRatio r) (VDecimal d)
      = Ok (VMoneyWithVATRatio (Ratio_mul_scalar r d)) /\
      py_binop Mul (VInt z) (VMoneyWithVATRatio r) = Raise TypeError /\
      py_binop Mul (VDecimal d) (VMoneyWithVATRatio r) = Raise TypeError) /\
  (Z.of_N (d_int (net_ratio r)) < 10 ^ prec ->
   Z.of_N (d_int (gross_ratio r)) < 10 ^ prec ->
   py_binop Mul (VMoneyWithVATRatio r) (VInt 1) = Ok (VMoneyWithVATRatio r) /\
   Ratio___truediv__ r (VInt 1) = Ok (VMoneyWithVATRatio r)) /\
  Ratio___truediv__ r (VInt 0) = Raise DivisionByZero /\
  (forall d, is_zero d = true ->
             Ratio___truediv__ r (VDecimal d) = Raise DivisionByZero) /\
  (forall d, is_zero d = false ->
     exists q, div (of_int 1) d = Ok q /\
               Ratio___truediv__ r (VDecimal d)
               = Ok (VMoneyWithVATRatio (Ratio_mul_scalar r q))) /\
  (forall v,
      match v with VInt _ | VDecimal _ => False | _ => True end ->
      Ratio___truediv__ r v = Raise TypeError).
Proof.
  split; [|split; [|split; [|split; [|split]]]].
  - intros z d. repeat split; reflexivity.
  - intros Hn Hg.
    assert (H1 : Ratio_mul_scalar r (of_int 1) = r).
    { unfold Ratio_mul_scalar. change (of_int 1) with (mk false 1 0).
      rewrite !mul_one_r by assumption. destruct r; reflexivity. }
    split.
    + change (py_binop Mul (VMoneyWithVATRatio r) (VInt 1))
        with (Ok (VMoneyWithVATRatio (Ratio_mul_scalar r (of_int 1)))
              : result value).
      rewrite H1. reflexivity.
    + unfold Ratio___truediv__. rewrite one_over_one. cbn [bind Ratio___mul__].
      change (mk false 1 0) with (of_int 1). rewrite H1. reflexivity.
  - reflexivity.
  - intros d Hz. unfold Ratio___truediv__. rewrite one_over_zero by exact Hz.
    reflexivity.
  - intros d Hnz. destruct (div_nonzero_divisor (of_int 1) d Hnz) as [q Hq].
    exists q. split; [exact Hq|]. unfold Ratio___truediv__. rewrite Hq.
    reflexivity.
  - intros v Hv. destruct v; try contradiction; reflexivity.
Qed.

Lemma Ratio_mul_div_spec_witness :
  Z.of_N (d_int (net_ratio (mkRatio (mk false 5 (-1)) (mk false 25 (-2)))))
    < 10 ^ prec /\
  Ratio___truediv__ (mkRatio (mk false 5 (-1)) (mk false 25 (-2))) (VInt 1)
  = Ok (VMoneyWithVATRatio (mkRatio (mk false 5 (-1)) (mk false 25 (-2)))).
Proof.
  assert (Hn : Z.of_N (d_int (net_ratio (mkRatio (mk false 5 (-1))
                                                  (mk false 25 (-2)))))
               < 10 ^ prec) by (vm_compute; reflexivity).
  split; [exact Hn|].
  destruct (Ratio_mul_div_spec (mkRatio (mk false 5 (-1)) (mk false 25 (-2))))
    as (_ & H & _).
  destruct (H Hn) as [_ Hdiv]; [vm_compute; reflexivity|exact Hdiv].
Defined.

(** * Decoders *)

Lemma mem_string_In (k : string) (ks : list string) :
  mem_string k ks = true <-> In k ks.
Proof.
  unfold mem_string. rewrite existsb_exists. split.
  - intros (x & Hx & He). apply String.eqb_eq in He. subst. exact Hx.
  - intros H. exists k. split; [exact H|apply String.eqb_refl].
Qed.

Lemma dict_get_None {A : Type} (items : list (string * A)) (k : string) :
  dict_get items k = None -> mem_string k (map fst items) = false.
Proof.
  induction items as [|[k' v] r IH]; [reflexivity|].
  cbn [dict_get map fst mem_string existsb].
  destruct (String.eqb k k'); [discriminate|]. exact IH.
Qed.

(** A dict with a key missing, or with a key too many, does not have
    exactly the keys [ks]. *)
Lemma keys_are_missing (items : list (string * value)) (ks : list string)
    (k : string) :
  In k ks -> dict_get items k = None -> keys_are items ks = false.
Proof.
  intros Hk Hget. unfold keys_are. apply andb_false_iff. right.
  apply not_true_is_false. intros Hall.
  rewrite forallb_forall in Hall. specialize (Hall k Hk).
  rewrite (dict_get_None items k Hget) in Hall. discriminate.
Qed.

Lemma keys_are_extra (items : list (string * value)) (ks : list string)
    (k : string) (v : value) :
  In (k, v) items -> ~ In k ks -> keys_are items ks = false.
Proof.
  intros Hin Hk. unfold keys_are. apply andb_false_iff. left.
  apply not_true_is_false. intros Hall.
  rewrite forallb_forall in Hall. specialize (Hall (k, v) Hin).
  apply mem_string_In in Hall. contradiction.
Qed.

(** X20: the codec of [MoneyWithVATRatio] is exact: decoding the encoding
    of any ratio returns that very ratio, sign, digits and exponent of both
    components.  An instance passes the decoder unchanged; a dict that
    lacks one of the two keys or has any other key, and any value that is
    neither a dict nor a ratio, raise [AssertionError]. *)
Theorem Ratio_codec_round_trip :
  (forall r : MoneyWithVATRatio,
      _pydantic_validate_money_vat_ratio (Ratio_for_json r) = Ok r /\
      _pydantic_validate_money_vat_ratio (VMoneyWithVATRatio r) = Ok r) /\
  (forall items,
      dict_get items "net_ratio"%string = None \/
      dict_get items "gross_ratio"%string = None ->
      _pydantic_validate_money_vat_ratio (VDict items) = Raise AssertionError) /\
  (forall items k v,
      In (k, v) items -> k <> "net_ratio"%string -> k <> "gross_ratio"%string ->
      _pydantic_validate_money_vat_ratio (VDict items) = Raise AssertionError) /\
  (forall v,
      match v with VDict _ | VMoneyWithVATRatio _ => False | _ => True end ->
      _pydantic_validate_money_vat_ratio v = Raise AssertionError).
Proof.
  split; [|split; [|split]].
  - intros [n g]. split; [|reflexivity].
    unfold Ratio_for_json, _pydantic_validate_money_vat_ratio.
    cbn [net_ratio gross_ratio].
    change (keys_are _ ["net_ratio"%string; "gross_ratio"%string]) with true.
    cbn [mapM snd fst validate_decimal].
    rewrite !of_string_Decimal_str. reflexivity.
  - intros items H. unfold _pydantic_validate_money_vat_ratio.
    destruct H as [H|H].
    + rewrite (keys_are_missing items _ "net_ratio"%string); auto.
      left; reflexivity.
    + rewrite (keys_are_missing items _ "gross_ratio"%string); auto.
      right; left; reflexivity.
  - intros items k v Hin H1 H2. unfold _pydantic_validate_money_vat_ratio.
    rewrite (keys_are_extra items _ k v Hin); [reflexivity|].
    intros [H|[H|[]]]; congruence.
  - intros v Hv. destruct v; try contradiction; reflexivity.
Qed.

Lemma Ratio_codec_round_trip_witness :
  _pydantic_validate_money_vat_ratio
    (VDict [("net_ratio"%string, VStr "0.5"%string)])
  = Raise AssertionError.
Proof.
  destruct Ratio_codec_round_trip as (_ & Hmissing & _).
  apply Hmissing. right. reflexivity.
Defined.

(** X21: the text of a [Money] reconstructs it: [repr(m)] is the text
    [Money('...')] around [str(m.amount)], and [Money] of that string, as
    well as the decoder applied to it, gives back [m] itself, whatever its
    sign, digits and exponent. *)
Theorem Money_repr_round_trip (m : Money) :
  Money___repr__ m
  = ("Money('" ++ Decimal_str (amount m) ++ "')")%string /\
  Money_init (ArgStr (Decimal_str (amount m))) = Ok m /\
  _pydantic_validate_money (VStr (Decimal_str (amount m))) = Ok m.
Proof.
  split; [reflexivity|].
  unfold Money_init, _pydantic_validate_money, validate_decimal.
  rewrite of_string_Decimal_str. destruct m. split; reflexivity.
Qed.

(** X22: the decoder of [MoneyWithVAT] is strict about the shape of its
    input: an instance passes unchanged; a dict that lacks [net] or [tax],
    or has any other key, and any value that is neither a dict nor a
    [MoneyWithVAT], raise [AssertionError]; with both keys present and
    int amounts the value is built, in either order of the keys. *)
Theorem MoneyWithVAT_decoder_shape :
  (forall m : MoneyWithVAT, _pydantic_validate_money_vat (VMoneyWithVAT m) = Ok m) /\
  (forall items,
      dict_get items "net"%string = None \/ dict_get items "tax"%string = None ->
      _pydantic_validate_money_vat (VDict items) = Raise AssertionError) /\
  (forall items k v,
      In (k, v) items -> k <> "net"%string -> k <> "tax"%string ->
      _pydantic_validate_money_vat (VDict items) = Raise AssertionError) /\
  (forall v,
      match v with VDict _ | VMoneyWithVAT _ => False | _ => True end ->
      _pydantic_validate_money_vat v = Raise AssertionError) /\
  (forall n t : Z,
      _pydantic_validate_money_vat
        (VDict [("net"%string, VInt n); ("tax"%string, VInt t)])
      = Ok (MoneyWithVAT_of_ints n t) /\
      _pydantic_validate_money_vat
        (VDict [("tax"%string, VInt t); ("net"%string, VInt n)])
      = Ok (MoneyWithVAT_of_ints n t)).
Proof.
  split; [reflexivity|]. split; [|split; [|split]].
  - intros items H. unfold _pydantic_validate_money_vat.
    destruct H as [H|H].
    + rewrite (keys_are_missing items _ "net"%string); auto.
      left; reflexivity.
    + rewrite (keys_are_missing items _ "tax"%string); auto.
      right; left; reflexivity.
  - intros items k v Hin H1 H2. unfold _pydantic_validate_money_vat.
    rewrite (keys_are_extra items _ k v Hin); [reflexivity|].
    intros [H|[H|[]]]; congruence.
  - intros v Hv. destruct v; try contradiction; reflexivity.
  - intros n t. split; reflexivity.
Qed.

Lemma MoneyWithVAT_decoder_shape_witness :
  _pydantic_validate_money_vat (VDict [("net"%string, VInt 1)])
  = Raise AssertionError.
Proof.
  destruct MoneyWithVAT_decoder_shape as (_ & Hmissing & _).
  apply Hmissing. right. reflexivity.
Defined.

(** * [from_json] *)

Lemma Decimal_of_str_int (z : Z) : Decimal_of_str (JInt z) = Ok (of_int z).
Proof.
  unfold Decimal_of_str, int_str.
  destruct (DecText.str_spec (Z.abs z) ltac:(lia)) as (Hne & Hd & Hv).
  pose proof (of_string_parts (z <? 0) (str (Z.abs z)) "" false false 0
                Hd Hne eq_refl (fun _ => eq_refl) (fun _ => eq_refl)) as H.
  cbn [append] in H. rewrite !DecText.append_nil_r in H.
  rewrite H. unfold int_of_digits. rewrite Hv.
  unfold of_int, of_Z. f_equal. f_equal.
  destruct z; reflexivity.
Qed.

Lemma normalized_zero_eqb (d : Decimal) :
  eqb (if is_zero d then of_int 0 else d) d = true.
Proof.
  destruct (is_zero d) eqn:Hz; [|apply eqb_refl].
  rewrite eqb_sym, eqb_zero. exact Hz.
Qed.

Lemma sub_neg_eqb (g n : Decimal) :
  Z.of_N (d_int n) < 10 ^ prec -> eqb (sub g n) (add g (neg n)) = true.
Proof.
  intros Hfit. unfold sub. apply add_congr; [apply eqb_refl|].
  destruct (neg_exact n Hfit) as (He & Hs & _).
  apply (eqb_at _ _ (d_exp n)); [cbn; lia|lia|].
  rewrite Hs, He. cbn [d_exp]. rewrite sval_mk. unfold sval.
  destruct (d_sign n); cbn [negb]; lia.
Qed.

(** Adding back what was subtracted, on decimals. *)
Lemma add_sub_cancel (a b : Decimal) :
  Z.of_N (d_int a) < 10 ^ prec ->
  Z.of_N (d_int b) < 10 ^ prec ->
  Z.abs (aligned_sum b (neg a)) < 10 ^ prec ->
  eqb (add a (add b (neg a))) b = true.
Proof.
  intros Ha Hb Hex.
  destruct (neg_exact a Ha) as (Hne & Hns & _).
  destruct (add_exact b (neg a) Hex) as (Hte & Hts).
  set (t := add b (neg a)) in *.
  set (m := Z.min (d_exp b) (d_exp a)).
  assert (Hm : d_exp t = m) by (rewrite Hte, Hne; reflexivity).
  assert (Hsum : aligned_sum a t = sval b * 10 ^ (d_exp b - m)).
  { unfold aligned_sum at 1. rewrite Hts. unfold aligned_sum.
    rewrite Hne, Hns, Hm. fold m.
    replace (Z.min (d_exp a) m) with m by (unfold m; lia).
    rewrite Z.sub_diag, Z.mul_1_r. lia. }
  assert (Hk : 0 <= d_exp b - m) by (unfold m; lia).
  pose proof (pow10_pos _ Hk) as Hpk.
  eapply eqb_trans with
    (b := if aligned_sum a t =? 0 then mk (d_sign a && d_sign t) 0 m
          else of_Z (aligned_sum a t) m).
  - unfold add at 1, exact_add. cbv zeta. rewrite Hm.
    replace (Z.min (d_exp a) m) with m by (unfold m; lia).
    destruct (Z.eqb_spec (aligned_sum a t) 0) as [Hz|Hnz].
    + unfold fix_. rewrite fix_in_zero. apply eqb_refl.
    + unfold of_Z, fix_.
      apply fix_in_exact_eqb with (c := Z.of_N (d_int b)) (k := d_exp b - m);
        [reflexivity|assumption|lia|].
      rewrite N2Z.inj_abs_N, Hsum, Z.abs_mul, abs_sval. lia.
  - apply (eqb_at _ _ m); [|unfold m; lia|].
    + destruct (_ =? 0); cbn; lia.
    + destruct (Z.eqb_spec (aligned_sum a t) 0) as [Hz|Hnz].
      * rewrite sval_mk. cbn [d_exp]. rewrite <- Hsum, Hz.
        destruct (_ && _); lia.
      * rewrite sval_of_Z. cbn [of_Z d_exp]. rewrite Z.sub_diag. lia.
Qed.

(** The gross amount of what [from_json] builds from a net amount [n] and
    a gross amount [g]. *)
Lemma from_json_gross (n g : Decimal) :
  Z.of_N (d_int n) < 10 ^ prec -> Z.of_N (d_int g) < 10 ^ prec ->
  Z.abs (aligned_sum g (neg n)) < 10 ^ prec ->
  Money_eq (gross (MoneyWithVAT_of_decimals n (sub g n))) (mkMoney g) = true.
Proof.
  intros Hn Hg Hex.
  unfold Money_eq, gross, MoneyWithVAT_of_decimals, Money_add.
  cbn [net tax amount].
  eapply eqb_trans; [apply add_congr; apply normalized_zero_eqb|].
  eapply eqb_trans;
    [apply add_congr; [apply eqb_refl|apply sub_neg_eqb; exact Hn]|].
  apply add_sub_cancel; assumption.
Qed.

(** X23: [from_json].  When the document is a dict whose
    [amount_with_vat] entry holds the dicts [net] and [gross], each with an
    [amount] that converts to a decimal (other entries are ignored), the
    net of the result is the net amount and the tax is gross minus net; if
    both amounts fit 28 digits and the difference is exact, the gross of
    the result equals the gross amount.  An int amount converts to that
    int, and the text of any [Decimal] to that [Decimal].  A missing key
    gives [InvalidJsonStructure] caused by [KeyError], a container that is
    not a dict one caused by [TypeError], and an amount that is [None], a
    bool, a list or a dict one caused by [InvalidOperation]. *)
Theorem from_json_spec :
  (forall money_dict amount_with_vat net_ gross_ net_amount gross_amount n g,
      subscript money_dict "amount_with_vat"%string = inr amount_with_vat ->
      subscript amount_with_vat "net"%string = inr net_ ->
      subscript net_ "amount"%string = inr net_amount ->
      subscript amount_with_vat "gross"%string = inr gross_ ->
      subscript gross_ "amount"%string = inr gross_amount ->
      Decimal_of_str net_amount = Ok n ->
      Decimal_of_str gross_amount = Ok g ->
      from_json money_dict = Built (MoneyWithVAT_of_decimals n (sub g n)) /\
      Money_eq (net (MoneyWithVAT_of_decimals n (sub g n))) (mkMoney n) = true /\
      (Z.of_N (d_int n) < 10 ^ prec -> Z.of_N (d_int g) < 10 ^ prec ->
       Money_sub_is_exact (mkMoney g) (mkMoney n) ->
       Money_eq (gross (MoneyWithVAT_of_decimals n (sub g n))) (mkMoney g)
       = true)) /\
  (forall z, Decimal_of_str (JInt z) = Ok (of_int z)) /\
  (forall d, Decimal_of_str (JStr (Decimal_str d)) = Ok d) /\
  (forall money_dict,
      match money_dict with JDict _ => False | _ => True end ->
      from_json money_dict = InvalidJsonStructure CauseTypeError) /\
  (forall items,
      dict_get items "amount_with_vat"%string = None ->
      from_json (JDict items) = InvalidJsonStructure CauseKeyError) /\
  (forall items av_items,
      dict_get items "amount_with_vat"%string = Some (JDict av_items) ->
      dict_get av_items "net"%string = None ->
      from_json (JDict items) = InvalidJsonStructure CauseKeyError) /\
  (forall money_dict amount_with_vat net_ gross_ net_amount gross_amount,
      subscript money_dict "amount_with_vat"%string = inr amount_with_vat ->
      subscript amount_with_vat "net"%string = inr net_ ->
      subscript net_ "amount"%string = inr net_amount ->
      subscript amount_with_vat "gross"%string = inr gross_ ->
      subscript gross_ "amount"%string = inr gross_amount ->
      match net_amount with
      | JNull | JBool _ | JList _ | JDict _ => True
      | _ => False
      end ->
      from_json money_dict = InvalidJsonStructure CauseInvalidOperation).
Proof.
  split; [|split; [|split; [|split; [|split; [|split]]]]].
  - intros money_dict amount_with_vat net_ gross_ net_amount gross_amount n g
      H1 H2 H3 H4 H5 Hn Hg.
    split; [|split].
    + unfold from_json, with_subscript, with_decimal.
      rewrite H1, H2, H3, H4, H5, Hn, Hg. reflexivity.
    + unfold Money_eq, MoneyWithVAT_of_decimals. cbn [net amount].
      apply normalized_zero_eqb.
    + intros Hfn Hfg Hex. apply from_json_gross; [exact Hfn|exact Hfg|].
      unfold Money_sub_is_exact, Money_add_is_exact, Money_neg in Hex.
      exact Hex.
  - exact Decimal_of_str_int.
  - intros d. apply of_string_Decimal_str.
  - intros money_dict H. destruct money_dict; try contradiction; reflexivity.
  - intros items H. unfold from_json, with_subscript, subscript.
    rewrite H. reflexivity.
  - intros items av_items H1 H2. unfold from_json, with_subscript, subscript.
    rewrite H1, H2. reflexivity.
  - intros money_dict amount_with_vat net_ gross_ net_amount gross_amount
      H1 H2 H3 H4 H5 Hbad.
    unfold from_json, with_subscript, with_decimal.
    rewrite H1, H2, H3, H4, H5.
    destruct net_amount as [| [|] | | | |]; try contradiction; reflexivity.
Qed.

Lemma from_json_spec_witness :
  from_json
    (JDict [("amount_with_vat"%string,
             JDict [("net"%string, JDict [("amount"%string, JInt 100)]);
                    ("gross"%string,
                     JDict [("amount"%string, JStr "111.00"%string)])])])
  = Built (MoneyWithVAT_of_decimals (of_int 100)
             (sub (mk false 11100 (-2)) (of_int 100))) /\
  Money_eq
    (gross (MoneyWithVAT_of_decimals (of_int 100)
              (sub (mk false 11100 (-2)) (of_int 100))))
    (mkMoney (mk false 11100 (-2))) = true.
Proof.
  destruct from_json_spec as (H & _).
  destruct (H (JDict [("amount_with_vat"%string,
                       JDict [("net"%string,
                               JDict [("amount"%string, JInt 100)]);
                              ("gross"%string,
                               JDict [("amount"%string,
                                       JStr "111.00"%string)])])])
              _ _ _ _ _ (of_int 100) (mk false 11100 (-2))
              eq_refl eq_refl eq_refl eq_refl eq_refl eq_refl eq_refl)
    as (Hbuilt & _ & Hgross).
  split; [exact Hbuilt|].
  apply Hgross; vm_compute; reflexivity.
Defined.

(** * The model fields *)

Lemma dict_get_setattr_same (instance : attributes) (k : string)
    (v : amount_arg) :
  dict_get (setattr instance k v) k = Some v.
Proof.
  induction instance as [|[k' w] r IH]; cbn [setattr dict_get].
  - rewrite String.eqb_refl. reflexivity.
  - destruct (String.eqb k k') eqn:He; cbn [dict_get]; rewrite He;
      [reflexivity|exact IH].
Qed.

Lemma dict_get_setattr_other (instance : attributes) (k k' : string)
    (v : amount_arg) :
  k' <> k -> dict_get (setattr instance k v) k' = dict_get instance k'.
Proof.
  intros Hk. apply String.eqb_neq in Hk.
  induction instance as [|[k0 w] r IH]; cbn [setattr dict_get].
  - rewrite Hk. reflexivity.
  - destruct (String.eqb k k0) eqn:He; cbn [dict_get].
    + apply String.eqb_eq in He. subst k0. rewrite Hk. reflexivity.
    + destruct (String.eqb k' k0); [reflexivity|exact IH].
Qed.

Lemma MoneyWithVAT_init_decimals (n t : Decimal) :
  MoneyWithVAT_init (ArgDecimal n) (ArgDecimal t)
  = Ok (MoneyWithVAT_of_decimals n t).
Proof.
  unfold MoneyWithVAT_init, MoneyWithVAT_of_decimals, arg_truthy.
  destruct (is_zero n), (is_zero t); reflexivity.
Qed.

Lemma MoneyWithVAT_of_decimals_eq (v : MoneyWithVAT) :
  MoneyWithVAT_eq (MoneyWithVAT_of_decimals (amount (net v)) (amount (tax v))) v
  = true.
Proof.
  unfold MoneyWithVAT_eq, Money_eq, MoneyWithVAT_of_decimals. cbn [net tax amount].
  rewrite !normalized_zero_eqb. reflexivity.
Qed.

(** X24: what is assigned to a [MoneyWithVATField] is what is read back.
    On an instance with plain attributes and for two different attribute
    names, reading after assigning a value gives an equal value (a zero
    amount comes back as [Decimal(0)]); assigning [None] reads back as
    [MoneyWithVAT(0, 0)] for the plain field and as [None] for the nullable
    one; the nullable field treats a single [None] attribute as zero; no
    other attribute is touched; and reading from an instance that lacks an
    attribute raises [AttributeError]. *)
Theorem MoneyWithVATField_set_get (self : MoneyWithVATField)
    (instance : attributes) (v : MoneyWithVAT) :
  net_field self <> tax_field self ->
  let stored :=
    MoneyWithVAT_of_decimals (amount (net v)) (amount (tax v)) in
  MoneyWithVAT_eq stored v = true /\
  MoneyWithVATField___get__ self
    (MoneyWithVATField___set__ self instance (Some v)) = Ok stored /\
  MoneyWithVATField___get__ self
    (MoneyWithVATField___set__ self instance None)
  = Ok (MoneyWithVAT_of_ints 0 0) /\
  MoneyWithVATFieldNullable___get__ self
    (MoneyWithVATFieldNullable___set__ self instance (Some v))
  = Ok (Some stored) /\
  MoneyWithVATFieldNullable___get__ self
    (MoneyWithVATFieldNullable___set__ self instance None) = Ok None /\
  (forall t : Decimal,
      MoneyWithVATFieldNullable___get__ self
        (setattr (setattr instance (net_field self) ArgNone)
                 (tax_field self) (ArgDecimal t))
      = Ok (Some (MoneyWithVAT_of_decimals (of_int 0) t))) /\
  (forall (k : string) (o : option MoneyWithVAT),
      k <> net_field self -> k <> tax_field self ->
      getattr (MoneyWithVATField___set__ self instance o) k
      = getattr instance k /\
      getattr (MoneyWithVATFieldNullable___set__ self instance o) k
      = getattr instance k) /\
  (dict_get instance (net_field self) = None ->
   MoneyWithVATField___get__ self instance = Raise AttributeError /\
   MoneyWithVATFieldNullable___get__ self instance = Raise AttributeError).
Proof.
  intros Hne stored.
  assert (Hget : forall a b,
             getattr (setattr (setattr instance (net_field self) a)
                              (tax_field self) b) (net_field self) = Ok a /\
             getattr (setattr (setattr instance (net_field self) a)
                              (tax_field self) b) (tax_field self) = Ok b).
  { intros a b. unfold getattr.
    rewrite dict_get_setattr_other by exact Hne.
    rewrite !dict_get_setattr_same. split; reflexivity. }
  split; [apply MoneyWithVAT_of_decimals_eq|].
  split; [|split; [|split; [|split; [|split; [|split]]]]].
  - unfold MoneyWithVATField___get__, MoneyWithVATField___set__.
    destruct (Hget (ArgDecimal (amount (net v))) (ArgDecimal (amount (tax v))))
      as [-> ->].
    cbn [bind]. apply MoneyWithVAT_init_decimals.
  - unfold MoneyWithVATField___get__, MoneyWithVATField___set__.
    destruct (Hget (ArgDecimal (of_int 0)) (ArgDecimal (of_int 0))) as [-> ->].
    reflexivity.
  - unfold MoneyWithVATFieldNullable___get__, MoneyWithVATFieldNullable___set__.
    destruct (Hget (ArgDecimal (amount (net v))) (ArgDecimal (amount (tax v))))
      as [-> ->].
    cbn [bind is_ArgNone andb]. rewrite MoneyWithVAT_init_decimals. reflexivity.
  - unfold MoneyWithVATFieldNullable___get__, MoneyWithVATFieldNullable___set__.
    destruct (Hget ArgNone ArgNone) as [-> ->]. reflexivity.
  - intros t. unfold MoneyWithVATFieldNullable___get__.
    destruct (Hget ArgNone (ArgDecimal t)) as [-> ->].
    cbn [bind is_ArgNone andb].
    unfold MoneyWithVAT_init, MoneyWithVAT_of_decimals, arg_truthy.
    destruct (is_zero t); reflexivity.
  - intros k o Hk1 Hk2.
    unfold MoneyWithVATField___set__, MoneyWithVATFieldNullable___set__, getattr.
    destruct o as [w|]; rewrite !dict_get_setattr_other by assumption;
      split; reflexivity.
  - intros Hmiss.
    unfold MoneyWithVATField___get__, MoneyWithVATFieldNullable___get__, getattr.
    rewrite Hmiss. split; reflexivity.
Qed.

Lemma MoneyWithVATField_set_get_witness :
  net_field (mkField "net_amount" "tax_amount")
    <> tax_field (mkField "net_amount" "tax_amount") /\
  MoneyWithVATField___get__ (mkField "net_amount" "tax_amount")
    (MoneyWithVATField___set__ (mkField "net_amount" "tax_amount") []
       (Some (MoneyWithVAT_of_ints 100 19)))
  = Ok (MoneyWithVAT_of_decimals (of_int 100) (of_int 19)).
Proof.
  assert (Hne : net_field (mkField "net_amount" "tax_amount")
                <> tax_field (mkField "net_amount" "tax_amount"))
    by (cbn; discriminate).
  split; [exact Hne|].
  destruct (MoneyWithVATField_set_get (mkField "net_amount" "tax_amount") []
              (MoneyWithVAT_of_ints 100 19) Hne) as (_ & H & _).
  exact H.
Defined.

(** X25: [_MoneyFieldProxy.__get__] converts once.  A missing entry is a
    [KeyError] and a stored [None] is returned as [None]; when an access
    returns a [Money], the dict then holds that [Money] under the name,
    every other entry is unchanged, and a second access returns the same
    [Money] and leaves the dict as it is.  A stored [Decimal] comes back as
    the [Money] of that amount. *)
Theorem MoneyFieldProxy_get_caches (name : string) (dict_ : attributes) :
  (dict_get dict_ name = None ->
   _MoneyFieldProxy___get__ name dict_ = KeyError) /\
  (dict_get dict_ name = Some ArgNone ->
   _MoneyFieldProxy___get__ name dict_ = Accessed (Ok (None, dict_))) /\
  (forall d, dict_get dict_ name = Some (ArgDecimal d) ->
   exists dict', _MoneyFieldProxy___get__ name dict_
                 = Accessed (Ok (Some (mkMoney d), dict'))) /\
  (forall (m : Money) (dict' : attributes),
      _MoneyFieldProxy___get__ name dict_ = Accessed (Ok (Some m, dict')) ->
      dict_get dict' name = Some (ArgMoney m) /\
      (forall k, k <> name -> dict_get dict' k = dict_get dict_ k) /\
      _MoneyFieldProxy___get__ name dict' = Accessed (Ok (Some m, dict'))).
Proof.
  unfold _MoneyFieldProxy___get__.
  split; [intros ->; reflexivity|]. split; [intros ->; reflexivity|].
  split; [intros d ->; eexists; reflexivity|].
  intros m dict' H.
  assert (Hcached : forall v, Money_init v = Ok m ->
             dict' = setattr dict_ name (ArgMoney m) ->
             dict_get dict' name = Some (ArgMoney m) /\
             (forall k, k <> name -> dict_get dict' k = dict_get dict_ k) /\
             match dict_get dict' name with
             | None => KeyError
             | Some ArgNone => Accessed (Ok (None, dict'))
             | Some (ArgMoney m0) => Accessed (Ok (Some m0, dict'))
             | Some v0 =>
                 Accessed (m0 <- Money_init v0 ;;
                           Ok (Some m0, setattr dict' name (ArgMoney m0)))
             end = Accessed (Ok (Some m, dict'))).
  { intros v Hv ->. rewrite dict_get_setattr_same.
    split; [reflexivity|]. split; [|reflexivity].
    intros k Hk. apply dict_get_setattr_other. exact Hk. }
  destruct (dict_get dict_ name) as [[| z | s | d | m0]|] eqn:Hg;
    try discriminate.
  - cbn [Money_init bind] in H. injection H as Hm Hd.
    apply (Hcached (ArgInt z)); [cbn [Money_init]|]; congruence.
  - destruct (Money_init (ArgStr s)) as [m1|e] eqn:Hm; cbn [bind] in H;
      [|discriminate].
    injection H as Hm1 Hd. apply (Hcached (ArgStr s)); congruence.
  - cbn [Money_init bind] in H. injection H as Hm Hd.
    apply (Hcached (ArgDecimal d)); [cbn [Money_init]|]; congruence.
  - injection H as -> ->. rewrite Hg. auto.
Qed.

Lemma MoneyFieldProxy_get_caches_witness :
  _MoneyFieldProxy___get__ "net_amount"
    [("net_amount"%string, ArgDecimal (mk false 1050 (-2)));
     ("tax_amount"%string, ArgDecimal (mk false 200 (-2)))]
  = Accessed
      (Ok (Some (mkMoney (mk false 1050 (-2))),
           [("net_amount"%string, ArgMoney (mkMoney (mk false 1050 (-2))));
            ("tax_amount"%string, ArgDecimal (mk false 200 (-2)))])) /\
  dict_get [("net_amount"%string, ArgMoney (mkMoney (mk false 1050 (-2))));
            ("tax_amount"%string, ArgDecimal (mk false 200 (-2)))]
           "net_amount"
  = Some (ArgMoney (mkMoney (mk false 1050 (-2)))) /\
  _MoneyFieldProxy___get__ "net_amount"
    [("net_amount"%string, ArgMoney (mkMoney (mk false 1050 (-2))));
     ("tax_amount"%string, ArgDecimal (mk false 200 (-2)))]
  = Accessed
      (Ok (Some (mkMoney (mk false 1050 (-2))),
           [("net_amount"%string, ArgMoney (mkMoney (mk false 1050 (-2))));
            ("tax_amount"%string, ArgDecimal (mk false 200 (-2)))])).
Proof.
  assert (H1 : _MoneyFieldProxy___get__ "net_amount"
                 [("net_amount"%string, ArgDecimal (mk false 1050 (-2)));
                  ("tax_amount"%string, ArgDecimal (mk false 200 (-2)))]
               = Accessed
                   (Ok (Some (mkMoney (mk false 1050 (-2))),
                        [("net_amount"%string,
                          ArgMoney (mkMoney (mk false 1050 (-2))));
                         ("tax_amount"%string,
                          ArgDecimal (mk false 200 (-2)))])))
    by reflexivity.
  split; [exact H1|].
  destruct (MoneyFieldProxy_get_caches "net_amount"
              [("net_amount"%string, ArgDecimal (mk false 1050 (-2)));
               ("tax_amount"%string, ArgDecimal (mk false 200 (-2)))])
    as (_ & _ & _ & Hcache).
  destruct (Hcache _ _ H1) as (Hstored & _ & Hagain).
  split; [exact Hstored|exact Hagain].
Defined.

(** * Sign and tax rate *)

Lemma mul_minus_one (d : Decimal) :
  Z.of_N (d_int d) < 10 ^ prec ->
  mul d (of_int (-1)) = mk (negb (d_sign d)) (d_int d) (d_exp d).
Proof.
  intros Hfit. unfold mul, fix_. change (of_int (-1)) with (mk true 1 0).
  cbn [d_sign d_int d_exp].
  rewrite xorb_true_r, N.mul_1_r, Z.add_0_r.
  apply fix_in_small. exact Hfit.
Qed.

(** Division looks at the signs of its operands only through their
    product. *)
Lemma div_flip_both (a b : Decimal) :
  div (mk (negb (d_sign a)) (d_int a) (d_exp a))
      (mk (negb (d_sign b)) (d_int b) (d_exp b))
  = div a b.
Proof.
  unfold div, is_zero. cbn [d_sign d_int d_exp].
  rewrite <- negb_xorb_l, <- negb_xorb_r, negb_involutive. reflexivity.
Qed.

(** X26: [tax_rate].  With a zero net it is [Decimal(0)], whatever the
    tax, and a value whose tax equals its non-zero net has the rate 1.
    For a value with a non-zero net within the limits (exponent and first
    digit of both amounts between 1E-300000 and 1E+300000) it does not
    fail: it is the quotient of tax and net, a result of the context, and
    it is zero when the tax is.  Negating a value within the limits whose
    amounts fit 28 digits gives a value within the limits with the same
    tax rate. *)
Theorem tax_rate_spec (m : MoneyWithVAT) :
  (Money_bool (net m) = false -> tax_rate m = Ok (of_int 0)) /\
  (Money_bool (net m) = true -> MoneyWithVAT_within_limits m = true ->
   exists q, tax_rate m = Ok q /\ Money_div (tax m) (net m) = Ok q /\
             in_context q = true /\
             (Money_bool (tax m) = false -> is_zero q = true)) /\
  (Money_bool (net m) = true -> tax m = net m ->
   tax_rate m = Ok (mk false 1 0)) /\
  (Money_fits (net m) -> Money_fits (tax m) ->
   MoneyWithVAT_within_limits m = true ->
   MoneyWithVAT_within_limits (MoneyWithVAT_neg m) = true /\
   tax_rate (MoneyWithVAT_neg m) = tax_rate m).
Proof.
  unfold tax_rate, Money_bool, Money_div. rewrite eqb_zero.
  split; [|split; [|split]].
  - intros H. apply negb_false_iff in H. rewrite H. reflexivity.
  - intros H Hm. apply negb_true_iff in H. rewrite H.
    unfold MoneyWithVAT_within_limits in Hm.
    apply andb_prop in Hm. destruct Hm as [Hmn Hmt].
    destruct (div_nonzero_divisor (amount (tax m)) (amount (net m)) H)
      as [q Hq].
    destruct (div_in_context _ _ q Hmt Hmn H Hq) as (Hcq & _).
    exists q. split; [exact Hq|]. split; [exact Hq|]. split; [exact Hcq|].
    intros Ht. apply negb_false_iff in Ht.
    unfold div in Hq. rewrite H, Ht in Hq. injection Hq as <-.
    unfold fix_. rewrite fix_in_zero. reflexivity.
  - intros H Heq. apply negb_true_iff in H. rewrite H, Heq.
    apply div_self. exact H.
  - intros Hn Ht Hm. unfold MoneyWithVAT_within_limits, MoneyWithVAT_neg,
      Money_mul in *. cbn [net tax amount].
    rewrite eqb_zero, !mul_minus_one by assumption.
    split; [exact Hm|]. rewrite div_flip_both. reflexivity.
Qed.

Lemma tax_rate_spec_witness :
  Money_bool (net (MoneyWithVAT_of_ints 100 19)) = true /\
  MoneyWithVAT_within_limits (MoneyWithVAT_of_ints 100 19) = true /\
  exists q,
    tax_rate (MoneyWithVAT_of_ints 100 19) = Ok q /\
    Money_div (tax (MoneyWithVAT_of_ints 100 19))
              (net (MoneyWithVAT_of_ints 100 19)) = Ok q /\
    in_context q = true /\
    (Money_bool (tax (MoneyWithVAT_of_ints 100 19)) = false ->
     is_zero q = true).
Proof.
  assert (Hb : Money_bool (net (MoneyWithVAT_of_ints 100 19)) = true)
    by (vm_compute; reflexivity).
  assert (Hm : MoneyWithVAT_within_limits (MoneyWithVAT_of_ints 100 19) = true)
    by (vm_compute; reflexivity).
  split; [exact Hb|]. split; [exact Hm|].
  destruct (tax_rate_spec (MoneyWithVAT_of_ints 100 19)) as (_ & H & _).
  exact (H Hb Hm).
Defined.

Lemma ltb_zero (d : Decimal) : ltb d (of_int 0) = (sval d <? 0).
Proof.
  pose proof (pow10_pos (d_exp d - Z.min (d_exp d) 0) ltac:(lia)) as Hp.
  pose proof (ltb_at d (of_int 0) (Z.min (d_exp d) 0) ltac:(lia)
                ltac:(cbn; lia)) as H.
  change (sval (of_int 0)) with 0 in H. rewrite Z.mul_0_l in H.
  destruct (Z.ltb_spec (sval d) 0) as [Hlt|Hge].
  - apply H. nia.
  - destruct (ltb d (of_int 0)); [|reflexivity].
    assert (sval d * 10 ^ (d_exp d - Z.min (d_exp d) 0) < 0) by (apply H; reflexivity).
    nia.
Qed.

Lemma gtb_zero (d : Decimal) : gtb d (of_int 0) = (0 <? sval d).
Proof.
  pose proof (pow10_pos (d_exp d - Z.min (d_exp d) 0) ltac:(lia)) as Hp.
  pose proof (gtb_at d (of_int 0) (Z.min (d_exp d) 0) ltac:(lia)
                ltac:(cbn; lia)) as H.
  change (sval (of_int 0)) with 0 in H. rewrite Z.mul_0_l in H.
  destruct (Z.ltb_spec 0 (sval d)) as [Hlt|Hge].
  - apply H. nia.
  - destruct (gtb d (of_int 0)); [|reflexivity].
    assert (sval d * 10 ^ (d_exp d - Z.min (d_exp d) 0) > 0) by (apply H; reflexivity).
    nia.
Qed.

(** The sum of two sign-flipped decimals is the sign-flipped sum. *)
Lemma add_flip_both (a b : Decimal) :
  sval (add (mk (negb (d_sign a)) (d_int a) (d_exp a))
            (mk (negb (d_sign b)) (d_int b) (d_exp b)))
  = - sval (add a b).
Proof.
  unfold add, exact_add. cbv zeta. cbn [d_exp].
  assert (Hs : aligned_sum (mk (negb (d_sign a)) (d_int a) (d_exp a))
                           (mk (negb (d_sign b)) (d_int b) (d_exp b))
               = - aligned_sum a b).
  { unfold aligned_sum, sval. cbn [d_sign d_int d_exp].
    destruct (d_sign a), (d_sign b); cbn [negb]; lia. }
  rewrite Hs. set (z := aligned_sum a b). set (e := Z.min (d_exp a) (d_exp b)).
  destruct (Z.eqb_spec z 0) as [Hz|Hnz].
  - rewrite Hz. cbn [Z.opp Z.eqb]. unfold fix_. rewrite !fix_in_zero.
    rewrite !sval_mk. destruct (_ && _), (_ && _); reflexivity.
  - destruct (Z.eqb_spec (- z) 0) as [|_]; [lia|].
    unfold of_Z, fix_.
    replace (Z.abs_N (- z)) with (Z.abs_N z)
      by (apply N2Z.inj; rewrite !N2Z.inj_abs_N; lia).
    rewrite (fix_in_sign prec (- z <? 0) false),
            (fix_in_sign prec (z <? 0) false).
    rewrite !sval_mk.
    destruct (Z.ltb_spec (- z) 0), (Z.ltb_spec z 0); lia.
Qed.

(** X27: the sign of a [MoneyWithVAT] is the sign of its gross amount:
    [is_negative] and [is_positive] are never both true, both are false
    exactly when the gross amount is zero, [is_negative] is the comparison
    [m < MoneyWithVAT(0, 0)], and negating a value whose amounts fit 28
    digits swaps the two. *)
Theorem is_negative_is_positive (m : MoneyWithVAT) :
  (is_negative m && is_positive m = false) /\
  (is_negative m || is_positive m = Money_bool (gross m)) /\
  is_negative m = MoneyWithVAT_lt m (MoneyWithVAT_of_ints 0 0) /\
  is_positive m = MoneyWithVAT_gt m (MoneyWithVAT_of_ints 0 0) /\
  (Money_fits (net m) -> Money_fits (tax m) ->
   is_negative (MoneyWithVAT_neg m) = is_positive m /\
   is_positive (MoneyWithVAT_neg m) = is_negative m).
Proof.
  unfold is_negative, is_positive.
  split; [|split; [|split; [|split]]].
  - rewrite ltb_zero, gtb_zero.
    destruct (Z.ltb_spec (sval (amount (gross m))) 0),
             (Z.ltb_spec 0 (sval (amount (gross m)))); try reflexivity; lia.
  - rewrite ltb_zero, gtb_zero. unfold Money_bool.
    destruct (is_zero (amount (gross m))) eqn:Hz.
    + apply is_zero_spec in Hz. rewrite Hz. reflexivity.
    + apply is_zero_false in Hz.
      destruct (Z.ltb_spec (sval (amount (gross m))) 0),
               (Z.ltb_spec 0 (sval (amount (gross m)))); try reflexivity; lia.
  - reflexivity.
  - reflexivity.
  - intros Hn Ht. rewrite !ltb_zero, !gtb_zero.
    assert (Hg : sval (amount (gross (MoneyWithVAT_neg m)))
                 = - sval (amount (gross m))).
    { unfold gross, MoneyWithVAT_neg, Money_add, Money_mul.
      cbn [net tax amount]. rewrite !mul_minus_one by assumption.
      apply add_flip_both. }
    rewrite Hg.
    destruct (Z.ltb_spec (- sval (amount (gross m))) 0),
             (Z.ltb_spec 0 (sval (amount (gross m)))),
             (Z.ltb_spec 0 (- sval (amount (gross m)))),
             (Z.ltb_spec (sval (amount (gross m))) 0);
      try (split; reflexivity); lia.
Qed.

Lemma is_negative_is_positive_witness :
  Money_fits (net (MoneyWithVAT_of_ints 100 19)) /\
  is_negative (MoneyWithVAT_neg (MoneyWithVAT_of_ints 100 19))
  = is_positive (MoneyWithVAT_of_ints 100 19).
Proof.
  assert (Hn : Money_fits (net (MoneyWithVAT_of_ints 100 19)))
    by (vm_compute; reflexivity).
  split; [exact Hn|].
  destruct (is_negative_is_positive (MoneyWithVAT_of_ints 100 19))
    as (_ & _ & _ & _ & H).
  destruct (H Hn) as [Hneg _]; [vm_compute; reflexivity|exact Hneg].
Defined.

(** * Constructors and the additive structure of MoneyWithVAT *)

(** X28: the constructor of [MoneyWithVAT].  A [Money] argument is stored
    as it is; any other argument that is falsy ([None], the int 0, the
    empty string, a zero [Decimal]) becomes [Money(0)], so that
    [MoneyWithVAT(None, None)] is [MoneyWithVAT(0, 0)]; an int or a
    non-zero [Decimal] is stored exactly; and the constructor fails only
    with [InvalidOperation], and only when an argument is a non-empty
    string. *)
Theorem MoneyWithVAT_init_spec :
  (forall n t : Money,
      MoneyWithVAT_init (ArgMoney n) (ArgMoney t) = Ok (mkMoneyWithVAT n t)) /\
  (forall a b : amount_arg,
      (forall m, a <> ArgMoney m) -> (forall m, b <> ArgMoney m) ->
      arg_truthy a = false -> arg_truthy b = false ->
      MoneyWithVAT_init a b = Ok (MoneyWithVAT_of_ints 0 0)) /\
  (forall n t : Z,
      MoneyWithVAT_init (ArgInt n) (ArgInt t) = Ok (MoneyWithVAT_of_ints n t)) /\
  (forall n t : Decimal,
      MoneyWithVAT_init (ArgDecimal n) (ArgDecimal t)
      = Ok (MoneyWithVAT_of_decimals n t)) /\
  (forall (a b : amount_arg) (e : exn),
      MoneyWithVAT_init a b = Raise e ->
      e = InvalidOperation /\
      ((exists s, a = ArgStr s /\ s <> EmptyString) \/
       (exists s, b = ArgStr s /\ s <> EmptyString))).
Proof.
  split; [reflexivity|]. split; [|split; [|split]].
  - intros a b Ha Hb Hta Htb. unfold MoneyWithVAT_init.
    rewrite Hta, Htb.
    destruct a; try (destruct (Ha m eq_refl));
      destruct b; try (destruct (Hb m eq_refl)); reflexivity.
  - intros n t. unfold MoneyWithVAT_init, MoneyWithVAT_of_ints, arg_truthy.
    destruct (Z.eqb_spec n 0) as [->|_], (Z.eqb_spec t 0) as [->|_];
      reflexivity.
  - exact MoneyWithVAT_init_decimals.
  - assert (Hone : forall a e,
               match a with
               | ArgMoney m => Ok m
               | _ => Money_init (if arg_truthy a then a else ArgInt 0)
               end = Raise e ->
               e = InvalidOperation /\ exists s, a = ArgStr s /\ s <> EmptyString).
    { intros a e. destruct a as [| z | s | d | m]; cbn [arg_truthy].
      - discriminate.
      - destruct (negb (z =? 0)); discriminate.
      - destruct s as [|c s]; [discriminate|]. cbn [nonempty Money_init].
        destruct (of_string (String c s)) as [d|x] eqn:Hs; [discriminate|].
        intros [= <-]. split; [|exists (String c s); split; [reflexivity|discriminate]].
        unfold of_string in Hs.
        destruct (split_sign _) as [sg s1]. destruct (span_digits s1) as [i s2].
        destruct (match s2 with
                  | EmptyString => _
                  | String c0 r => _
                  end) as [f s3].
        destruct (nonempty i || nonempty f); [|congruence].
        destruct (parse_exponent s3); congruence.
      - destruct (negb (is_zero d)); discriminate.
      - discriminate. }
    intros a b e. unfold MoneyWithVAT_init.
    destruct (match a with
              | ArgMoney m => Ok m
              | _ => Money_init (if arg_truthy a then a else ArgInt 0)
              end) as [n|x] eqn:Hn; cbn [bind].
    + destruct (match b with
                | ArgMoney m => Ok m
                | _ => Money_init (if arg_truthy b then b else ArgInt 0)
                end) as [t|x] eqn:Ht; cbn [bind]; [discriminate|].
      intros [= <-]. destruct (Hone b x Ht) as [-> Hs]. auto.
    + intros [= <-]. destruct (Hone a x Hn) as [-> Hs]. auto.
Qed.

Lemma MoneyWithVAT_init_spec_witness :
  MoneyWithVAT_init ArgNone (ArgStr "") = Ok (MoneyWithVAT_of_ints 0 0).
Proof.
  destruct MoneyWithVAT_init_spec as (_ & H & _).
  apply H; try reflexivity; intros m; discriminate.
Defined.

(** X29: the additive structure of [MoneyWithVAT].  Addition is
    commutative; for a value whose amounts fit 28 digits, adding
    [MoneyWithVAT(0, 0)] gives an equal value, the negation is the value
    with both signs flipped, negating twice gives the value back, and
    [m - m] is falsy and equal to [MoneyWithVAT(0, 0)]. *)
Theorem MoneyWithVAT_add_neg_spec (m : MoneyWithVAT) :
  (forall o, MoneyWithVAT_add m o = MoneyWithVAT_add o m) /\
  (Money_fits (net m) -> Money_fits (tax m) ->
   MoneyWithVAT_eq (MoneyWithVAT_add m (MoneyWithVAT_of_ints 0 0)) m = true /\
   MoneyWithVAT_neg (MoneyWithVAT_neg m) = m /\
   Money_eq (gross (MoneyWithVAT_neg m)) (Money_neg (gross m)) = true /\
   MoneyWithVAT_bool (MoneyWithVAT_sub m m) = false /\
   MoneyWithVAT_eq (MoneyWithVAT_sub m m) (MoneyWithVAT_of_ints 0 0) = true).
Proof.
  split.
  - intros o. unfold MoneyWithVAT_add, Money_add.
    rewrite (add_comm (amount (net m))), (add_comm (amount (tax m))).
    reflexivity.
  - intros Hn Ht. unfold Money_fits in Hn, Ht.
    assert (Hneg : MoneyWithVAT_neg m
                   = mkMoneyWithVAT
                       (mkMoney (mk (negb (d_sign (amount (net m))))
                                    (d_int (amount (net m)))
                                    (d_exp (amount (net m)))))
                       (mkMoney (mk (negb (d_sign (amount (tax m))))
                                    (d_int (amount (tax m)))
                                    (d_exp (amount (tax m)))))).
    { unfold MoneyWithVAT_neg, Money_mul.
      rewrite !mul_minus_one by assumption. reflexivity. }
    assert (Hcancel : forall d, Z.of_N (d_int d) < 10 ^ prec ->
               is_zero (add d (mk (negb (d_sign d)) (d_int d) (d_exp d)))
               = true).
    { intros d Hd. apply is_zero_spec.
      assert (Hsum : aligned_sum d (mk (negb (d_sign d)) (d_int d) (d_exp d))
                     = 0).
      { unfold aligned_sum, sval. cbn [d_sign d_int d_exp].
        rewrite Z.min_id, Z.sub_diag. destruct (d_sign d); cbn [negb]; lia. }
      destruct (add_exact d (mk (negb (d_sign d)) (d_int d) (d_exp d)))
        as [_ Hs]; [rewrite Hsum; reflexivity|].
      rewrite Hs. exact Hsum. }
    split; [|split; [|split; [|split]]].
    + unfold MoneyWithVAT_eq, MoneyWithVAT_add, Money_eq, Money_add,
        MoneyWithVAT_of_ints. cbn [net tax amount].
      rewrite !add_zero_r by (reflexivity || assumption). reflexivity.
    + rewrite Hneg. unfold MoneyWithVAT_neg, Money_mul. cbn [net tax amount].
      rewrite !mul_minus_one by (cbn [d_int]; assumption).
      cbn [d_sign d_int d_exp]. rewrite !negb_involutive.
      destruct m as [[[s1 n1 e1]] [[s2 n2 e2]]]. reflexivity.
    + rewrite Hneg. unfold Money_eq, gross, Money_add, Money_neg.
      cbn [net tax amount].
      set (g := add (amount (net m)) (amount (tax m))).
      assert (Hgfit : Z.of_N (d_int g) < 10 ^ prec) by apply add_bound.
      destruct (neg_exact g Hgfit) as (He & Hs & _).
      assert (Hexp : d_exp (add (mk (negb (d_sign (amount (net m))))
                                    (d_int (amount (net m)))
                                    (d_exp (amount (net m))))
                                (mk (negb (d_sign (amount (tax m))))
                                    (d_int (amount (tax m)))
                                    (d_exp (amount (tax m)))))
                     = d_exp g).
      { unfold g, add, exact_add, fix_. cbv zeta. cbn [d_exp].
        assert (Hs' : aligned_sum
                        (mk (negb (d_sign (amount (net m))))
                            (d_int (amount (net m))) (d_exp (amount (net m))))
                        (mk (negb (d_sign (amount (tax m))))
                            (d_int (amount (tax m))) (d_exp (amount (tax m))))
                      = - aligned_sum (amount (net m)) (amount (tax m))).
        { unfold aligned_sum, sval. cbn [d_sign d_int d_exp].
          destruct (d_sign (amount (net m))), (d_sign (amount (tax m)));
            cbn [negb]; lia. }
        rewrite Hs'.
        set (z := aligned_sum (amount (net m)) (amount (tax m))).
        destruct (Z.eqb_spec z 0) as [Hz|Hnz].
        - rewrite Hz. cbn [Z.opp Z.eqb]. rewrite !fix_in_zero. reflexivity.
        - destruct (Z.eqb_spec (- z) 0) as [|_]; [lia|].
          unfold of_Z.
          replace (Z.abs_N (- z)) with (Z.abs_N z)
            by (apply N2Z.inj; rewrite !N2Z.inj_abs_N; lia).
          rewrite (fix_in_sign prec (- z <? 0) (z <? 0)). reflexivity. }
      apply (eqb_at _ _ (d_exp g)); [lia|lia|].
      rewrite add_flip_both, Hexp, Hs, He. reflexivity.
    + unfold MoneyWithVAT_sub. rewrite Hneg.
      unfold MoneyWithVAT_bool, MoneyWithVAT_add, Money_bool, Money_add.
      cbn [net tax amount]. rewrite !Hcancel by assumption. reflexivity.
    + unfold MoneyWithVAT_sub. rewrite Hneg.
      unfold MoneyWithVAT_eq, MoneyWithVAT_add, Money_eq, Money_add,
        MoneyWithVAT_of_ints.
      cbn [net tax amount]. rewrite !eqb_zero, !Hcancel by assumption.
      reflexivity.
Qed.

Lemma MoneyWithVAT_add_neg_spec_witness :
  Money_fits (net (MoneyWithVAT_of_ints 100 19)) /\
  MoneyWithVAT_bool (MoneyWithVAT_sub (MoneyWithVAT_of_ints 100 19)
                                      (MoneyWithVAT_of_ints 100 19)) = false.
Proof.
  assert (Hn : Money_fits (net (MoneyWithVAT_of_ints 100 19)))
    by (vm_compute; reflexivity).
  split; [exact Hn|].
  destruct (MoneyWithVAT_add_neg_spec (MoneyWithVAT_of_ints 100 19)) as [_ H].
  destruct (H Hn) as (_ & _ & _ & Hsub & _); [vm_compute; reflexivity|].
  exact Hsub.
Defined.

(** * Scalar multiplication *)

(** X30: multiplication of a [MoneyWithVAT] by a number.  For a value and
    an int or a [Decimal] within the limits (exponent and first digit
    between 1E-300000 and 1E+300000), the product does not fail: it
    multiplies net and tax, both products are results of the context, and
    it is falsy exactly when the value is falsy or the number is zero.
    Multiplying a value within the limits whose amounts fit 28 digits by
    one returns it unchanged.  A right operand that is a [Money], [None],
    a string, a list or a dict raises [TypeError], and so does a
    [MoneyWithVAT] within the limits. *)
Theorem MoneyWithVAT_mul_spec (m : MoneyWithVAT) :
  (forall d,
      within_limits d = true -> MoneyWithVAT_within_limits m = true ->
      py_binop Mul (VMoneyWithVAT m) (VDecimal d)
      = Ok (VMoneyWithVAT (MoneyWithVAT_mul m d)) /\
      in_context (amount (net (MoneyWithVAT_mul m d))) = true /\
      in_context (amount (tax (MoneyWithVAT_mul m d))) = true /\
      MoneyWithVAT_bool (MoneyWithVAT_mul m d)
      = MoneyWithVAT_bool m && negb (is_zero d)) /\
  (forall z,
      within_limits (of_int z) = true -> MoneyWithVAT_within_limits m = true ->
      py_binop Mul (VMoneyWithVAT m) (VInt z)
      = Ok (VMoneyWithVAT (MoneyWithVAT_mul m (of_int z))) /\
      in_context (amount (net (MoneyWithVAT_mul m (of_int z)))) = true /\
      in_context (amount (tax (MoneyWithVAT_mul m (of_int z)))) = true /\
      MoneyWithVAT_bool (MoneyWithVAT_mul m (of_int z))
      = MoneyWithVAT_bool m && negb (z =? 0)) /\
  (Money_fits (net m) -> Money_fits (tax m) ->
   MoneyWithVAT_within_limits m = true ->
   py_binop Mul (VMoneyWithVAT m) (VInt 1) = Ok (VMoneyWithVAT m)) /\
  (forall v,
      match v with
      | VNone | VNotImplemented | VStr _ | VMoney _ | VList _ | VDict _ => True
      | _ => False
      end ->
      py_binop Mul (VMoneyWithVAT m) v = Raise TypeError) /\
  (forall o,
      MoneyWithVAT_within_limits m = true ->
      MoneyWithVAT_within_limits o = true ->
      py_binop Mul (VMoneyWithVAT m) (VMoneyWithVAT o) = Raise TypeError).
Proof.
  assert (Hprod : forall d,
             within_limits d = true -> MoneyWithVAT_within_limits m = true ->
             in_context (amount (net (MoneyWithVAT_mul m d))) = true /\
             in_context (amount (tax (MoneyWithVAT_mul m d))) = true /\
             MoneyWithVAT_bool (MoneyWithVAT_mul m d)
             = MoneyWithVAT_bool m && negb (is_zero d)).
  { intros d Hd Hm. unfold MoneyWithVAT_within_limits in Hm.
    apply andb_prop in Hm. destruct Hm as [Hmn Hmt].
    destruct (within_limits_bounds _ Hd) as (Hed & _ & Had).
    destruct (within_limits_bounds _ Hmn) as (Hen & _ & Han).
    destruct (within_limits_bounds _ Hmt) as (Het & _ & Hat).
    unfold MoneyWithVAT_bool, MoneyWithVAT_mul, Money_bool, Money_mul.
    cbn [net tax amount].
    split; [|split].
    - apply (mul_in_context _ _ 300000); unfold Emax; lia.
    - apply (mul_in_context _ _ 300000); unfold Emax; lia.
    - rewrite !mul_is_zero.
      destruct (is_zero (amount (net m))), (is_zero (amount (tax m))),
        (is_zero d); reflexivity. }
  split; [|split; [|split; [|split]]].
  - intros d Hd Hm. split; [reflexivity|]. exact (Hprod d Hd Hm).
  - intros z Hz Hm. split; [reflexivity|].
    destruct (Hprod (of_int z) Hz Hm) as (Hn & Ht & Hb).
    split; [exact Hn|]. split; [exact Ht|]. rewrite Hb.
    replace (is_zero (of_int z)) with (z =? 0); [reflexivity|].
    destruct z; reflexivity.
  - intros Hn Ht _.
    change (py_binop Mul (VMoneyWithVAT m) (VInt 1))
      with (Ok (VMoneyWithVAT (MoneyWithVAT_mul m (mk false 1 0)))
            : result value).
    unfold MoneyWithVAT_mul, Money_mul. rewrite !mul_one_r by assumption.
    destruct m as [[n] [t]]. reflexivity.
  - intros v Hv. destruct v; try contradiction; reflexivity.
  - intros o _ _. reflexivity.
Qed.

Lemma MoneyWithVAT_mul_spec_witness :
  within_limits (mk false 15 (-1)) = true /\
  MoneyWithVAT_within_limits (MoneyWithVAT_of_ints 100 19) = true /\
  py_binop Mul (VMoneyWithVAT (MoneyWithVAT_of_ints 100 19))
           (VDecimal (mk false 15 (-1)))
  = Ok (VMoneyWithVAT
          (MoneyWithVAT_mul (MoneyWithVAT_of_ints 100 19) (mk false 15 (-1)))) /\
  in_context
    (amount (net (MoneyWithVAT_mul (MoneyWithVAT_of_ints 100 19)
                                   (mk false 15 (-1))))) = true /\
  in_context
    (amount (tax (MoneyWithVAT_mul (MoneyWithVAT_of_ints 100 19)
                                   (mk false 15 (-1))))) = true /\
  MoneyWithVAT_bool
    (MoneyWithVAT_mul (MoneyWithVAT_of_ints 100 19) (mk false 15 (-1)))
  = MoneyWithVAT_bool (MoneyWithVAT_of_ints 100 19)
    && negb (is_zero (mk false 15 (-1))).
Proof.
  assert (Hd : within_limits (mk false 15 (-1)) = true)
    by (vm_compute; reflexivity).
  assert (Hm : MoneyWithVAT_within_limits (MoneyWithVAT_of_ints 100 19) = true)
    by (vm_compute; reflexivity).
  split; [exact Hd|]. split; [exact Hm|].
  destruct (MoneyWithVAT_mul_spec (MoneyWithVAT_of_ints 100 19)) as (H & _).
  exact (H _ Hd Hm).
Defined.
